(** * YOLO Studio: coordinate transform, editor gestures, detection ingestion

    A shallow embedding of the annotation engine of YOLO Studio
    (services/yoloService.ts, services/geminiService.ts, components/Canvas.tsx,
    components/MergeModal.tsx, types.ts) and the properties its
    specification states about it.

    Numbers.  A TypeScript [number] is an IEEE-754 binary64 value.  The
    geometry functions are written once, over an interface of arithmetic
    operations, and read in two ways: over the rationals [Q] (exact, "real"
    arithmetic; equality is [Qeq], written [==]) and over binary64 as given by
    the Standard Library's [SpecFloat] (round to nearest, ties to even).  The
    rest of the development works over [Q].  [Q] has no NaN and no infinity:
    where the source can meet one, the definition says so. *)

From Stdlib Require Import ZArith QArith Qminmax Qabs Qround Lia Lqa.
From Stdlib Require Import List String Ascii Bool.
From Stdlib Require Import Decimal DecimalString.
From Stdlib Require Import SpecFloat.
Import ListNotations.

Local Open Scope string_scope.
Local Open Scope Q_scope.

(** ** types.ts *)

(** [BBox]: a box in centre form; [x], [y] the centre and [w], [h] the size,
    all normalized to the image. The number type is a parameter. *)
Record BBox (T : Type) : Type := mkBBox {
  id : string;
  labelId : string;
  x : T;
  y : T;
  w : T;
  h : T
}.
Arguments mkBBox {T}.
Arguments id {T}.
Arguments labelId {T}.
Arguments x {T}.
Arguments y {T}.
Arguments w {T}.
Arguments h {T}.

Record LabelClass : Type := mkLabel {
  lid : string;     (* id *)
  name : string;
  color : string
}.

Inductive Status : Type := unlabeled | in_progress | done.

(** [DatasetImage] without its [file] and [url], which no modelled function
    reads. *)
Record DatasetImage : Type := mkImage {
  image_id : string;
  image_name : string;
  width : Q;
  height : Q;
  annotations : list (BBox Q);
  status : Status
}.

Inductive ToolMode : Type := SELECT | DRAW | PAN.

(** ** Arithmetic interface *)

Class Numeric (T : Type) : Type := {
  add : T -> T -> T;
  sub : T -> T -> T;
  mul : T -> T -> T;
  div : T -> T -> T;
  two : T
}.

#[export] Instance NumericQ : Numeric Q := {
  add := Qplus;
  sub := Qminus;
  mul := Qmult;
  div := Qdiv;
  two := 2
}.

(** binary64: 53 bits of precision, exponents below 1024. *)
Definition prec64 : Z := 53.
Definition emax64 : Z := 1024.
Definition float64 : Type := spec_float.

(** The binary64 number nearest to [m * 2^e]. *)
Definition f64 (m e : Z) : float64 := binary_normalize prec64 emax64 m e false.

#[export] Instance Numeric64 : Numeric float64 := {
  add := SFadd prec64 emax64;
  sub := SFsub prec64 emax64;
  mul := SFmul prec64 emax64;
  div := SFdiv prec64 emax64;
  two := f64 2 0
}.

(** ** services/yoloService.ts: normalized centre form <-> pixel corner form *)

(** The object [{x, y, w, h}] that [yoloToSvg] returns: a rectangle by its
    top-left corner and size, in image pixels. *)
Record Rect (T : Type) : Type := mkRect {
  rx : T;
  ry : T;
  rw : T;
  rh : T
}.
Arguments mkRect {T}.
Arguments rx {T}.
Arguments ry {T}.
Arguments rw {T}.
Arguments rh {T}.

Section Transform.
Context {T : Type} `{Numeric T}.

Definition yoloToSvg (bbox : BBox T) (imgWidth imgHeight : T) : Rect T :=
  let w' := mul (w bbox) imgWidth in
  let h' := mul (h bbox) imgHeight in
  let x' := sub (mul (x bbox) imgWidth) (div w' two) in
  let y' := sub (mul (y bbox) imgHeight) (div h' two) in
  mkRect x' y' w' h'.

(** [svgToYolo] returns an [Omit<BBox, 'id' | 'labelId'>]: the four
    geometry fields, here as a [Rect] read in centre form. *)
Definition svgToYolo (x y w h imgWidth imgHeight : T) : Rect T :=
  let cx := div (add x (div w two)) imgWidth in
  let cy := div (add y (div h two)) imgHeight in
  let nw := div w imgWidth in
  let nh := div h imgHeight in
  mkRect cx cy nw nh.

(** [{ ...a, ...newYolo }]: the geometry fields overwritten, [id] and
    [labelId] kept. *)
Definition withGeometry (a : BBox T) (g : Rect T) : BBox T :=
  mkBBox (id a) (labelId a) (rx g) (ry g) (rw g) (rh g).

(** The round trip of the contract:
    [toNormalized(toPixelRect(box, W, H), W, H)]. *)
Definition roundTrip (bbox : BBox T) (W H : T) : Rect T :=
  let r := yoloToSvg bbox W H in
  svgToYolo (rx r) (ry r) (rw r) (rh r) W H.
End Transform.

(** The rational a finite binary64 number stands for; [None] for NaN and the
    infinities. *)
Definition value64 (f : float64) : option Q :=
  match f with
  | S754_zero _ => Some 0
  | S754_finite s m e =>
      let q := inject_Z (Zpos m) * (if (0 <=? e)%Z then inject_Z (2 ^ e) else / inject_Z (2 ^ (- e))) in
      Some (if s then - q else q)
  | _ => None
  end.

(** [a] is within relative tolerance [tol] of [b]:
    [|a - b| <= tol * max(|a|, |b|)]. *)
Definition withinRel (tol a b : Q) : Prop :=
  Qabs (a - b) <= tol * Qmax (Qabs a) (Qabs b).

Definition withinRel64 (tol : Q) (a b : float64) : Prop :=
  match value64 a, value64 b with
  | Some qa, Some qb => withinRel tol qa qb
  | _, _ => False
  end.

Definition lt64 (a b : float64) : Prop := SFltb a b = true.

Definition tol9 : Q := 1 # 1000000000.

(** ** Number and string primitives of the language *)

Definition Qlt_bool (a b : Q) : bool := negb (Qle_bool b a).

(** The decimal digits of an integer, as a template literal prints them. *)
Definition decimal (z : Z) : string := NilZero.string_of_int (Z.to_int z).

Definition digitChar (d : Z) : ascii := ascii_of_nat (48 + Z.to_nat d).

(** The last [f] decimal digits of [n], most significant first, with leading
    zeros: always [f] characters. *)
Fixpoint fixedDigits (f : nat) (n : Z) : string :=
  match f with
  | O => ""
  | S f' => fixedDigits f' (n / 10) ++ String (digitChar (n mod 10)) ""
  end.

Fixpoint stripZerosRev (l : list ascii) : list ascii :=
  match l with
  | c :: l' => if Ascii.eqb c "0" then stripZerosRev l' else l
  | [] => []
  end.

(** Digits with the trailing zeros removed. *)
Definition stripTrailingZeros (s : string) : string :=
  string_of_list_ascii (List.rev (stripZerosRev (List.rev (list_ascii_of_string s)))).

(** [Number::toString] for a value of at least [10^21], where it uses the
    exponent form [d.ddde+n]. Every binary64 number that large is an integer;
    the digits here are the exact ones, which are the digits the language
    prints whenever they are few enough to identify the number (as for
    [1e21]). *)
Definition toStringLarge (ax : Q) : string :=
  let d := decimal (Qfloor ax) in
  let e := decimal (Z.of_nat (String.length d) - 1) in
  match stripTrailingZeros d with
  | String c "" => String c "" ++ "e+" ++ e
  | String c r => String c "" ++ "." ++ r ++ "e+" ++ e
  | "" => d
  end.

Definition fixedLimit : Q := inject_Z (10 ^ 21).

(** [Number.prototype.toFixed(f)] on a finite number: the sign, then either
    the exponent form (magnitude at least [10^21]) or the integer [n] nearest
    to [x * 10^f] (the larger one on a tie) written with [f] digits after the
    point. *)
Definition toFixed (f : nat) (q : Q) : string :=
  let s := if Qlt_bool q 0 then "-" else "" in
  let ax := Qabs q in
  if Qle_bool fixedLimit ax then s ++ toStringLarge ax
  else
    let p := (10 ^ Z.of_nat f)%Z in
    let n := Qfloor (ax * inject_Z p + (1 # 2)) in
    s ++ decimal (n / p) ++
      match f with
      | O => ""
      | _ => "." ++ fixedDigits f (n mod p)
      end.

(** [Array.prototype.findIndex]: the position of the first element that
    satisfies [p], [-1] when there is none. *)
Fixpoint findIndex {A : Type} (p : A -> bool) (l : list A) : Z :=
  match l with
  | [] => -1
  | a :: l' => if p a then 0%Z else
      let i := findIndex p l' in
      if (i =? -1)%Z then (-1)%Z else (i + 1)%Z
  end.

(** [Array.prototype.join]. *)
Definition join (sep : string) (l : list string) : string := String.concat sep l.

Definition newline : string := String "010" "".

(** ** services/yoloService.ts: export *)

Definition annotationLine (labels : list LabelClass) (ann : BBox Q) : string :=
  let classIndex := findIndex (fun l => String.eqb (lid l) (labelId ann)) labels in
  if (classIndex =? -1)%Z then ""
  else decimal classIndex ++ " " ++ toFixed 6 (x ann) ++ " " ++ toFixed 6 (y ann)
       ++ " " ++ toFixed 6 (w ann) ++ " " ++ toFixed 6 (h ann).

Definition generateYoloAnnotation (annotations : list (BBox Q)) (labels : list LabelClass) : string :=
  join newline (map (annotationLine labels) annotations).

(** ** components/Canvas.tsx: the pointer gestures *)

Inductive ResizeHandleType : Type := tl | tr | bl | br.

Record Point : Type := mkPoint { px : Q; py : Q }.

(** The props of [Canvas] that its handlers read. *)
Record CanvasProps : Type := mkProps {
  image : DatasetImage;
  currentLabelId : string;
  mode : ToolMode;
  zoom : Q;
  pan : Point;
  selectedAnnotationId : option string
}.

(** The [useState] cells of [Canvas]. A handler reads the cells as they were
    when the event arrived and returns their next values. *)
Record CanvasState : Type := mkState {
  isDragging : bool;
  dragStart : option Point;
  activeCreation : option (Rect Q);
  draggingAnnotationId : option string;
  resizeHandle : option ResizeHandleType
}.

Record MouseEvent : Type := mkEvent { clientX : Q; clientY : Q }.

(** Calls of the callbacks handed to [Canvas], in the order made. *)
Inductive Callback : Type :=
| onUpdateAnnotations (anns : list (BBox Q))
| onPanChange (x y : Q)
| onSelectAnnotation (sel : option string).

(** Truthiness of a [string | null]: null and the empty string are falsy. *)
Definition truthy (o : option string) : bool :=
  match o with
  | Some s => negb (String.eqb s "")
  | None => false
  end.

(** [a.id === sel] for a [string | null] on the right. *)
Definition idIs (sel : option string) (a : BBox Q) : bool :=
  match sel with
  | Some s => String.eqb (id a) s
  | None => false
  end.

(** [containerRef.current] is [None] before the element is mounted, otherwise
    the left and top of its bounding rectangle. *)
Definition getMousePos (props : CanvasProps) (container : option Point) (e : MouseEvent) : Point :=
  match container with
  | None => mkPoint 0 0
  | Some rect =>
      mkPoint ((clientX e - px rect - px (pan props)) / zoom props)
              ((clientY e - py rect - py (pan props)) / zoom props)
  end.

(** Branch 3 of [handleMouseMove]: the new pixel rectangle for a pointer at
    [(x, y)], the corner opposite to the handle being the anchor. *)
Definition resizeRect (handle : ResizeHandleType) (rect : Rect Q) (x y : Q) : Rect Q :=
  match handle with
  | tl =>
      let brX := rx rect + rw rect in
      let brY := ry rect + rh rect in
      let newX := Qmin x (brX - 5) in
      let newY := Qmin y (brY - 5) in
      mkRect newX newY (brX - newX) (brY - newY)
  | tr =>
      let blX := rx rect in
      let blY := ry rect + rh rect in
      let newY := Qmin y (blY - 5) in
      mkRect (rx rect) newY (Qmax (x - blX) 5) (blY - newY)
  | bl =>
      let trX := rx rect + rw rect in
      let trY := ry rect in
      let newX := Qmin x (trX - 5) in
      mkRect newX (ry rect) (trX - newX) (Qmax (y - trY) 5)
  | br =>
      let tlX := rx rect in
      let tlY := ry rect in
      mkRect (rx rect) (ry rect) (Qmax (x - tlX) 5) (Qmax (y - tlY) 5)
  end.

Definition handleMouseMove (props : CanvasProps) (st : CanvasState)
    (container : option Point) (e : MouseEvent) : CanvasState * list Callback :=
  let img := image props in
  (* 1. Handle Panning *)
  match mode props, isDragging st, dragStart st with
  | PAN, true, Some ds =>
      let dx := clientX e - px ds in
      let dy := clientY e - py ds in
      (mkState (isDragging st) (Some (mkPoint (clientX e) (clientY e))) (activeCreation st)
               (draggingAnnotationId st) (resizeHandle st),
       [onPanChange (px (pan props) + dx) (py (pan props) + dy)])
  | _, _, _ =>
  let p := getMousePos props container e in
  (* 2. Handle Creating New Box *)
  match mode props, isDragging st, dragStart st with
  | DRAW, true, Some ds =>
      let w := px p - px ds in
      let h := py p - py ds in
      (mkState (isDragging st) (dragStart st)
               (Some (mkRect (if Qlt_bool 0 w then px ds else px p)
                             (if Qlt_bool 0 h then py ds else py p)
                             (Qabs w) (Qabs h)))
               (draggingAnnotationId st) (resizeHandle st),
       [])
  | _, _, _ =>
  (* 3. Handle Resizing Existing Box *)
  match mode props, resizeHandle st, truthy (selectedAnnotationId props) with
  | SELECT, Some handle, true =>
      match find (idIs (selectedAnnotationId props)) (annotations img) with
      | Some ann =>
          let rect := yoloToSvg ann (width img) (height img) in
          let r := resizeRect handle rect (px p) (py p) in
          let newYolo := svgToYolo (rx r) (ry r) (rw r) (rh r) (width img) (height img) in
          let updatedAnns :=
            map (fun a => if String.eqb (id a) (id ann) then withGeometry a newYolo else a)
                (annotations img) in
          (st, [onUpdateAnnotations updatedAnns])
      | None => (st, [])
      end
  | _, _, _ =>
  (* 4. Handle Moving Existing Box *)
  match mode props, isDragging st, truthy (draggingAnnotationId st) with
  | SELECT, true, true =>
      match find (idIs (draggingAnnotationId st)) (annotations img), dragStart st with
      | Some ann, Some ds =>
          let dx := (px p - px ds) / width img in
          let dy := (py p - py ds) / height img in
          let newAnns :=
            map (fun a => if idIs (draggingAnnotationId st) a
                          then mkBBox (id a) (labelId a) (x a + dx) (y a + dy) (w a) (h a)
                          else a)
                (annotations img) in
          (mkState (isDragging st) (Some p) (activeCreation st)
                   (draggingAnnotationId st) (resizeHandle st),
           [onUpdateAnnotations newAnns])
      | _, _ => (st, [])
      end
  | _, _, _ => (st, [])
  end end end end.

(** [handleResizeStart]: pointer-down on one of the four handles. *)
Definition handleResizeStart (st : CanvasState) (handle : ResizeHandleType) : CanvasState :=
  mkState true (dragStart st) (activeCreation st) (draggingAnnotationId st) (Some handle).

(** [handleAnnMouseDown]: pointer-down on a box. *)
Definition handleAnnMouseDown (props : CanvasProps) (st : CanvasState)
    (container : option Point) (e : MouseEvent) (id : string) : CanvasState * list Callback :=
  match mode props with
  | SELECT =>
      (mkState true (Some (getMousePos props container e)) (activeCreation st)
               (Some id) (resizeHandle st),
       [onSelectAnnotation (Some id)])
  | _ => (st, [])
  end.

(** The corner that stays put while [handle] is dragged: bottom-right for
    the top-left handle, bottom-left for top-right, top-right for
    bottom-left, top-left for bottom-right. *)
Definition oppositeCorner (handle : ResizeHandleType) (r : Rect Q) : Point :=
  match handle with
  | tl => mkPoint (rx r + rw r) (ry r + rh r)
  | tr => mkPoint (rx r) (ry r + rh r)
  | bl => mkPoint (rx r + rw r) (ry r)
  | br => mkPoint (rx r) (ry r)
  end.

Definition samePoint (p q : Point) : Prop := px p == px q /\ py p == py q.

(** [handleMouseDown]: pointer-down on the canvas itself. *)
Definition handleMouseDown (props : CanvasProps) (st : CanvasState)
    (container : option Point) (e : MouseEvent) : CanvasState * list Callback :=
  let p := getMousePos props container e in
  match mode props with
  | PAN =>
      (mkState true (Some (mkPoint (clientX e) (clientY e))) (activeCreation st)
               (draggingAnnotationId st) (resizeHandle st), [])
  | DRAW =>
      (mkState true (Some p) (Some (mkRect (px p) (py p) 0 0))
               (draggingAnnotationId st) (resizeHandle st),
       [onSelectAnnotation None])
  | SELECT => (st, [onSelectAnnotation None])
  end.

(** [handleMouseUp]; [uuid] is the value [crypto.randomUUID()] returns. *)
Definition handleMouseUp (props : CanvasProps) (st : CanvasState) (uuid : string)
    : CanvasState * list Callback :=
  let img := image props in
  let idle := mkState false None None None None in
  match mode props, activeCreation st with
  | DRAW, Some ac =>
      if Qlt_bool 5 (rw ac) && Qlt_bool 5 (rh ac) then
        let yoloBox := svgToYolo (rx ac) (ry ac) (rw ac) (rh ac) (width img) (height img) in
        let newAnn := mkBBox uuid (currentLabelId props)
                             (rx yoloBox) (ry yoloBox) (rw yoloBox) (rh yoloBox) in
        (idle, [onUpdateAnnotations (annotations img ++ [newAnn])%list;
                onSelectAnnotation (Some (id newAnn))])
      else (idle, [])
  | _, _ => (mkState false None (activeCreation st) None None, [])
  end.

(** ** services/geminiService.ts (the service of [autoLabelImage]): configuration *)

(** [AutoLabelConfig]: every field optional; [None] is a field left out.
    [maxRetries] counts loop rounds and is taken as an integer. *)
Record AutoLabelConfig : Type := mkConfig {
  model : option string;
  minConfidence : option Q;
  maxRetries : option Z;
  temperature : option Q;
  includeDescription : option bool
}.

Definition emptyConfig : AutoLabelConfig := mkConfig None None None None None.

(** The values bound by the destructuring at the head of [autoLabelImage]. *)
Record Settings : Type := mkSettings {
  s_model : string;
  s_minConfidence : Q;
  s_maxRetries : Z;
  s_temperature : Q;
  s_includeDescription : bool
}.

Definition orDefault {A : Type} (o : option A) (d : A) : A :=
  match o with
  | Some a => a
  | None => d
  end.

Definition settings (config : AutoLabelConfig) : Settings :=
  mkSettings (orDefault (model config) "gemini-3-flash-preview")
             (orDefault (minConfidence config) (93 # 100))
             (orDefault (maxRetries config) 3%Z)
             (orDefault (temperature config) 0)
             (orDefault (includeDescription config) false).

(** The default that the comment on [AutoLabelConfig.minConfidence]
    documents ("default: 0.3"). *)
Definition documentedMinConfidence : Q := 3 # 10.

(** ** services/geminiService.ts: the retry wrapper *)

(** What a run of [retryAsync] does, in order: calls of [fn] (numbered from
    0) and sleeps (in milliseconds). *)
Inductive RetryEvent : Type :=
| Attempt (k : nat)
| Sleep (ms : Z).

(** How an [async] function ends: with a value, or by throwing. A thrown
    [None] is [undefined]. *)
Inductive Completion (E T : Type) : Type :=
| Returned (v : T)
| Thrown (e : option E).
Arguments Returned {E T}.
Arguments Thrown {E T}.

Section Retry.
Context {E T : Type}.
(** [fn k] is how the call number [k] of [fn] ends: [inl] an error thrown,
    [inr] a value. *)
Variable fn : nat -> E + T.

(** The rounds of the [for] loop that remain, [n] of them, from round
    [attempt] on. *)
Fixpoint retryLoop (n : nat) (attempt : nat) (maxRetries : Z) (retryDelay : Z)
    (lastError : option E) : Completion E T * list RetryEvent :=
  match n with
  | O => (Thrown lastError, [])
  | S n' =>
      match fn attempt with
      | inr v => (Returned v, [Attempt attempt])
      | inl error =>
          if (Z.of_nat attempt <? maxRetries)%Z then
            let (c, evs) := retryLoop n' (S attempt) maxRetries (retryDelay * 2) (Some error) in
            (c, Attempt attempt :: Sleep retryDelay :: evs)
          else
            let (c, evs) := retryLoop n' (S attempt) maxRetries retryDelay (Some error) in
            (c, Attempt attempt :: evs)
      end
  end.

(** [for (attempt = 0; attempt <= maxRetries; attempt++)] runs
    [maxRetries + 1] rounds, none when [maxRetries] is negative. *)
Definition retryAsync (maxRetries : Z) (retryDelay : Z) : Completion E T * list RetryEvent :=
  retryLoop (Z.to_nat (maxRetries + 1)) 0 maxRetries retryDelay None.
End Retry.

Definition defaultRetryDelay : Z := 1000.

Fixpoint attemptsOf (evs : list RetryEvent) : nat :=
  match evs with
  | Attempt _ :: evs' => S (attemptsOf evs')
  | Sleep _ :: evs' => attemptsOf evs'
  | [] => O
  end.

Fixpoint sleepsOf (evs : list RetryEvent) : list Z :=
  match evs with
  | Sleep ms :: evs' => ms :: sleepsOf evs'
  | Attempt _ :: evs' => sleepsOf evs'
  | [] => []
  end.

(** [d; 2d; 4d; ...], [n] delays. *)
Fixpoint backoff (n : nat) (d : Z) : list Z :=
  match n with
  | O => []
  | S n' => d :: backoff n' (d * 2)
  end.

(** ** services/geminiService.ts: the detections *)

(** String primitives. A string is its sequence of bytes; on ASCII text these
    are [String.prototype.toLowerCase] and [String.prototype.trim], and the
    statements that depend on what they do to a text are stated for ASCII
    text ([isAscii] below). *)
Definition lowerChar (c : ascii) : ascii :=
  let n := nat_of_ascii c in
  if (65 <=? n)%nat && (n <=? 90)%nat then ascii_of_nat (n + 32) else c.

Fixpoint toLowerCase (s : string) : string :=
  match s with
  | "" => ""
  | String c s' => String (lowerChar c) (toLowerCase s')
  end.

Definition isSpace (c : ascii) : bool :=
  let n := nat_of_ascii c in
  ((9 <=? n)%nat && (n <=? 13)%nat) || (n =? 32)%nat.

Fixpoint trimStart (s : string) : string :=
  match s with
  | String c s' => if isSpace c then trimStart s' else s
  | "" => ""
  end.

Definition reverseString (s : string) : string :=
  string_of_list_ascii (List.rev (list_ascii_of_string s)).

Definition trim (s : string) : string :=
  reverseString (trimStart (reverseString (trimStart s))).

(** [s.includes(t)]: [t] occurs in [s]. *)
Fixpoint includes (s t : string) : bool :=
  String.prefix t s ||
  match s with
  | "" => false
  | String _ s' => includes s' t
  end.

(** A number that may be NaN ([None]); reading an array past its end gives
    [undefined], which compares and divides as NaN does. *)
Definition num : Type := option Q.

Definition at_ (box : list num) (k : nat) : num :=
  match nth_error box k with
  | Some v => v
  | None => None
  end.

Definition ngt (a b : num) : bool :=
  match a, b with
  | Some p, Some q => Qlt_bool q p
  | _, _ => false
  end.

(** Division by a divisor known to be positive. *)
Definition ndiv (a : num) (d : Q) : num :=
  match a with
  | Some p => Some (p / d)
  | None => None
  end.

(** [box[k] = v] for [k] inside the array. *)
Fixpoint setAt (k : nat) (v : num) (box : list num) : list num :=
  match box, k with
  | _ :: box', O => v :: box'
  | b :: box', S k' => b :: setAt k' v box'
  | [], _ => []
  end.

(** [GeminiDetectionResult] as parsed from the reply: any field may be
    missing ([None]); the entries of [box_2d] are numbers. *)
Record GeminiDetectionResult : Type := mkDetection {
  label : option string;
  box_2d : option (list Q);
  confidence : option Q;
  description : option string
}.

(** [BBoxWithConfidence] as [autoLabelImage] builds it. *)
Record BBoxWithConfidence : Type := mkScored {
  bbox : BBox Q;
  b_confidence : Q;
  b_description : option string
}.

Definition validateBBox (box : list num) : bool :=
  (List.length box =? 4)%nat &&
  forallb (fun v => match v with Some _ => true | None => false end) box.

(** The numbers of an array that holds no NaN. *)
Fixpoint numbers (box : list num) : option (list Q) :=
  match box with
  | [] => Some []
  | Some q :: box' =>
      match numbers box' with
      | Some qs => Some (q :: qs)
      | None => None
      end
  | None :: _ => None
  end.

Definition MIN_SIZE : Q := 1 # 100.

(** [clampBBox]. With fewer than four entries the source's result would hold
    [undefined]; that is [None] here, and [validateBBox] has excluded it
    before the call. *)
Definition clampBBox (box : list Q) : option (list Q) :=
  match map (fun v => Qmax 0 (Qmin 1 v)) box with
  | ymin :: xmin :: ymax :: xmax :: _ =>
      let '(ymin, ymax) :=
        if Qlt_bool (ymax - ymin) MIN_SIZE then
          let center := (ymin + ymax) / 2 in
          (Qmax 0 (center - MIN_SIZE / 2), Qmin 1 (center + MIN_SIZE / 2))
        else (ymin, ymax) in
      let '(xmin, xmax) :=
        if Qlt_bool (xmax - xmin) MIN_SIZE then
          let center := (xmin + xmax) / 2 in
          (Qmax 0 (center - MIN_SIZE / 2), Qmin 1 (center + MIN_SIZE / 2))
        else (xmin, xmax) in
      Some [ymin; xmin; ymax; xmax]
  | _ => None
  end.

(** A [Map] with string keys: entries in insertion order; setting a key that
    is present replaces its value where it stands. *)
Definition JsMap (V : Type) : Type := list (string * V).

Fixpoint mapSet {V : Type} (k : string) (v : V) (m : JsMap V) : JsMap V :=
  match m with
  | [] => [(k, v)]
  | (k', v') :: m' => if String.eqb k' k then (k, v) :: m' else (k', v') :: mapSet k v m'
  end.

Fixpoint mapGet {V : Type} (k : string) (m : JsMap V) : option V :=
  match m with
  | [] => None
  | (k', v') :: m' => if String.eqb k' k then Some v' else mapGet k m'
  end.

(** [new Map(activeLabels.map(l => [l.name.toLowerCase().trim(), l]))]. *)
Definition makeLabelMap (activeLabels : list LabelClass) : JsMap LabelClass :=
  fold_left (fun m l => mapSet (trim (toLowerCase (name l))) l m) activeLabels [].

(** Step 2: the exact match, else the first entry one of whose key and the
    detected label contains the other. *)
Definition resolveLabel (labelMap : JsMap LabelClass) (resLabel : string) : option LabelClass :=
  match mapGet resLabel labelMap with
  | Some l => Some l
  | None =>
      match find (fun kv => includes resLabel (fst kv) || includes (fst kv) resLabel) labelMap with
      | Some kv => Some (snd kv)
      | None => None
      end
  end.

(** Step 4, "Normalize Coordinates": [None] when the box is in pixels and the
    image has no size yet. *)
Definition normalizeCoordinates (img : DatasetImage) (box : list num) : option (list num) :=
  if existsb (fun v => ngt v (Some 1)) box then
    if Qlt_bool 0 (width img) && Qlt_bool 0 (height img) then
      Some [ndiv (at_ box 0) (height img);
            ndiv (at_ box 1) (width img);
            ndiv (at_ box 2) (height img);
            ndiv (at_ box 3) (width img)]
    else None
  else Some box.

(** The two swaps that follow step 4. *)
Definition correctInversion (box : list num) : list num :=
  let box := if ngt (at_ box 0) (at_ box 2)
             then setAt 2 (at_ box 0) (setAt 0 (at_ box 2) box) else box in
  if ngt (at_ box 1) (at_ box 3)
  then setAt 3 (at_ box 1) (setAt 1 (at_ box 3) box) else box.

(** How one round of [results.forEach] ends: by one of its early returns, or
    with an annotation pushed. *)
Inductive Outcome : Type :=
| MissingField        (* 'label' or 'box_2d' missing *)
| UnknownLabel        (* unknownLabels++ *)
| BelowThreshold      (* filteredByConfidence++ *)
| UnknownDimensions   (* invalidBoxes++: pixel coordinates, image size unknown *)
| InvalidBox          (* invalidBoxes++: validateBBox failed *)
| ZeroSize            (* invalidBoxes++: w <= 0 or h <= 0 *)
| Pushed (a : BBoxWithConfidence).

(** Step 3: [Number(res.confidence ?? 1.0)]. *)
Definition confidenceOf (res : GeminiDetectionResult) : Q :=
  match confidence res with
  | Some c => c
  | None => 1
  end.

(** Steps 4 to the end, for a detection that has its label and passed the
    confidence check. *)
Definition convertBox (img : DatasetImage) (res : GeminiDetectionResult) (boxIn : list Q)
    (labelObj : LabelClass) (conf : Q) (uuid : string) : Outcome :=
  match normalizeCoordinates img (map Some boxIn) with
  | None => UnknownDimensions
  | Some box =>
      let box := correctInversion box in
      if negb (validateBBox box) then InvalidBox
      else
        match numbers box with
        | None => InvalidBox
        | Some qs =>
            match clampBBox qs with
            | Some [ymin; xmin; ymax; xmax] =>
                let w := xmax - xmin in
                let h := ymax - ymin in
                let cx := xmin + w / 2 in
                let cy := ymin + h / 2 in
                if Qle_bool w 0 || Qle_bool h 0 then ZeroSize
                else Pushed (mkScored (mkBBox uuid (lid labelObj) cx cy w h)
                                      conf (description res))
            | _ => InvalidBox
            end
        end
  end.

(** The body of [results.forEach]. *)
Definition processDetection (img : DatasetImage) (labelMap : JsMap LabelClass)
    (minConfidence : Q) (res : GeminiDetectionResult) (uuid : string) : Outcome :=
  (* 1. Validate Structure *)
  match label res, box_2d res with
  | Some lbl, Some boxIn =>
      if String.eqb lbl "" then MissingField
      else
        (* 2. Resolve Label *)
        match resolveLabel labelMap (trim (toLowerCase lbl)) with
        | None => UnknownLabel
        | Some labelObj =>
            (* 3. Check Confidence *)
            let conf := confidenceOf res in
            if Qlt_bool conf minConfidence then BelowThreshold
            else convertBox img res boxIn labelObj conf uuid
        end
  | _, _ => MissingField
  end.

(** The counters and the list that [forEach] fills. *)
Record Tally : Type := mkTally {
  newAnnotations : list BBoxWithConfidence;
  filteredByConfidence : nat;
  invalidBoxes : nat;
  unknownLabels : nat
}.

Definition record (t : Tally) (o : Outcome) : Tally :=
  match o with
  | MissingField => t
  | UnknownLabel =>
      mkTally (newAnnotations t) (filteredByConfidence t) (invalidBoxes t) (S (unknownLabels t))
  | BelowThreshold =>
      mkTally (newAnnotations t) (S (filteredByConfidence t)) (invalidBoxes t) (unknownLabels t)
  | UnknownDimensions | InvalidBox | ZeroSize =>
      mkTally (newAnnotations t) (filteredByConfidence t) (S (invalidBoxes t)) (unknownLabels t)
  | Pushed a =>
      mkTally (newAnnotations t ++ [a])%list (filteredByConfidence t) (invalidBoxes t) (unknownLabels t)
  end.

(** [results.forEach(...)]; [uuid k] is the identifier drawn for the item at
    position [k]. *)
Fixpoint ingestFrom (img : DatasetImage) (labelMap : JsMap LabelClass) (minConfidence : Q)
    (uuid : nat -> string) (index : nat) (results : list GeminiDetectionResult) (t : Tally) : Tally :=
  match results with
  | [] => t
  | res :: rest =>
      ingestFrom img labelMap minConfidence uuid (S index) rest
        (record t (processDetection img labelMap minConfidence res (uuid index)))
  end.

Definition ingest (img : DatasetImage) (activeLabels : list LabelClass) (minConfidence : Q)
    (uuid : nat -> string) (results : list GeminiDetectionResult) : Tally :=
  ingestFrom img (makeLabelMap activeLabels) minConfidence uuid 0 results (mkTally [] 0 0 0).

(** [autoLabelImage] from the reply on: [api k] is how request number [k]
    ends, [inl] an error message or [inr] the array parsed from the reply.
    The [catch] at the end rewrites some messages and rethrows. *)
Definition classify (message : string) : string :=
  if includes message "API_KEY" then
    "Gemini API key is invalid or missing. Please check your API_KEY environment variable."
  else if includes message "429" || includes message "quota" then
    "Gemini API quota exceeded. Please try again later."
  else if includes message "fetch" || includes message "network" then
    "Network error: Failed to communicate with Gemini API."
  else message.

Definition autoLabelImage (img : DatasetImage) (activeLabels : list LabelClass)
    (config : AutoLabelConfig) (api : nat -> string + list GeminiDetectionResult)
    (uuid : nat -> string) : Completion string (list BBoxWithConfidence) :=
  match activeLabels with
  | [] => Thrown (Some "No active labels provided. Please specify at least one label class.")
  | _ =>
      let cfg := settings config in
      match fst (retryAsync api (s_maxRetries cfg) defaultRetryDelay) with
      | Thrown (Some message) => Thrown (Some (classify message))
      | Thrown None => Thrown None
      | Returned results =>
          Returned (newAnnotations (ingest img activeLabels (s_minConfidence cfg) uuid results))
      end
  end.

(** ** Label merge *)

(** The data the merge works on: every image and the label list
    (the [images] and [labels] cells of [App]). *)
Record Dataset : Type := mkDataset {
  images : list DatasetImage;
  labels : list LabelClass
}.

Definition hasLabel (i : string) (labels : list LabelClass) : bool :=
  existsb (fun l => String.eqb (lid l) i) labels.

Definition relabel (sourceId targetId : string) (a : BBox Q) : BBox Q :=
  if String.eqb (labelId a) sourceId
  then mkBBox (id a) targetId (x a) (y a) (w a) (h a)
  else a.

(** Modelled from the spec: the merge operation itself, the [onMerge] handler
    that [MergeModal] calls, is not among the sources. Section 4.4: every
    annotation of every image whose [labelId] is [sourceId] is rewritten to
    [targetId], and the label with [sourceId] is removed from the label
    list; section 7: a merge of a label into itself or with an id that does
    not exist is rejected before anything changes ([None]). *)
Definition merge (sourceId targetId : string) (d : Dataset) : option Dataset :=
  if String.eqb sourceId targetId
     || negb (hasLabel sourceId (labels d))
     || negb (hasLabel targetId (labels d))
  then None
  else Some (mkDataset
    (map (fun img => mkImage (image_id img) (image_name img) (width img) (height img)
                             (map (relabel sourceId targetId) (annotations img))
                             (status img))
         (images d))
    (filter (fun l => negb (String.eqb (lid l) sourceId)) (labels d))).

(** components/MergeModal.tsx, [handleConfirm]: [onMerge] is called when both
    selections are non-empty and differ; [None] when it is not called. *)
Definition handleConfirm (sourceId targetId : string) : option (string * string) :=
  if negb (String.eqb sourceId "") && negb (String.eqb targetId "")
     && negb (String.eqb sourceId targetId)
  then Some (sourceId, targetId)
  else None.

(** The number of annotations of the whole dataset, and of one label (the
    count the label list of [App] shows). *)
Definition totalAnnotations (d : Dataset) : nat :=
  list_sum (map (fun img => List.length (annotations img)) (images d)).

Definition countLabel (i : string) (d : Dataset) : nat :=
  list_sum (map (fun img =>
              List.length (filter (fun a => String.eqb (labelId a) i) (annotations img)))
            (images d)).

(** A box of full width whose centre is [2^-70], on a 1 x 1 image. *)
Definition tinyCentre : BBox float64 :=
  mkBBox "a" "0" (f64 1 (-70)) (f64 1 (-1)) (f64 1 0) (f64 1 0).

(** ** The export format, in the words of the specification *)

Definition isDigit (c : ascii) : bool :=
  let n := nat_of_ascii c in (48 <=? n)%nat && (n <=? 57)%nat.

Fixpoint allDigits (s : string) : bool :=
  match s with
  | "" => true
  | String c s' => isDigit c && allDigits s'
  end.

(** The number that a string of digits denotes, after the digits [acc]. *)
Fixpoint digitsValue (acc : Z) (s : string) : Z :=
  match s with
  | "" => acc
  | String c s' => digitsValue (10 * acc + (Z.of_nat (nat_of_ascii c) - 48)) s'
  end.

(** [s] is [q] formatted to exactly six decimal places: a sign when [q] is
    negative, the digits of an integer part, a point, and six digits, the
    whole denoting the multiple of [10^-6] nearest to [|q|]. *)
Definition SixDecimals (q : Q) (s : string) : Prop :=
  exists (ip : Z) (frac : string),
    (0 <= ip)%Z /\
    s = (if Qlt_bool q 0 then "-" else "") ++ decimal ip ++ "." ++ frac /\
    String.length frac = 6%nat /\
    allDigits frac = true /\
    Qabs (inject_Z ip + inject_Z (digitsValue 0 frac) / inject_Z (10 ^ 6) - Qabs q)
      <= 1 # 2000000.

(** [line] is the line of annotation [a]: the zero-based position of the
    first label whose id is [a]'s [labelId], then [x], [y], [w], [h] to six
    decimal places, separated by single spaces. *)
Definition ExportLine (labels : list LabelClass) (a : BBox Q) (line : string) : Prop :=
  exists (i : nat) (l : LabelClass) (sx sy sw sh : string),
    nth_error labels i = Some l /\ lid l = labelId a /\
    (forall j l', (j < i)%nat -> nth_error labels j = Some l' -> lid l' <> labelId a) /\
    SixDecimals (x a) sx /\ SixDecimals (y a) sy /\
    SixDecimals (w a) sw /\ SixDecimals (h a) sh /\
    line = decimal (Z.of_nat i) ++ " " ++ sx ++ " " ++ sy ++ " " ++ sw ++ " " ++ sh.

(** The magnitudes that [toFixed] writes in fixed notation. *)
Definition fixedRange (q : Q) : Prop := Qabs q < fixedLimit.

(** ** Sample data *)

Definition resizeProps : CanvasProps :=
  mkProps (mkImage "img" "a.jpg" 640 480
             [mkBBox "b1" "0" (1 # 2) (1 # 2) (1 # 4) (1 # 4)] in_progress)
          "0" SELECT 2 (mkPoint 10 20) (Some "b1").

Definition resizeState : CanvasState := mkState true None None None (Some tl).

(** A request that fails every time, and one that succeeds on its third
    call. *)
Definition alwaysFails : nat -> string + nat := fun k => inl ("error " ++ decimal (Z.of_nat k)).

Definition failsTwice : nat -> string + nat :=
  fun k => if (k <? 2)%nat then inl ("error " ++ decimal (Z.of_nat k)) else inr 7%nat.

Definition halfSure : GeminiDetectionResult :=
  mkDetection (Some "car") (Some [1 # 10; 2 # 10; 5 # 10; 6 # 10]) (Some (1 # 2)) None.

Definition vga : DatasetImage := mkImage "img" "a.jpg" 640 480 [] unlabeled.

Definition noSizeYet : DatasetImage := mkImage "img" "a.jpg" 0 0 [] unlabeled.

Definition unsure : GeminiDetectionResult :=
  mkDetection (Some "car") (Some [1 # 10; 2 # 10; 5 # 10; 6 # 10]) (Some (1 # 5)) None.

Definition unscored : GeminiDetectionResult :=
  mkDetection (Some "car") (Some [1 # 10; 2 # 10; 5 # 10; 6 # 10]) None None.

Definition labelA : LabelClass := mkLabel "A" "cat" "#ef4444".
Definition labelB : LabelClass := mkLabel "B" "dog" "#3b82f6".

Definition box (i l : string) : BBox Q := mkBBox i l (1 # 2) (1 # 2) (1 # 4) (1 # 4).

(** Label [A] with 3 annotations and label [B] with 2, over two images. *)
Definition threeAndTwo : Dataset :=
  mkDataset
    [mkImage "i1" "1.jpg" 640 480 [box "1" "A"; box "2" "B"; box "3" "A"] in_progress;
     mkImage "i2" "2.jpg" 640 480 [box "4" "B"; box "5" "A"] in_progress]
    [labelA; labelB].

Definition car0 : LabelClass := mkLabel "c0" "car" "#ef4444".
Definition dog1 : LabelClass := mkLabel "c1" "dog" "#3b82f6".

Definition twoBoxes : list (BBox Q) :=
  [mkBBox "a" "c0" (1 # 2) (1 # 2) (1 # 4) (1 # 4);
   mkBBox "b" "c1" (1 # 10) (2 # 10) (5 # 100) (5 # 100)].

(** A box whose centre abscissa is [10^21], as an imported annotation file
    can hold. *)
Definition farRight : BBox Q := mkBBox "a" "c0" (inject_Z (10 ^ 21)) (1 # 2) (1 # 2) (1 # 2).

Definition orphan : BBox Q := mkBBox "o" "gone" (1 # 2) (1 # 2) (1 # 4) (1 # 4).

(** ** services/yoloService.ts: the class manifest *)

Definition nameLine (l : LabelClass) : string := "  - " ++ name l.

(** [generateDataYaml]: the template literal, line by line. *)
Definition generateDataYaml (labels : list LabelClass) : string :=
  let names := join newline (map nameLine labels) in
  newline ++ "train: ./train/images" ++ newline ++ "val: ./val/images" ++ newline
  ++ newline ++ "nc: " ++ decimal (Z.of_nat (List.length labels)) ++ newline
  ++ "names:" ++ newline ++ names ++ newline.

(** ** App.tsx: the state the canvas edits *)

(** The [useState] cells of [App] that the editor reads and writes. *)
Record AppState : Type := mkApp {
  a_images : list DatasetImage;
  selectedImageId : option string;
  a_labels : list LabelClass;
  a_currentLabelId : string;
  toolMode : ToolMode;
  a_zoom : Q;
  a_pan : Point;
  selectedAnnId : option string
}.

(** [img.id === selectedImageId]. *)
Definition imageIs (sel : option string) (img : DatasetImage) : bool :=
  match sel with
  | Some s => String.eqb (image_id img) s
  | None => false
  end.

(** [images.find(img => img.id === selectedImageId)]. *)
Definition currentImage (app : AppState) : option DatasetImage :=
  find (imageIs (selectedImageId app)) (a_images app).

(** [newAnnotations.length > 0 ? 'in-progress' : 'unlabeled']. *)
Definition deriveStatus (anns : list (BBox Q)) : Status :=
  match anns with
  | [] => unlabeled
  | _ => in_progress
  end.

Definition withImages (app : AppState) (imgs : list DatasetImage) : AppState :=
  mkApp imgs (selectedImageId app) (a_labels app) (a_currentLabelId app) (toolMode app)
        (a_zoom app) (a_pan app) (selectedAnnId app).

Definition withPan (app : AppState) (p : Point) : AppState :=
  mkApp (a_images app) (selectedImageId app) (a_labels app) (a_currentLabelId app)
        (toolMode app) (a_zoom app) p (selectedAnnId app).

Definition withSelectedAnn (app : AppState) (sel : option string) : AppState :=
  mkApp (a_images app) (selectedImageId app) (a_labels app) (a_currentLabelId app)
        (toolMode app) (a_zoom app) (a_pan app) sel.

Definition updateAnnotations (app : AppState) (newAnnotations : list (BBox Q)) : AppState :=
  if negb (truthy (selectedImageId app)) then app
  else
    withImages app
      (map (fun img =>
              if imageIs (selectedImageId app) img
              then mkImage (image_id img) (image_name img) (width img) (height img)
                           newAnnotations (deriveStatus newAnnotations)
              else img)
           (a_images app)).

Definition handleDeleteAnnotation (app : AppState) : AppState :=
  match truthy (selectedAnnId app), currentImage app with
  | true, Some cur =>
      let newAnns := filter (fun a => negb (idIs (selectedAnnId app) a)) (annotations cur) in
      withSelectedAnn (updateAnnotations app newAnns) None
  | _, _ => app
  end.

(** The props [App] hands to [Canvas]; there is no canvas without a current
    image. *)
Definition canvasProps (app : AppState) : option CanvasProps :=
  match currentImage app with
  | Some img =>
      Some (mkProps img (a_currentLabelId app) (toolMode app) (a_zoom app) (a_pan app)
                    (selectedAnnId app))
  | None => None
  end.

(** What [App] does on a callback of [Canvas]:
    [onUpdateAnnotations={updateAnnotations}],
    [onPanChange={(x, y) => setPan({ x, y })}],
    [onSelectAnnotation={setSelectedAnnId}]. *)
Definition deliver (app : AppState) (cb : Callback) : AppState :=
  match cb with
  | onUpdateAnnotations anns => updateAnnotations app anns
  | onPanChange x y => withPan app (mkPoint x y)
  | onSelectAnnotation sel => withSelectedAnn app sel
  end.

Definition deliverAll (app : AppState) (cbs : list Callback) : AppState :=
  fold_left deliver cbs app.

(** One event on the canvas: the handler runs on the props of the current
    render and [App] takes its callbacks; the next event sees the props of
    the next render. *)
Definition onCanvas (handler : CanvasProps -> CanvasState -> CanvasState * list Callback)
    (app : AppState) (st : CanvasState) : AppState * CanvasState :=
  match canvasProps app with
  | Some props =>
      let (st', cbs) := handler props st in
      (deliverAll app cbs, st')
  | None => (app, st)
  end.

Definition mouseDown (container : option Point) (e : MouseEvent)
    (app : AppState) (st : CanvasState) : AppState * CanvasState :=
  onCanvas (fun props st => handleMouseDown props st container e) app st.

Definition mouseMove (container : option Point) (e : MouseEvent)
    (app : AppState) (st : CanvasState) : AppState * CanvasState :=
  onCanvas (fun props st => handleMouseMove props st container e) app st.

Definition mouseUp (uuid : string) (app : AppState) (st : CanvasState)
    : AppState * CanvasState :=
  onCanvas (fun props st => handleMouseUp props st uuid) app st.

(** ** App.tsx: the train/validation split of the export *)

(** [index % 5 === 0]. *)
Definition isVal (index : nat) : bool := (index mod 5 =? 0)%nat.

(** [images.forEach((img, index) => ...)]: for each image, whether it goes
    to the validation folders. *)
Fixpoint assignFrom (index : nat) (imgs : list DatasetImage) : list (bool * DatasetImage) :=
  match imgs with
  | [] => []
  | img :: rest => (isVal index, img) :: assignFrom (S index) rest
  end.

Definition assignSplit (imgs : list DatasetImage) : list (bool * DatasetImage) :=
  assignFrom 0 imgs.

Definition valCount (l : list (bool * DatasetImage)) : nat :=
  List.length (filter (fun p => fst p) l).

Definition trainCount (l : list (bool * DatasetImage)) : nat :=
  List.length (filter (fun p => negb (fst p)) l).

(** ** Readings of the detection pipeline used in the statements below *)

(** The outcome of every item of [results], in order, as [forEach] meets
    them from position [index] on. *)
Fixpoint outcomesFrom (img : DatasetImage) (labelMap : JsMap LabelClass) (minConfidence : Q)
    (uuid : nat -> string) (index : nat) (results : list GeminiDetectionResult)
    : list Outcome :=
  match results with
  | [] => []
  | res :: rest =>
      processDetection img labelMap minConfidence res (uuid index)
      :: outcomesFrom img labelMap minConfidence uuid (S index) rest
  end.

Definition pushedOf (o : Outcome) : list BBoxWithConfidence :=
  match o with
  | Pushed a => [a]
  | _ => []
  end.

Definition countOutcomes (p : Outcome -> bool) (os : list Outcome) : nat :=
  List.length (filter p os).

Definition isBelowThreshold (o : Outcome) : bool :=
  match o with BelowThreshold => true | _ => false end.

Definition isUnknownLabel (o : Outcome) : bool :=
  match o with UnknownLabel => true | _ => false end.

Definition isInvalid (o : Outcome) : bool :=
  match o with UnknownDimensions | InvalidBox | ZeroSize => true | _ => false end.

Definition isMissingField (o : Outcome) : bool :=
  match o with MissingField => true | _ => false end.

(** A box in centre form lies within the image: positive size, and its four
    edges between 0 and 1. *)
Definition insideImage (b : BBox Q) : Prop :=
  0 < w b /\ 0 < h b /\
  0 <= x b - w b / 2 /\ x b + w b / 2 <= 1 /\
  0 <= y b - h b / 2 /\ y b + h b / 2 <= 1.

(** The key under which a label name is stored and looked up. *)
Definition normalizeName (s : string) : string := trim (toLowerCase s).

Fixpoint sumZ (l : list Z) : Z :=
  match l with
  | [] => 0%Z
  | z :: l' => (z + sumZ l')%Z
  end.

(** The update that a move makes to each box (branch 4 of
    [handleMouseMove]). *)
Definition moveBy (sel : option string) (dx dy : Q) (a : BBox Q) : BBox Q :=
  if idIs sel a then mkBBox (id a) (labelId a) (x a + dx) (y a + dy) (w a) (h a) else a.

(** An image with its annotations replaced, as [updateAnnotations] writes
    it. *)
Definition withAnnotations (img : DatasetImage) (anns : list (BBox Q)) : DatasetImage :=
  mkImage (image_id img) (image_name img) (width img) (height img) anns (deriveStatus anns).

(** An editor with one image open, in a given tool mode, and a drag of the
    box ["b1"] that started at (10, 10). *)
Definition editorApp (m : ToolMode) : AppState :=
  mkApp [image resizeProps] (Some "img") [car0; dog1] "c0" m 1 (mkPoint 0 0) (Some "b1").

Definition dragState : CanvasState :=
  mkState true (Some (mkPoint 10 10)) None (Some "b1") None.

Definition idleState : CanvasState := mkState false None None None None.

Definition carpet : LabelClass := mkLabel "c2" "Carpet" "#22c55e".


(** The box that a resize writes back for [ann] (branch 3 of
    [handleMouseMove]). *)
Definition resized (handle : ResizeHandleType) (ann : BBox Q) (W H : Q) (p : Point) : BBox Q :=
  let r := resizeRect handle (yoloToSvg ann W H) (px p) (py p) in
  withGeometry ann (svgToYolo (rx r) (ry r) (rw r) (rh r) W H).

(** ** components/MergeModal.tsx: the selection *)

(** The effect that runs when the modal opens: with at least two labels the
    source becomes the last label and the target the first; otherwise the
    selection stays as it was. The pair is (sourceId, targetId). *)
Definition openSelection (isOpen : bool) (labels : list LabelClass)
    (selection : string * string) : string * string :=
  if isOpen && (2 <=? List.length labels)%nat then
    match nth_error labels (List.length labels - 1), nth_error labels 0 with
    | Some lastLabel, Some firstLabel => (lid lastLabel, lid firstLabel)
    | _, _ => selection
    end
  else selection.

(** The two ends of an axis after the swap of lines 404-405: exchanged when
    the first lies above the second, kept otherwise. *)
Definition ordered (lo hi : Q) : Q * Q :=
  if Qlt_bool hi lo then (hi, lo) else (lo, hi).

(** A round of the loop went on with the box values [y0; x0; y1; x1] after
    the coordinate-space step (lines 404-438): each axis is put in order,
    the four values are clamped, and the annotation whose size is the
    difference of the clamped edges and whose centre is their midpoint is
    pushed with the detection's confidence and description. *)
Definition goesOnWith (res : GeminiDetectionResult) (labelObj : LabelClass) (conf : Q)
    (uuid : string) (y0 x0 y1 x1 : Q) (o : Outcome) : Prop :=
  exists ymin xmin ymax xmax,
    clampBBox [fst (ordered y0 y1); fst (ordered x0 x1);
               snd (ordered y0 y1); snd (ordered x0 x1)] = Some [ymin; xmin; ymax; xmax] /\
    o = Pushed (mkScored (mkBBox uuid (lid labelObj)
                                 (xmin + (xmax - xmin) / 2) (ymin + (ymax - ymin) / 2)
                                 (xmax - xmin) (ymax - ymin))
                         conf (description res)).

(** The text is ASCII only: every character is below 128. On such text the
    string primitives above are the source's: [toLowerCase] changes the
    letters A to Z alone, and [trim] strips the characters 9 to 13 and 32
    alone. Beyond ASCII the source also folds letters such as a capital E
    with an accent and strips blanks such as the non-breaking space, which
    the primitives above leave as they are. *)
Definition isAscii (s : string) : bool :=
  forallb (fun c => (nat_of_ascii c <? 128)%nat) (list_ascii_of_string s).

(** ** The reply before its items are known to have the declared type

    [JSON.parse] gives the items no type: an item may be [null], and a field
    may hold any value. What the loop does then depends on these cases
    only. The entries of an array in [box_2d] and a [confidence] that is
    present are taken to be numbers, a [description] that is present to be a
    string. *)

(** The field [label] of an item. *)
Inductive LabelField : Type :=
| LabelAbsent              (* undefined, or a falsy value that is no string: null, false, 0 *)
| LabelText (s : string)   (* a string *)
| LabelOther.              (* a truthy value that is no string: a number, true, an array, an object *)

(** The field [box_2d] of an item. *)
Inductive BoxField : Type :=
| BoxAbsent                (* undefined, or a falsy value: null, false, 0, the empty string *)
| BoxArray (box : list Q)  (* an array *)
| BoxOther.                (* a truthy value that is no array: a string, a number, true, an object *)

(** An item of the parsed array. An item that is a number, a string, a
    boolean or an array has no field [label]: it is the item with no
    field. *)
Inductive ReplyItem : Type :=
| ItemNull
| ItemFields (l : LabelField) (b : BoxField) (c : option Q) (d : option string).

(** The fields of an item that have the type [GeminiDetectionResult]
    declares. *)
Definition typedItem (item : ReplyItem) : GeminiDetectionResult :=
  match item with
  | ItemNull => mkDetection None None None None
  | ItemFields l b c d =>
      mkDetection (match l with LabelText s => Some s | _ => None end)
                  (match b with BoxArray box => Some box | _ => None end) c d
  end.

(** The item is an object whose [label] is a string or absent and whose
    [box_2d] is an array or absent. *)
Definition hasDeclaredType (item : ReplyItem) : bool :=
  match item with
  | ItemNull => false
  | ItemFields l b _ _ =>
      match l with LabelOther => false | _ => true end &&
      match b with BoxOther => false | _ => true end
  end.

(** The body of [results.forEach] on an item of any type; [None] is a
    [TypeError] thrown by the body. *)
Definition processItem (img : DatasetImage) (labelMap : JsMap LabelClass)
    (minConfidence : Q) (item : ReplyItem) (uuid : string) : option Outcome :=
  match item with
  | ItemNull => None                        (* res.label: res is null *)
  | ItemFields l b _ _ =>
      let res := typedItem item in
      (* 1. Validate Structure *)
      match l, b with
      | LabelAbsent, _ => Some MissingField
      | LabelText lbl, BoxAbsent => Some MissingField
      | LabelOther, BoxAbsent => Some MissingField
      | LabelOther, _ => None               (* res.label.toLowerCase is not a function *)
      | LabelText lbl, _ =>
          if String.eqb lbl "" then Some MissingField
          else
            (* 2. Resolve Label *)
            match resolveLabel labelMap (trim (toLowerCase lbl)) with
            | None => Some UnknownLabel
            | Some labelObj =>
                (* 3. Check Confidence *)
                let conf := confidenceOf res in
                if Qlt_bool conf minConfidence then Some BelowThreshold
                else
                  match b with
                  | BoxArray boxIn => Some (convertBox img res boxIn labelObj conf uuid)
                  | _ => None               (* res.box_2d.map is not a function *)
                  end
            end
      end
  end.

(** How every item ends, in order, were the loop to meet them all. *)
Fixpoint itemOutcomesFrom (img : DatasetImage) (labelMap : JsMap LabelClass)
    (minConfidence : Q) (uuid : nat -> string) (index : nat) (items : list ReplyItem)
    : list (option Outcome) :=
  match items with
  | [] => []
  | item :: rest =>
      processItem img labelMap minConfidence item (uuid index)
      :: itemOutcomesFrom img labelMap minConfidence uuid (S index) rest
  end.

(** [results.forEach(...)] on items of any type: an exception thrown by the
    body leaves the loop, and [None] is that exception reaching the [catch]
    of [autoLabelImage], which throws in its turn. *)
Fixpoint ingestItemsFrom (img : DatasetImage) (labelMap : JsMap LabelClass)
    (minConfidence : Q) (uuid : nat -> string) (index : nat) (items : list ReplyItem)
    (t : Tally) : option Tally :=
  match items with
  | [] => Some t
  | item :: rest =>
      match processItem img labelMap minConfidence item (uuid index) with
      | None => None
      | Some o => ingestItemsFrom img labelMap minConfidence uuid (S index) rest (record t o)
      end
  end.

Definition ingestItems (img : DatasetImage) (activeLabels : list LabelClass)
    (minConfidence : Q) (uuid : nat -> string) (items : list ReplyItem) : option Tally :=
  ingestItemsFrom img (makeLabelMap activeLabels) minConfidence uuid 0 items (mkTally [] 0 0 0).

Definition carItem : ReplyItem :=
  ItemFields (LabelText "car") (BoxArray [1 # 10; 2 # 10; 5 # 10; 6 # 10]) (Some (1 # 2)) None.

(** An item whose [box_2d] is a string. *)
Definition textBoxItem : ReplyItem := ItemFields (LabelText "car") BoxOther None None.

(** An item with no field. *)
Definition bareItem : ReplyItem := ItemFields LabelAbsent BoxAbsent None None.

(** * Properties *)

(** ** Coordinate transform *)

Lemma roundTrip_exact_nonzero (b : BBox Q) (W H : Q) :
  ~ W == 0 -> ~ H == 0 ->
  rx (roundTrip b W H) == x b /\ ry (roundTrip b W H) == y b /\
  rw (roundTrip b W H) == w b /\ rh (roundTrip b W H) == h b.
Proof.
  intros HW HH. unfold roundTrip, svgToYolo, yoloToSvg; cbn.
  repeat split; field; assumption.
Qed.

(** C1 (as amended): for every box with [w > 0], [h > 0] and every image
    size [W > 0], [H > 0], converting the box to its pixel rectangle and back
    gives the box's [x], [y], [w], [h] again, exactly, in exact (rational)
    arithmetic. *)
Theorem roundTrip_exact (b : BBox Q) (W H : Q) :
  0 < w b -> 0 < h b -> 0 < W -> 0 < H ->
  rx (roundTrip b W H) == x b /\ ry (roundTrip b W H) == y b /\
  rw (roundTrip b W H) == w b /\ rh (roundTrip b W H) == h b.
Proof.
  intros _ _ HW HH. apply roundTrip_exact_nonzero.
  - intro E. rewrite E in HW. discriminate HW.
  - intro E. rewrite E in HH. discriminate HH.
Qed.

Lemma roundTrip_exact_witness :
  let b := mkBBox "a" "0" (1 # 2) (1 # 2) (1 # 4) (1 # 4) in
  rx (roundTrip b 640 480) == x b /\ ry (roundTrip b 640 480) == y b /\
  rw (roundTrip b 640 480) == w b /\ rh (roundTrip b 640 480) == h b.
Proof.
  apply (roundTrip_exact (mkBBox "a" "0" (1 # 2) (1 # 2) (1 # 4) (1 # 4)) 640 480);
    reflexivity.
Defined.

Example tinyCentre_roundTrip :
  roundTrip tinyCentre (f64 1 0) (f64 1 0)
  = mkRect (S754_zero false) (f64 1 (-1)) (f64 1 0) (f64 1 0).
Proof. vm_compute. reflexivity. Qed.

(** C1 (as stated) fails in binary64: the round trip of [tinyCentre] returns
    [x = 0] for [x = 2^-70], which is not within [1e-9] relative tolerance. *)
Lemma roundTrip_float_tolerance_fails :
  ~ (forall (b : BBox float64) (W H : float64),
       lt64 (S754_zero false) (w b) -> lt64 (S754_zero false) (h b) ->
       lt64 (S754_zero false) W -> lt64 (S754_zero false) H ->
       withinRel64 tol9 (rx (roundTrip b W H)) (x b) /\
       withinRel64 tol9 (ry (roundTrip b W H)) (y b) /\
       withinRel64 tol9 (rw (roundTrip b W H)) (w b) /\
       withinRel64 tol9 (rh (roundTrip b W H)) (h b)).
Proof.
  intro Hall.
  destruct (Hall tinyCentre (f64 1 0) (f64 1 0)) as [Hx _];
    try (vm_compute; reflexivity).
  rewrite tinyCentre_roundTrip in Hx.
  vm_compute in Hx. apply Hx. reflexivity.
Qed.

(** ** Resize gesture *)

Lemma resizeRect_anchor (handle : ResizeHandleType) (rect : Rect Q) (x y : Q) :
  samePoint (oppositeCorner handle (resizeRect handle rect x y))
            (oppositeCorner handle rect).
Proof.
  destruct handle; unfold samePoint, oppositeCorner, resizeRect; cbn;
    split; try reflexivity; ring.
Qed.

(** In [SELECT] mode with a handle active and a selection, a pointer move
    takes the resize branch. *)
Lemma handleMouseMove_resize (props : CanvasProps) (st : CanvasState)
    (container : option Point) (e : MouseEvent) (handle : ResizeHandleType) :
  mode props = SELECT ->
  resizeHandle st = Some handle ->
  truthy (selectedAnnotationId props) = true ->
  handleMouseMove props st container e =
  match find (idIs (selectedAnnotationId props)) (annotations (image props)) with
  | Some ann =>
      let p := getMousePos props container e in
      let img := image props in
      let r := resizeRect handle (yoloToSvg ann (width img) (height img)) (px p) (py p) in
      let newYolo := svgToYolo (rx r) (ry r) (rw r) (rh r) (width img) (height img) in
      (st, [onUpdateAnnotations
              (map (fun a => if String.eqb (id a) (id ann) then withGeometry a newYolo else a)
                   (annotations img))])
  | None => (st, [])
  end.
Proof.
  intros Hm Hr Ht. unfold handleMouseMove. rewrite Hm, Hr, Ht. reflexivity.
Qed.

(** C3: during a resize from any of the four handles, a pointer move
    replaces the selected box by the one recomputed from the pointer, and the
    recomputed pixel rectangle has the corner opposite to the active handle
    exactly where the rectangle before the update had it. *)
Theorem resize_keeps_opposite_corner (props : CanvasProps) (st : CanvasState)
    (container : option Point) (e : MouseEvent) (handle : ResizeHandleType) (ann : BBox Q) :
  mode props = SELECT ->
  resizeHandle st = Some handle ->
  truthy (selectedAnnotationId props) = true ->
  find (idIs (selectedAnnotationId props)) (annotations (image props)) = Some ann ->
  let img := image props in
  let p := getMousePos props container e in
  let before := yoloToSvg ann (width img) (height img) in
  let after := resizeRect handle before (px p) (py p) in
  handleMouseMove props st container e =
    (st, [onUpdateAnnotations
            (map (fun a => if String.eqb (id a) (id ann)
                           then withGeometry a (svgToYolo (rx after) (ry after) (rw after)
                                                          (rh after) (width img) (height img))
                           else a)
                 (annotations img))])
  /\ samePoint (oppositeCorner handle after) (oppositeCorner handle before).
Proof.
  intros Hm Hr Ht Hf. cbv zeta. split.
  - rewrite (handleMouseMove_resize props st container e handle Hm Hr Ht), Hf.
    reflexivity.
  - apply resizeRect_anchor.
Qed.

(** On an image with a size, the box written back by the resize also draws
    with its opposite corner unmoved. *)
Lemma resize_stored_keeps_opposite_corner (handle : ResizeHandleType) (ann : BBox Q)
    (W H x y : Q) :
  ~ W == 0 -> ~ H == 0 ->
  let before := yoloToSvg ann W H in
  let after := resizeRect handle before x y in
  let stored := withGeometry ann (svgToYolo (rx after) (ry after) (rw after) (rh after) W H) in
  samePoint (oppositeCorner handle (yoloToSvg stored W H)) (oppositeCorner handle before).
Proof.
  intros HW HH. cbv zeta.
  destruct handle; unfold samePoint, oppositeCorner, resizeRect, yoloToSvg, svgToYolo,
    withGeometry; cbn; split; field; assumption.
Qed.

Lemma resize_keeps_opposite_corner_witness :
  let img := image resizeProps in
  let ann := mkBBox "b1" "0" (1 # 2) (1 # 2) (1 # 4) (1 # 4) in
  let p := getMousePos resizeProps (Some (mkPoint 0 0)) (mkEvent 300 200) in
  let before := yoloToSvg ann (width img) (height img) in
  let after := resizeRect tl before (px p) (py p) in
  handleMouseMove resizeProps resizeState (Some (mkPoint 0 0)) (mkEvent 300 200) =
    (resizeState,
     [onUpdateAnnotations
        (map (fun a => if String.eqb (id a) (id ann)
                       then withGeometry a (svgToYolo (rx after) (ry after) (rw after)
                                                      (rh after) (width img) (height img))
                       else a)
             (annotations img))])
  /\ samePoint (oppositeCorner tl after) (oppositeCorner tl before).
Proof.
  apply (resize_keeps_opposite_corner resizeProps resizeState (Some (mkPoint 0 0))
           (mkEvent 300 200) tl (mkBBox "b1" "0" (1 # 2) (1 # 2) (1 # 4) (1 # 4)));
    reflexivity.
Defined.

(** ** Retry wrapper *)

Lemma retryLoop_attempts_le {E T : Type} (fn : nat -> E + T) (m : Z) :
  forall (n a : nat) (d : Z) (le : option E),
    (attemptsOf (snd (retryLoop fn n a m d le)) <= n)%nat.
Proof.
  induction n as [|n IH]; intros a d le; cbn.
  - apply Nat.le_refl.
  - destruct (fn a) as [err|v]; cbn; [|lia].
    destruct (Z.of_nat a <? m)%Z.
    + specialize (IH (S a) (d * 2)%Z (Some err)).
      destruct (retryLoop fn n (S a) m (d * 2) (Some err)) as [c evs]; cbn in *; lia.
    + specialize (IH (S a) d (Some err)).
      destruct (retryLoop fn n (S a) m d (Some err)) as [c evs]; cbn in *; lia.
Qed.

Lemma retryLoop_backoff {E T : Type} (fn : nat -> E + T) (m : Z) :
  forall (n a : nat) (d : Z) (le : option E),
    (Z.of_nat a + Z.of_nat n = m + 1)%Z ->
    let evs := snd (retryLoop fn n a m d le) in
    sleepsOf evs = backoff (attemptsOf evs - 1) d /\ (1 <= n -> 1 <= attemptsOf evs)%nat.
Proof.
  induction n as [|n IH]; intros a d le Hn; cbn.
  - split; [reflexivity | lia].
  - destruct (fn a) as [err|v]; cbn; [|split; [reflexivity | lia]].
    destruct (Z.ltb_spec (Z.of_nat a) m) as [Hlt|Hge].
    + destruct (IH (S a) (d * 2)%Z (Some err)) as [Hs Ha]; [lia|].
      destruct (retryLoop fn n (S a) m (d * 2) (Some err)) as [c evs]; cbn in *.
      split; [|lia].
      assert (1 <= attemptsOf evs)%nat as H1 by (apply Ha; lia).
      rewrite Hs, Nat.sub_0_r.
      destruct (attemptsOf evs) as [|k]; [lia|].
      cbn. rewrite Nat.sub_0_r. reflexivity.
    + assert (n = 0%nat) by lia. subst n. cbn. split; [reflexivity | lia].
Qed.

Lemma retryLoop_all_fail {E T : Type} (fn : nat -> E + T) (m : Z) :
  forall (n a : nat) (d : Z) (le : option E),
    (Z.of_nat a + Z.of_nat n = m + 1)%Z ->
    (forall k, (a <= k)%nat -> (Z.of_nat k <= m)%Z -> exists e, fn k = inl e) ->
    attemptsOf (snd (retryLoop fn n a m d le)) = n /\
    match n with
    | O => fst (retryLoop fn n a m d le) = Thrown le
    | S _ => exists e, fn (Z.to_nat m) = inl e /\
                       fst (retryLoop fn n a m d le) = Thrown (Some e)
    end.
Proof.
  induction n as [|n IH]; intros a d le Hn Hfail.
  - cbn. split; reflexivity.
  - cbn [retryLoop]. destruct (Hfail a) as [err Herr]; [lia | lia |].
    rewrite Herr.
    assert (forall d', attemptsOf (snd (retryLoop fn n (S a) m d' (Some err))) = n /\
                       exists e, fn (Z.to_nat m) = inl e /\
                                 fst (retryLoop fn n (S a) m d' (Some err)) = Thrown (Some e))
      as Hrec.
    { intro d'. destruct (IH (S a) d' (Some err)) as [Ha Hr]; [lia | |].
      - intros k Hk Hkm. apply Hfail; lia.
      - split; [exact Ha|]. destruct n as [|n'].
        + exists err. split; [|exact Hr].
          replace (Z.to_nat m) with a by lia. exact Herr.
        + exact Hr. }
    destruct (Z.of_nat a <? m)%Z.
    + destruct (Hrec (d * 2)%Z) as [Ha [e [He Hr]]].
      destruct (retryLoop fn n (S a) m (d * 2) (Some err)) as [c evs]; cbn in *.
      split; [lia|]. exists e. split; assumption.
    + destruct (Hrec d) as [Ha [e [He Hr]]].
      destruct (retryLoop fn n (S a) m d (Some err)) as [c evs]; cbn in *.
      split; [lia|]. exists e. split; assumption.
Qed.

(** C4 (as amended): the retry wrapper makes at most [maxRetries + 1]
    attempts in total, the first one and up to [maxRetries] retries
    ([maxRetries] is 3 when the caller gives none); the sleeps between
    consecutive attempts are [retryDelay], then twice that, and so on
    doubling; and when every attempt fails there are exactly
    [maxRetries + 1] of them and the error of the last one is thrown. *)
Theorem retryAsync_policy {E T : Type} (fn : nat -> E + T) (maxRetries retryDelay : Z) :
  (0 <= maxRetries)%Z ->
  let run := retryAsync fn maxRetries retryDelay in
  (Z.of_nat (attemptsOf (snd run)) <= maxRetries + 1)%Z /\
  sleepsOf (snd run) = backoff (attemptsOf (snd run) - 1) retryDelay /\
  ((forall k, (Z.of_nat k <= maxRetries)%Z -> exists e, fn k = inl e) ->
   Z.of_nat (attemptsOf (snd run)) = (maxRetries + 1)%Z /\
   exists e, fn (Z.to_nat maxRetries) = inl e /\ fst run = Thrown (Some e)) /\
  s_maxRetries (settings emptyConfig) = 3%Z.
Proof.
  intros Hm run. unfold run, retryAsync.
  split; [|split; [|split]].
  - pose proof (retryLoop_attempts_le fn maxRetries (Z.to_nat (maxRetries + 1)) 0
                  retryDelay None). lia.
  - apply (retryLoop_backoff fn maxRetries (Z.to_nat (maxRetries + 1)) 0 retryDelay None).
    lia.
  - intro Hfail.
    destruct (retryLoop_all_fail fn maxRetries (Z.to_nat (maxRetries + 1)) 0 retryDelay None)
      as [Ha Hr]; [lia | intros k _ Hk; apply Hfail; exact Hk |].
    split; [lia|].
    destruct (Z.to_nat (maxRetries + 1)) eqn:En; [lia | exact Hr].
  - reflexivity.
Qed.

Lemma retryAsync_policy_witness :
  let run := retryAsync alwaysFails 3 1000 in
  (Z.of_nat (attemptsOf (snd run)) <= 3 + 1)%Z /\
  sleepsOf (snd run) = backoff (attemptsOf (snd run) - 1) 1000 /\
  ((forall k, (Z.of_nat k <= 3)%Z -> exists e, alwaysFails k = inl e) ->
   Z.of_nat (attemptsOf (snd run)) = (3 + 1)%Z /\
   exists e, alwaysFails (Z.to_nat 3) = inl e /\ fst run = Thrown (Some e)) /\
  s_maxRetries (settings emptyConfig) = 3%Z.
Proof.
  apply (retryAsync_policy alwaysFails 3 1000). lia.
Defined.

Example retryAsync_alwaysFails :
  retryAsync alwaysFails 3 1000 =
  (Thrown (Some "error 3"),
   [Attempt 0; Sleep 1000; Attempt 1; Sleep 2000; Attempt 2; Sleep 4000; Attempt 3]).
Proof. vm_compute. reflexivity. Qed.

Example retryAsync_failsTwice :
  retryAsync failsTwice 3 1000 =
  (Returned 7%nat, [Attempt 0; Sleep 1000; Attempt 1; Sleep 2000; Attempt 2]).
Proof. vm_compute. reflexivity. Qed.

(** C4 (as stated) fails: with [maxRetries = 3] and a request that always
    fails, four attempts are made, not at most three. *)
Lemma retryAsync_attempts_exceed_maxRetries :
  attemptsOf (snd (retryAsync alwaysFails 3 1000)) = 4%nat /\
  ~ (Z.of_nat (attemptsOf (snd (retryAsync alwaysFails 3 1000))) <= 3)%Z.
Proof.
  rewrite retryAsync_alwaysFails. cbn. split; [reflexivity | lia].
Qed.

(** ** Detection ingestion *)

Lemma Qlt_bool_iff (a b : Q) : Qlt_bool a b = true <-> a < b.
Proof.
  unfold Qlt_bool. rewrite negb_true_iff. split.
  - intro Hf. apply Qnot_le_lt. intro Hle.
    apply Qle_bool_iff in Hle. congruence.
  - intro Hlt. destruct (Qle_bool b a) eqn:Hb; [|reflexivity].
    apply Qle_bool_iff in Hb. exfalso. exact (Qlt_not_le _ _ Hlt Hb).
Qed.

Lemma Qlt_bool_false_iff (a b : Q) : Qlt_bool a b = false <-> b <= a.
Proof.
  split.
  - intro Hf. apply Qnot_lt_le. intro Hlt. apply Qlt_bool_iff in Hlt. congruence.
  - intro Hle. destruct (Qlt_bool a b) eqn:Hb; [|reflexivity].
    apply Qlt_bool_iff in Hb. exfalso. exact (Qlt_not_le _ _ Hb Hle).
Qed.

(** C2: with no [minConfidence] in the configuration the threshold is 0.93,
    not the 0.3 that the comment on the field documents: a detection of
    confidence 0.5 is filtered under the default and would be kept under
    0.3. *)
Theorem minConfidence_default_is_093 :
  s_minConfidence (settings emptyConfig) = 93 # 100 /\
  ~ s_minConfidence (settings emptyConfig) == documentedMinConfidence /\
  autoLabelImage vga [car0] emptyConfig (fun _ => inr [halfSure]) (fun _ => "u")
  = Returned [] /\
  autoLabelImage vga [car0] (mkConfig None (Some documentedMinConfidence) None None None)
                 (fun _ => inr [halfSure]) (fun _ => "u")
  <> Returned [] /\
  processDetection vga (makeLabelMap [car0]) (s_minConfidence (settings emptyConfig))
                   halfSure "u" = BelowThreshold /\
  processDetection vga (makeLabelMap [car0]) documentedMinConfidence halfSure "u"
  = Pushed (mkScored (mkBBox "u" "c0" ((2 # 10) + ((6 # 10) - (2 # 10)) / 2)
                             ((1 # 10) + ((5 # 10) - (1 # 10)) / 2)
                             ((6 # 10) - (2 # 10)) ((5 # 10) - (1 # 10)))
                     (1 # 2) None).
Proof.
  split; [reflexivity|]. split; [discriminate|].
  split; [vm_compute; reflexivity|]. split; [vm_compute; discriminate|].
  split; vm_compute; reflexivity.
Qed.

Lemma clamp01_range (v : Q) : 0 <= Qmax 0 (Qmin 1 v) /\ Qmax 0 (Qmin 1 v) <= 1.
Proof.
  destruct (Q.max_spec 0 (Qmin 1 v)) as [[H1 E1]|[H1 E1]];
    destruct (Q.min_spec 1 v) as [[H2 E2]|[H2 E2]];
    revert H1 E1 H2 E2;
    generalize (Qmax 0 (Qmin 1 v)); generalize (Qmin 1 v); intros; lra.
Qed.

(** The minimum-size step of [clampBBox] on one axis. *)
Lemma minSize_positive (lo hi : Q) :
  0 <= lo -> lo <= 1 -> 0 <= hi -> hi <= 1 ->
  let '(lo', hi') :=
    if Qlt_bool (hi - lo) MIN_SIZE then
      let center := (lo + hi) / 2 in
      (Qmax 0 (center - MIN_SIZE / 2), Qmin 1 (center + MIN_SIZE / 2))
    else (lo, hi) in
  0 < hi' - lo'.
Proof.
  intros Hl0 Hl1 Hh0 Hh1. unfold MIN_SIZE.
  destruct (Qlt_bool (hi - lo) (1 # 100)) eqn:Hb.
  - cbv beta iota zeta.
    destruct (Q.max_spec 0 ((lo + hi) / 2 - (1 # 100) / 2)) as [[H1 E1]|[H1 E1]];
      destruct (Q.min_spec 1 ((lo + hi) / 2 + (1 # 100) / 2)) as [[H2 E2]|[H2 E2]];
      revert H1 E1 H2 E2;
      generalize (Qmax 0 ((lo + hi) / 2 - (1 # 100) / 2));
      generalize (Qmin 1 ((lo + hi) / 2 + (1 # 100) / 2)); intros;
      unfold Qdiv in *; change (/ 2) with (1 # 2) in *; lra.
  - apply Qlt_bool_false_iff in Hb. lra.
Qed.

Lemma clampBBox_positive (box out : list Q) :
  clampBBox box = Some out ->
  exists ymin xmin ymax xmax,
    out = [ymin; xmin; ymax; xmax] /\ 0 < ymax - ymin /\ 0 < xmax - xmin.
Proof.
  destruct box as [|a [|b [|c [|d rest]]]]; try discriminate.
  unfold clampBBox. cbn [map].
  pose proof (clamp01_range a) as [Ha0 Ha1]. pose proof (clamp01_range b) as [Hb0 Hb1].
  pose proof (clamp01_range c) as [Hc0 Hc1]. pose proof (clamp01_range d) as [Hd0 Hd1].
  pose proof (minSize_positive _ _ Ha0 Ha1 Hc0 Hc1) as Hy.
  pose proof (minSize_positive _ _ Hb0 Hb1 Hd0 Hd1) as Hx.
  revert Hy Hx.
  generalize (Qmax 0 (Qmin 1 a)) (Qmax 0 (Qmin 1 b)) (Qmax 0 (Qmin 1 c)) (Qmax 0 (Qmin 1 d)).
  intros ymin xmin ymax xmax Hy Hx.
  destruct (if Qlt_bool (ymax - ymin) MIN_SIZE
            then let center := (ymin + ymax) / 2 in
                 (Qmax 0 (center - MIN_SIZE / 2), Qmin 1 (center + MIN_SIZE / 2))
            else (ymin, ymax)) as [ymin' ymax'].
  destruct (if Qlt_bool (xmax - xmin) MIN_SIZE
            then let center := (xmin + xmax) / 2 in
                 (Qmax 0 (center - MIN_SIZE / 2), Qmin 1 (center + MIN_SIZE / 2))
            else (xmin, xmax)) as [xmin' xmax'].
  intro E. injection E as <-. exists ymin', xmin', ymax', xmax'. auto.
Qed.

Lemma clampBBox_four (a b c d : Q) : exists out, clampBBox [a; b; c; d] = Some out.
Proof.
  unfold clampBBox. cbn [map].
  destruct (if Qlt_bool _ MIN_SIZE then _ else _) as [ymin' ymax'].
  destruct (if Qlt_bool _ MIN_SIZE then _ else _) as [xmin' xmax'].
  eexists. reflexivity.
Qed.

Lemma convertBox_never_ZeroSize (img : DatasetImage) (res : GeminiDetectionResult)
    (boxIn : list Q) (labelObj : LabelClass) (conf : Q) (uuid : string) :
  convertBox img res boxIn labelObj conf uuid <> ZeroSize.
Proof.
  unfold convertBox.
  destruct (normalizeCoordinates img (map Some boxIn)) as [box|]; [|discriminate].
  destruct (negb (validateBBox (correctInversion box))); [discriminate|].
  destruct (numbers (correctInversion box)) as [qs|]; [|discriminate].
  destruct (clampBBox qs) as [out|] eqn:Hc; [|discriminate].
  destruct (clampBBox_positive _ _ Hc) as (ymin & xmin & ymax & xmax & -> & Hy & Hx).
  destruct (Qle_bool (xmax - xmin) 0) eqn:Hw.
  - apply Qle_bool_iff in Hw. exfalso. exact (Qlt_not_le _ _ Hx Hw).
  - destruct (Qle_bool (ymax - ymin) 0) eqn:Hh.
    + apply Qle_bool_iff in Hh. exfalso. exact (Qlt_not_le _ _ Hy Hh).
    + cbn. discriminate.
Qed.

(** Once the coordinate-space step has settled four values, the round ends
    with the annotation built from them. *)
Lemma convertBox_goesOn (img : DatasetImage) (res : GeminiDetectionResult)
    (boxIn : list Q) (labelObj : LabelClass) (conf : Q) (uuid : string) (y0 x0 y1 x1 : Q) :
  normalizeCoordinates img (map Some boxIn) = Some [Some y0; Some x0; Some y1; Some x1] ->
  goesOnWith res labelObj conf uuid y0 x0 y1 x1
             (convertBox img res boxIn labelObj conf uuid).
Proof.
  intro Hn. unfold goesOnWith, convertBox. rewrite Hn.
  assert (correctInversion [Some y0; Some x0; Some y1; Some x1] =
          map Some [fst (ordered y0 y1); fst (ordered x0 x1);
                    snd (ordered y0 y1); snd (ordered x0 x1)]) as ->.
  { unfold correctInversion, ordered. cbn [at_ nth_error ngt].
    destruct (Qlt_bool y1 y0); cbn [setAt at_ nth_error ngt];
      destruct (Qlt_bool x1 x0); reflexivity. }
  generalize (fst (ordered y0 y1)) (fst (ordered x0 x1))
             (snd (ordered y0 y1)) (snd (ordered x0 x1)).
  intros ya xa yb xb. cbn [map validateBBox List.length Nat.eqb forallb andb negb numbers].
  destruct (clampBBox_four ya xa yb xb) as [out Hout].
  destruct (clampBBox_positive _ _ Hout) as (ymin & xmin & ymax & xmax & -> & Hy & Hx).
  rewrite Hout. exists ymin, xmin, ymax, xmax. split; [reflexivity|].
  assert (Qle_bool (xmax - xmin) 0 = false) as ->.
  { destruct (Qle_bool (xmax - xmin) 0) eqn:Hw; [|reflexivity].
    apply Qle_bool_iff in Hw. exfalso. exact (Qlt_not_le _ _ Hx Hw). }
  assert (Qle_bool (ymax - ymin) 0 = false) as ->.
  { destruct (Qle_bool (ymax - ymin) 0) eqn:Hh; [|reflexivity].
    apply Qle_bool_iff in Hh. exfalso. exact (Qlt_not_le _ _ Hy Hh). }
  reflexivity.
Qed.

(** C5: for a detection that reaches the coordinate-space step with four
    values: if one of them exceeds 1 and the image has a size, the y-values
    are divided by the image height and the x-values by the image width, and
    the round goes on with the quotients: the annotation pushed is the one
    built from them; if one of them exceeds 1 and the image width or height
    is zero, the detection is skipped; if none exceeds 1 the values are kept
    as they are, and the annotation pushed is the one built from them. *)
Theorem coordinate_space_step (img : DatasetImage) (a b c d : Q)
    (res : GeminiDetectionResult) (labelObj : LabelClass) (conf : Q) (uuid : string) :
  ((1 < a \/ 1 < b \/ 1 < c \/ 1 < d) -> 0 < width img -> 0 < height img ->
   normalizeCoordinates img (map Some [a; b; c; d]) =
   Some [Some (a / height img); Some (b / width img);
         Some (c / height img); Some (d / width img)] /\
   goesOnWith res labelObj conf uuid
              (a / height img) (b / width img) (c / height img) (d / width img)
              (convertBox img res [a; b; c; d] labelObj conf uuid)) /\
  ((1 < a \/ 1 < b \/ 1 < c \/ 1 < d) -> (width img == 0 \/ height img == 0) ->
   normalizeCoordinates img (map Some [a; b; c; d]) = None /\
   convertBox img res [a; b; c; d] labelObj conf uuid = UnknownDimensions) /\
  (a <= 1 /\ b <= 1 /\ c <= 1 /\ d <= 1 ->
   normalizeCoordinates img (map Some [a; b; c; d]) = Some (map Some [a; b; c; d]) /\
   goesOnWith res labelObj conf uuid a b c d
              (convertBox img res [a; b; c; d] labelObj conf uuid)).
Proof.
  assert ((1 < a \/ 1 < b \/ 1 < c \/ 1 < d) ->
          existsb (fun v => ngt v (Some 1)) (map Some [a; b; c; d]) = true) as Hpix.
  { intro Hany. cbn. rewrite !orb_true_iff, !Qlt_bool_iff. tauto. }
  split; [|split].
  - intros Hany HW HH.
    assert (normalizeCoordinates img (map Some [a; b; c; d]) =
            Some [Some (a / height img); Some (b / width img);
                  Some (c / height img); Some (d / width img)]) as Hn.
    { unfold normalizeCoordinates. rewrite (Hpix Hany).
      apply Qlt_bool_iff in HW, HH. rewrite HW, HH. reflexivity. }
    split; [exact Hn|]. apply convertBox_goesOn. exact Hn.
  - intros Hany Hzero.
    assert (normalizeCoordinates img (map Some [a; b; c; d]) = None) as Hn.
    { unfold normalizeCoordinates. rewrite (Hpix Hany).
      destruct Hzero as [Hz|Hz].
      - assert (Qlt_bool 0 (width img) = false) as ->; [|reflexivity].
        apply Qlt_bool_false_iff. rewrite Hz. apply Qle_refl.
      - assert (Qlt_bool 0 (height img) = false) as ->;
          [|rewrite andb_false_r; reflexivity].
        apply Qlt_bool_false_iff. rewrite Hz. apply Qle_refl. }
    split; [exact Hn|]. unfold convertBox. rewrite Hn. reflexivity.
  - intros (Ha & Hb & Hc & Hd).
    assert (normalizeCoordinates img (map Some [a; b; c; d]) =
            Some (map Some [a; b; c; d])) as Hn.
    { unfold normalizeCoordinates.
      assert (existsb (fun v => ngt v (Some 1)) (map Some [a; b; c; d]) = false) as ->;
        [|reflexivity].
      cbn. apply Qlt_bool_false_iff in Ha, Hb, Hc, Hd. rewrite Ha, Hb, Hc, Hd. reflexivity. }
    split; [exact Hn|]. apply convertBox_goesOn. exact Hn.
Qed.

Lemma coordinate_space_step_witness :
  (normalizeCoordinates vga (map Some [10; 20; 400; 300]) =
     Some [Some (10 / 480); Some (20 / 640); Some (400 / 480); Some (300 / 640)] /\
   goesOnWith halfSure car0 1 "u" (10 / 480) (20 / 640) (400 / 480) (300 / 640)
              (convertBox vga halfSure [10; 20; 400; 300] car0 1 "u")) /\
  (normalizeCoordinates noSizeYet (map Some [10; 20; 400; 300]) = None /\
   convertBox noSizeYet halfSure [10; 20; 400; 300] car0 1 "u" = UnknownDimensions) /\
  (normalizeCoordinates vga (map Some [1 # 10; 2 # 10; 5 # 10; 6 # 10]) =
     Some (map Some [1 # 10; 2 # 10; 5 # 10; 6 # 10]) /\
   goesOnWith halfSure car0 1 "u" (1 # 10) (2 # 10) (5 # 10) (6 # 10)
              (convertBox vga halfSure [1 # 10; 2 # 10; 5 # 10; 6 # 10] car0 1 "u")).
Proof.
  split; [|split].
  - apply (proj1 (coordinate_space_step vga 10 20 400 300 halfSure car0 1 "u"));
      [left|..]; reflexivity.
  - apply (proj1 (proj2 (coordinate_space_step noSizeYet 10 20 400 300 halfSure car0 1 "u")));
      left; reflexivity.
  - apply (proj2 (proj2 (coordinate_space_step vga (1 # 10) (2 # 10) (5 # 10) (6 # 10)
                           halfSure car0 1 "u"))).
    repeat split; discriminate.
Defined.

(** The two boxes of the specification's example, through the whole round:
    [10, 20, 400, 300] on a 640x480 image is pushed with the width
    [(300 - 20) / 640] and the height [(400 - 10) / 480]; the box
    [0.1, 0.2, 0.5, 0.6] is pushed with the width 0.4 and the height 0.4. *)
Example convertBox_pixel_box :
  exists b, convertBox vga halfSure [10; 20; 400; 300] car0 1 "u"
            = Pushed (mkScored b 1 (description halfSure)) /\
            id b = "u" /\ labelId b = lid car0 /\
            w b == 280 / 640 /\ h b == 390 / 480 /\
            x b == 160 / 640 /\ y b == 205 / 480.
Proof.
  eexists. split; [vm_compute; reflexivity|].
  repeat split; reflexivity.
Qed.

Example convertBox_normalized_box :
  exists b, convertBox vga halfSure [1 # 10; 2 # 10; 5 # 10; 6 # 10] car0 1 "u"
            = Pushed (mkScored b 1 (description halfSure)) /\
            w b == 4 # 10 /\ h b == 4 # 10 /\ x b == 4 # 10 /\ y b == 3 # 10.
Proof.
  eexists. split; [vm_compute; reflexivity|].
  repeat split; reflexivity.
Qed.

(** C7: for every four numbers, the output [ymin; xmin; ymax; xmax] of
    [clampBBox] has [ymax - ymin > 0] and [xmax - xmin > 0]; so the last
    guard of the pipeline, "skip if [w <= 0] or [h <= 0]", never fires. *)
Theorem clampBBox_positive_extent (a b c d : Q) :
  (exists ymin xmin ymax xmax,
     clampBBox [a; b; c; d] = Some [ymin; xmin; ymax; xmax] /\
     0 < ymax - ymin /\ 0 < xmax - xmin) /\
  (forall img labelMap minConfidence res uuid,
     processDetection img labelMap minConfidence res uuid <> ZeroSize).
Proof.
  split.
  - destruct (clampBBox_four a b c d) as [out Hout].
    destruct (clampBBox_positive _ _ Hout) as (ymin & xmin & ymax & xmax & -> & Hy & Hx).
    exists ymin, xmin, ymax, xmax. auto.
  - intros img labelMap minConfidence res uuid. unfold processDetection.
    destruct (label res) as [lbl|]; [|discriminate].
    destruct (box_2d res) as [boxIn|]; [|discriminate].
    destruct (String.eqb lbl ""); [discriminate|].
    destruct (resolveLabel labelMap (trim (toLowerCase lbl))) as [labelObj|]; [|discriminate].
    destruct (Qlt_bool (confidenceOf res) minConfidence); [discriminate|].
    apply convertBox_never_ZeroSize.
Qed.

(** C8: for a detection that reaches the confidence check (it has a label
    that resolves and a box): a missing confidence counts as 1; a confidence
    equal to [minConfidence] passes the check, the detection goes on to the
    coordinate steps; a confidence strictly below [minConfidence] skips the
    detection. *)
Theorem confidence_filter (img : DatasetImage) (labelMap : JsMap LabelClass)
    (minConfidence : Q) (res : GeminiDetectionResult) (uuid : string)
    (lbl : string) (boxIn : list Q) (labelObj : LabelClass) :
  label res = Some lbl -> lbl <> "" -> box_2d res = Some boxIn ->
  resolveLabel labelMap (trim (toLowerCase lbl)) = Some labelObj ->
  (confidence res = None -> confidenceOf res = 1) /\
  (confidenceOf res == minConfidence ->
   processDetection img labelMap minConfidence res uuid
   = convertBox img res boxIn labelObj (confidenceOf res) uuid /\
   processDetection img labelMap minConfidence res uuid <> BelowThreshold) /\
  (confidenceOf res < minConfidence ->
   processDetection img labelMap minConfidence res uuid = BelowThreshold).
Proof.
  intros Hl Hne Hb Hr.
  assert (processDetection img labelMap minConfidence res uuid =
          if Qlt_bool (confidenceOf res) minConfidence then BelowThreshold
          else convertBox img res boxIn labelObj (confidenceOf res) uuid) as Hp.
  { unfold processDetection. rewrite Hl, Hb, Hr.
    destruct (String.eqb_spec lbl ""); [contradiction | reflexivity]. }
  split; [|split].
  - intro Hc. unfold confidenceOf. rewrite Hc. reflexivity.
  - intro Heq. rewrite Hp.
    assert (Qlt_bool (confidenceOf res) minConfidence = false) as ->.
    { apply Qlt_bool_false_iff. rewrite Heq. apply Qle_refl. }
    split; [reflexivity|].
    unfold convertBox.
    destruct (normalizeCoordinates img (map Some boxIn)) as [box|]; [|discriminate].
    destruct (negb (validateBBox (correctInversion box))); [discriminate|].
    destruct (numbers (correctInversion box)) as [qs|]; [|discriminate].
    destruct (clampBBox qs) as [[|y0 [|x0 [|y1 [|x1 [|]]]]]|]; try discriminate.
    destruct (Qle_bool (x1 - x0) 0 || Qle_bool (y1 - y0) 0); discriminate.
  - intro Hlt. rewrite Hp. apply Qlt_bool_iff in Hlt. rewrite Hlt. reflexivity.
Qed.

Lemma confidence_filter_witness :
  confidenceOf unscored = 1 /\
  (processDetection vga (makeLabelMap [car0]) (1 # 2) halfSure "u"
   = convertBox vga halfSure [1 # 10; 2 # 10; 5 # 10; 6 # 10] car0 (confidenceOf halfSure) "u" /\
   processDetection vga (makeLabelMap [car0]) (1 # 2) halfSure "u" <> BelowThreshold) /\
  processDetection vga (makeLabelMap [car0]) (1 # 2) unsure "u" = BelowThreshold.
Proof.
  split; [|split].
  - apply (proj1 (confidence_filter vga (makeLabelMap [car0]) (1 # 2) unscored "u" "car"
                    [1 # 10; 2 # 10; 5 # 10; 6 # 10] car0
                    eq_refl ltac:(discriminate) eq_refl eq_refl)).
    reflexivity.
  - apply (proj1 (proj2 (confidence_filter vga (makeLabelMap [car0]) (1 # 2) halfSure "u" "car"
                    [1 # 10; 2 # 10; 5 # 10; 6 # 10] car0
                    eq_refl ltac:(discriminate) eq_refl eq_refl))).
    reflexivity.
  - apply (proj2 (proj2 (confidence_filter vga (makeLabelMap [car0]) (1 # 2) unsure "u" "car"
                    [1 # 10; 2 # 10; 5 # 10; 6 # 10] car0
                    eq_refl ltac:(discriminate) eq_refl eq_refl))).
    reflexivity.
Defined.

(** ** Label merge *)

Lemma relabel_count_target (sourceId targetId : string) (anns : list (BBox Q)) :
  sourceId <> targetId ->
  List.length (filter (fun a => String.eqb (labelId a) targetId)
                      (map (relabel sourceId targetId) anns))
  = (List.length (filter (fun a => String.eqb (labelId a) sourceId) anns)
     + List.length (filter (fun a => String.eqb (labelId a) targetId) anns))%nat.
Proof.
  intro Hne. induction anns as [|a anns IH]; [reflexivity|].
  cbn [map filter]. unfold relabel at 1.
  destruct (String.eqb_spec (labelId a) sourceId) as [Hs|Hs].
  - cbn [labelId]. rewrite String.eqb_refl.
    destruct (String.eqb_spec (labelId a) targetId) as [Ht|Ht]; [congruence|].
    cbn [List.length]. rewrite IH. reflexivity.
  - destruct (String.eqb_spec (labelId a) targetId) as [Ht|Ht].
    + cbn [List.length]. rewrite IH. lia.
    + exact IH.
Qed.

Lemma hasLabel_removed (sourceId : string) (labels : list LabelClass) :
  hasLabel sourceId (filter (fun l => negb (String.eqb (lid l) sourceId)) labels) = false.
Proof.
  unfold hasLabel. induction labels as [|l labels IH]; [reflexivity|].
  cbn [filter]. destruct (String.eqb (lid l) sourceId) eqn:E; cbn [negb]; [exact IH|].
  cbn [existsb]. rewrite E, IH. reflexivity.
Qed.

Lemma list_sum_map_add {A : Type} (f g : A -> nat) (l : list A) :
  (list_sum (map f l) + list_sum (map g l))%nat = list_sum (map (fun a => (f a + g a)%nat) l).
Proof.
  induction l as [|a l IH]; [reflexivity|].
  cbn [map]. change (list_sum (?n :: ?r)) with (n + list_sum r)%nat.
  rewrite <- IH. lia.
Qed.

(** [handleConfirm] passes a pair on to the merge exactly when both selections
    are non-empty and differ. *)
Lemma handleConfirm_calls (sourceId targetId : string) :
  handleConfirm sourceId targetId = Some (sourceId, targetId) <->
  sourceId <> "" /\ targetId <> "" /\ sourceId <> targetId.
Proof.
  unfold handleConfirm.
  destruct (String.eqb_spec sourceId ""), (String.eqb_spec targetId ""),
    (String.eqb_spec sourceId targetId); cbn; split;
    try discriminate; try tauto; intros (? & ? & ?); contradiction.
Qed.

(** C6: for every dataset and every two distinct label ids that both exist,
    the merge keeps the total number of annotations, leaves on [targetId] as
    many annotations as [sourceId] and [targetId] had together, and removes
    the label [sourceId] from the label list. *)
Theorem merge_counts (d : Dataset) (sourceId targetId : string) :
  hasLabel sourceId (labels d) = true ->
  hasLabel targetId (labels d) = true ->
  sourceId <> targetId ->
  exists d',
    merge sourceId targetId d = Some d' /\
    totalAnnotations d' = totalAnnotations d /\
    countLabel targetId d' = (countLabel sourceId d + countLabel targetId d)%nat /\
    hasLabel sourceId (labels d') = false.
Proof.
  intros Hs Ht Hne. unfold merge. rewrite Hs, Ht.
  destruct (String.eqb_spec sourceId targetId) as [|_]; [contradiction|].
  cbn [negb orb]. eexists. split; [reflexivity|].
  unfold totalAnnotations, countLabel. cbn [images labels].
  split; [|split].
  - rewrite map_map. f_equal. apply map_ext. intro img. cbn [annotations].
    apply length_map.
  - rewrite map_map, list_sum_map_add. f_equal. apply map_ext. intro img.
    cbn [annotations]. apply relabel_count_target. exact Hne.
  - apply hasLabel_removed.
Qed.

Lemma merge_counts_witness :
  exists d',
    merge "A" "B" threeAndTwo = Some d' /\
    totalAnnotations d' = totalAnnotations threeAndTwo /\
    countLabel "B" d' = (countLabel "A" threeAndTwo + countLabel "B" threeAndTwo)%nat /\
    hasLabel "A" (labels d') = false.
Proof.
  apply (merge_counts threeAndTwo "A" "B"); [reflexivity | reflexivity | discriminate].
Defined.

Example merge_threeAndTwo :
  match merge "A" "B" threeAndTwo with
  | Some d' => (countLabel "B" d', countLabel "A" d', totalAnnotations d', labels d')
  | None => (0, 0, 0, [])%nat
  end = (5, 0, 5, [labelB])%nat.
Proof. vm_compute. reflexivity. Qed.

(** ** Export format *)

(** *** Strings of digits *)

Lemma append_assoc (a b c : string) : (a ++ b) ++ c = a ++ (b ++ c).
Proof. induction a as [|ch a IH]; cbn; [reflexivity | rewrite IH; reflexivity]. Qed.

Lemma length_append (a b : string) :
  String.length (a ++ b) = (String.length a + String.length b)%nat.
Proof. induction a as [|ch a IH]; cbn; [reflexivity | rewrite IH; reflexivity]. Qed.

Lemma allDigits_append (a b : string) : allDigits (a ++ b) = allDigits a && allDigits b.
Proof.
  induction a as [|ch a IH]; cbn; [reflexivity|].
  rewrite IH, andb_assoc. reflexivity.
Qed.

Lemma digitsValue_append (a b : string) :
  forall acc, digitsValue acc (a ++ b) = digitsValue (digitsValue acc a) b.
Proof. induction a as [|ch a IH]; intro acc; cbn; [reflexivity | apply IH]. Qed.

Lemma digitChar_spec (d : Z) :
  (0 <= d < 10)%Z ->
  isDigit (digitChar d) = true /\ (Z.of_nat (nat_of_ascii (digitChar d)) - 48 = d)%Z.
Proof.
  intro Hd.
  assert (d = 0 \/ d = 1 \/ d = 2 \/ d = 3 \/ d = 4 \/ d = 5 \/ d = 6 \/ d = 7 \/ d = 8
          \/ d = 9)%Z as Hc by lia.
  repeat (destruct Hc as [->|Hc]; [split; reflexivity|]).
  subst d. split; reflexivity.
Qed.

Lemma fixedDigits_length (f : nat) : forall n, String.length (fixedDigits f n) = f.
Proof.
  induction f as [|f IH]; intro n; cbn [fixedDigits]; [reflexivity|].
  rewrite length_append, IH. cbn. lia.
Qed.

Lemma fixedDigits_allDigits (f : nat) : forall n, allDigits (fixedDigits f n) = true.
Proof.
  induction f as [|f IH]; intro n; cbn [fixedDigits]; [reflexivity|].
  rewrite allDigits_append, IH. cbn [allDigits andb].
  rewrite (proj1 (digitChar_spec (n mod 10) (Z.mod_pos_bound n 10 eq_refl))).
  reflexivity.
Qed.

Lemma fixedDigits_value (f : nat) :
  forall n acc,
    digitsValue acc (fixedDigits f n) = (acc * 10 ^ Z.of_nat f + n mod 10 ^ Z.of_nat f)%Z.
Proof.
  induction f as [|f IH]; intros n acc; cbn [fixedDigits].
  - cbn [digitsValue]. change (10 ^ Z.of_nat 0)%Z with 1%Z. rewrite Z.mod_1_r. lia.
  - rewrite digitsValue_append, IH. cbn [digitsValue].
    rewrite (proj2 (digitChar_spec (n mod 10) (Z.mod_pos_bound n 10 eq_refl))).
    rewrite Nat2Z.inj_succ, Z.pow_succ_r by lia.
    assert (0 < 10 ^ Z.of_nat f)%Z as Hp by (apply Z.pow_pos_nonneg; lia).
    rewrite (Z.rem_mul_r n 10 (10 ^ Z.of_nat f)) by lia.
    lia.
Qed.

Lemma stringOfUint_allDigits (d : Decimal.uint) :
  allDigits (NilEmpty.string_of_uint d) = true.
Proof. induction d; cbn; assumption || reflexivity. Qed.

Lemma decimal_allDigits (z : Z) : (0 <= z)%Z -> allDigits (decimal z) = true.
Proof.
  intro Hz. unfold decimal. destruct z as [|p|p]; [reflexivity | | lia].
  cbn [Z.to_int NilZero.string_of_int]. unfold NilZero.string_of_uint.
  destruct (Pos.to_uint p); try reflexivity; apply stringOfUint_allDigits.
Qed.

(** A run of digits ends at the first character that is not a digit. *)
Lemma digit_prefix_unique (a : string) :
  forall (a' : string) (c c' : ascii) (r r' : string),
    allDigits a = true -> allDigits a' = true ->
    isDigit c = false -> isDigit c' = false ->
    a ++ String c r = a' ++ String c' r' ->
    a = a' /\ c = c' /\ r = r'.
Proof.
  induction a as [|ch a IH]; intros [|ch' a'] c c' r r' Ha Ha' Hc Hc' E; cbn in *.
  - injection E as -> ->. auto.
  - injection E as -> _. apply andb_true_iff in Ha'. destruct Ha' as [Hd _]. congruence.
  - injection E as -> _. apply andb_true_iff in Ha. destruct Ha as [Hd _]. congruence.
  - injection E as -> E. apply andb_true_iff in Ha, Ha'.
    destruct (IH a' c c' r r') as (-> & -> & ->); tauto.
Qed.

(** *** [toFixed] in its fixed-notation range *)

Lemma toFixed_fixed (q : Q) :
  fixedRange q ->
  let n := Qfloor (Qabs q * inject_Z 1000000 + (1 # 2)) in
  toFixed 6 q = (if Qlt_bool q 0 then "-" else "")
                ++ decimal (n / 1000000) ++ "." ++ fixedDigits 6 (n mod 1000000).
Proof.
  intros Hr n. unfold toFixed.
  apply Qlt_bool_iff in Hr. unfold Qlt_bool in Hr. apply negb_true_iff in Hr.
  rewrite Hr. reflexivity.
Qed.

Lemma toFixed_SixDecimals (q : Q) : fixedRange q -> SixDecimals q (toFixed 6 q).
Proof.
  intro Hr. rewrite (toFixed_fixed q Hr). clear Hr. unfold SixDecimals. cbv zeta.
  pose proof (Qabs_nonneg q) as Ha.
  set (a := Qabs q) in *. clearbody a.
  set (n := Qfloor (a * inject_Z 1000000 + (1 # 2))).
  assert (0 <= n)%Z as Hn.
  { change 0%Z with (Qfloor 0). apply Qfloor_resp_le.
    change (inject_Z 1000000) with (1000000 # 1). lra. }
  exists (n / 1000000)%Z, (fixedDigits 6 (n mod 1000000)).
  split; [apply Z.div_pos; lia|].
  split; [reflexivity|].
  split; [apply fixedDigits_length|].
  split; [apply fixedDigits_allDigits|].
  rewrite fixedDigits_value.
  change (10 ^ Z.of_nat 6)%Z with 1000000%Z. change (10 ^ 6)%Z with 1000000%Z.
  rewrite Z.mul_0_l, Z.add_0_l, Z.mod_mod by lia.
  pose proof (Qfloor_le (a * inject_Z 1000000 + (1 # 2))) as Hlo.
  pose proof (Qlt_floor (a * inject_Z 1000000 + (1 # 2))) as Hhi.
  fold n in Hlo, Hhi.
  rewrite inject_Z_plus in Hhi.
  assert (inject_Z n == 1000000 * inject_Z (n / 1000000) + inject_Z (n mod 1000000)) as Hdm.
  { rewrite (Z.div_mod n 1000000) at 1 by lia.
    rewrite inject_Z_plus, inject_Z_mult. reflexivity. }
  revert Hlo Hhi Hdm.
  generalize (inject_Z n) (inject_Z (n / 1000000)) (inject_Z (n mod 1000000)).
  intros N IP R Hlo Hhi Hdm.
  change (inject_Z 1000000) with (1000000 # 1) in *. change (inject_Z 1) with 1 in *.
  unfold Qdiv. change (/ (1000000 # 1)) with (1 # 1000000).
  apply Qabs_Qle_condition. split; lra.
Qed.

(** *** [findIndex] *)

Lemma findIndex_absent {A : Type} (p : A -> bool) (l : list A) :
  existsb p l = false -> findIndex p l = (-1)%Z.
Proof.
  induction l as [|a l IH]; cbn; [reflexivity|].
  destruct (p a); [discriminate|]. intro H. rewrite (IH H). reflexivity.
Qed.

Lemma findIndex_present {A : Type} (p : A -> bool) (l : list A) :
  existsb p l = true ->
  exists (i : nat) (a : A),
    findIndex p l = Z.of_nat i /\ nth_error l i = Some a /\ p a = true /\
    (forall j b, (j < i)%nat -> nth_error l j = Some b -> p b = false).
Proof.
  induction l as [|a l IH]; cbn; [discriminate|].
  destruct (p a) eqn:Hpa.
  - intros _. exists 0%nat, a. repeat split; auto. intros j b Hj. lia.
  - cbn. intro H. destruct (IH H) as (i & b & Hi & Hn & Hb & Hmin).
    exists (S i), b. rewrite Hi.
    destruct (Z.eqb_spec (Z.of_nat i) (-1)); [lia|].
    repeat split; auto; [lia|].
    intros [|j] b' Hj Hb'; cbn in Hb'.
    + injection Hb' as <-. exact Hpa.
    + apply (Hmin j); [lia | exact Hb'].
Qed.

Lemma annotationLine_known (labels : list LabelClass) (a : BBox Q) :
  hasLabel (labelId a) labels = true ->
  fixedRange (x a) -> fixedRange (y a) -> fixedRange (w a) -> fixedRange (h a) ->
  ExportLine labels a (annotationLine labels a).
Proof.
  intros Hl Hx Hy Hw Hh. unfold hasLabel in Hl.
  destruct (findIndex_present _ _ Hl) as (i & l & Hi & Hn & Hp & Hmin).
  exists i, l, (toFixed 6 (x a)), (toFixed 6 (y a)), (toFixed 6 (w a)), (toFixed 6 (h a)).
  split; [exact Hn|]. split; [apply String.eqb_eq; exact Hp|].
  split.
  { intros j l' Hj Hl'. apply String.eqb_neq. exact (Hmin j l' Hj Hl'). }
  repeat (split; [apply toFixed_SixDecimals; assumption|]).
  unfold annotationLine. rewrite Hi.
  destruct (Z.eqb_spec (Z.of_nat i) (-1)); [lia | reflexivity].
Qed.

(** C9 (as amended): for every annotation list in which each annotation's
    [labelId] occurs in the label list and each of [x], [y], [w], [h] is
    below [10^21] in magnitude, the exported text is one line per
    annotation, the lines joined by single newlines with nothing else added,
    and each line is the zero-based position of the annotation's label in
    the label list followed by [x], [y], [w], [h] written with exactly six
    decimal places. *)
Theorem export_format (anns : list (BBox Q)) (labels : list LabelClass) :
  (forall a, In a anns -> hasLabel (labelId a) labels = true) ->
  (forall a, In a anns ->
     fixedRange (x a) /\ fixedRange (y a) /\ fixedRange (w a) /\ fixedRange (h a)) ->
  exists lines,
    generateYoloAnnotation anns labels = join newline lines /\
    Forall2 (ExportLine labels) anns lines.
Proof.
  intros Hl Hr. exists (map (annotationLine labels) anns).
  split; [reflexivity|].
  induction anns as [|a anns IH]; cbn [map]; constructor.
  - destruct (Hr a) as (Hx & Hy & Hw & Hh); [left; reflexivity|].
    apply annotationLine_known; auto. apply Hl. left. reflexivity.
  - apply IH; intros b Hb; [apply Hl | apply Hr]; right; exact Hb.
Qed.

Example export_twoBoxes :
  generateYoloAnnotation twoBoxes [car0; dog1]
  = "0 0.500000 0.500000 0.250000 0.250000" ++ newline
    ++ "1 0.100000 0.200000 0.050000 0.050000".
Proof. vm_compute. reflexivity. Qed.

Lemma export_format_witness :
  exists lines,
    generateYoloAnnotation twoBoxes [car0; dog1] = join newline lines /\
    Forall2 (ExportLine [car0; dog1]) twoBoxes lines.
Proof.
  apply (export_format twoBoxes [car0; dog1]).
  - intros a [<-|[<-|[]]]; reflexivity.
  - intros a [<-|[<-|[]]]; repeat split.
Defined.

Example export_farRight :
  generateYoloAnnotation [farRight] [car0] = "0 1e+21 0.500000 0.500000 0.500000".
Proof. vm_compute. reflexivity. Qed.

(** C9 (as stated) fails: the label of [farRight] is in the label list, and
    its line is ["0 1e+21 0.500000 0.500000 0.500000"], where [x] is not
    written with six decimal places. *)
Lemma export_format_fails_beyond_fixed_range :
  (forall a, In a [farRight] -> hasLabel (labelId a) [car0] = true) /\
  ~ (exists lines,
       generateYoloAnnotation [farRight] [car0] = join newline lines /\
       Forall2 (ExportLine [car0]) [farRight] lines).
Proof.
  split.
  { intros a [<-|[]]. reflexivity. }
  intros (lines & Htext & Hlines).
  inversion Hlines as [|a line anns lines' Hline Hrest]; subst.
  inversion Hrest; subst.
  rewrite export_farRight in Htext. cbn [join String.concat] in Htext.
  destruct Hline as (i & l & sx & sy & sw & sh & _ & _ & _ & Hx & _ & _ & _ & Hl).
  destruct Hx as (ip & frac & Hip & Hsx & _ & _ & _).
  change (Qlt_bool (x farRight) 0) with false in Hsx. cbn [append] in Hsx.
  rewrite Hl, Hsx in Htext. clear Hl Hsx.
  change (" " ++ ?s) with (String " " s) in Htext.
  destruct (digit_prefix_unique "0" (decimal (Z.of_nat i)) " " " "
              "1e+21 0.500000 0.500000 0.500000" _
              eq_refl (decimal_allDigits _ (Nat2Z.is_nonneg i)) eq_refl eq_refl Htext)
    as (_ & _ & Hrest').
  rewrite append_assoc in Hrest'.
  change ("." ++ ?s) with (String "." s) in Hrest'.
  destruct (digit_prefix_unique "1" (decimal ip) "e" "."
              "+21 0.500000 0.500000 0.500000" _
              eq_refl (decimal_allDigits _ Hip) eq_refl eq_refl Hrest')
    as (_ & Hc & _).
  discriminate Hc.
Qed.

(** C10: when an annotation's [labelId] is not in the label list, its line is
    the empty string and is still joined with the others: the text has an
    empty line at the annotation's place, and is empty when the annotation
    is the only one. *)
Theorem export_unknown_label (labels : list LabelClass) (ann : BBox Q) :
  hasLabel (labelId ann) labels = false ->
  annotationLine labels ann = "" /\
  generateYoloAnnotation [ann] labels = "" /\
  (forall before after : list (BBox Q),
     generateYoloAnnotation (before ++ ann :: after) labels
     = join newline (map (annotationLine labels) before ++ "" ::
                     map (annotationLine labels) after)) /\
  (forall others : list (BBox Q), others <> [] ->
     generateYoloAnnotation (ann :: others) labels
     = newline ++ generateYoloAnnotation others labels).
Proof.
  intro Hl.
  assert (annotationLine labels ann = "") as Hline.
  { unfold annotationLine. unfold hasLabel in Hl.
    rewrite (findIndex_absent _ _ Hl). reflexivity. }
  split; [exact Hline|]. split; [|split].
  - unfold generateYoloAnnotation. cbn [map join String.concat]. exact Hline.
  - intros before after. unfold generateYoloAnnotation.
    rewrite map_app. cbn [map]. rewrite Hline. reflexivity.
  - intros [|b others] Hne; [contradiction|].
    unfold generateYoloAnnotation. cbn [map join String.concat]. rewrite Hline.
    reflexivity.
Qed.

Lemma export_unknown_label_witness :
  annotationLine [car0; dog1] orphan = "" /\
  generateYoloAnnotation [orphan] [car0; dog1] = "" /\
  (forall before after : list (BBox Q),
     generateYoloAnnotation (before ++ orphan :: after) [car0; dog1]
     = join newline (map (annotationLine [car0; dog1]) before ++ "" ::
                     map (annotationLine [car0; dog1]) after)) /\
  (forall others : list (BBox Q), others <> [] ->
     generateYoloAnnotation (orphan :: others) [car0; dog1]
     = newline ++ generateYoloAnnotation others [car0; dog1]).
Proof.
  apply (export_unknown_label [car0; dog1] orphan). reflexivity.
Defined.

Example export_orphan_between :
  generateYoloAnnotation (orphan :: twoBoxes) [car0; dog1]
  = newline ++ "0 0.500000 0.500000 0.250000 0.250000" ++ newline
    ++ "1 0.100000 0.200000 0.050000 0.050000".
Proof. vm_compute. reflexivity. Qed.

(** * Further properties of the code *)

(** ** Canvas: pointer position *)

(** X1: on a mounted canvas with a non-zero zoom, the image-space point of
    a pointer event maps back to the event's screen position: scaling it by
    the zoom and adding the pan and the container's origin gives [clientX],
    [clientY] again. *)
Theorem getMousePos_inverse (props : CanvasProps) (rect : Point) (e : MouseEvent) :
  ~ zoom props == 0 ->
  let p := getMousePos props (Some rect) e in
  px p * zoom props + px (pan props) + px rect == clientX e /\
  py p * zoom props + py (pan props) + py rect == clientY e.
Proof.
  intros Hz. cbn. split; field; exact Hz.
Qed.

Lemma getMousePos_inverse_witness :
  let p := getMousePos resizeProps (Some (mkPoint 3 4)) (mkEvent 300 200) in
  px p * zoom resizeProps + px (pan resizeProps) + px (mkPoint 3 4) == clientX (mkEvent 300 200) /\
  py p * zoom resizeProps + py (pan resizeProps) + py (mkPoint 3 4) == clientY (mkEvent 300 200).
Proof.
  apply (getMousePos_inverse resizeProps (mkPoint 3 4) (mkEvent 300 200)). discriminate.
Defined.

(** ** Canvas: drawing a box *)

Lemma Qabs_cases (q : Q) : (0 <= q /\ Qabs q == q) \/ (q <= 0 /\ Qabs q == - q).
Proof.
  destruct (Qlt_le_dec q 0) as [Hn|Hp].
  - right. split; [apply Qlt_le_weak; exact Hn|]. apply Qabs_neg. apply Qlt_le_weak. exact Hn.
  - left. split; [exact Hp|]. apply Qabs_pos. exact Hp.
Qed.

(** X2: while a box is being drawn, each pointer move sets the rectangle in
    progress to the one spanned by the anchor and the pointer, whatever the
    direction of the drag: its left and top are the smaller coordinates, its
    right and bottom the larger ones, and its width and height are not
    negative. No callback is made. *)
Theorem creating_spans_anchor_and_pointer (props : CanvasProps) (st : CanvasState)
    (container : option Point) (e : MouseEvent) (ds : Point) :
  mode props = DRAW -> isDragging st = true -> dragStart st = Some ds ->
  let p := getMousePos props container e in
  exists r,
    handleMouseMove props st container e =
      (mkState true (Some ds) (Some r) (draggingAnnotationId st) (resizeHandle st), []) /\
    rx r == Qmin (px ds) (px p) /\ rx r + rw r == Qmax (px ds) (px p) /\
    ry r == Qmin (py ds) (py p) /\ ry r + rh r == Qmax (py ds) (py p) /\
    0 <= rw r /\ 0 <= rh r.
Proof.
  intros Hm Hd Hs p. unfold handleMouseMove. rewrite Hm, Hd, Hs. fold p.
  eexists. split; [reflexivity|]. cbn [rx ry rw rh].
  assert (forall a b : Q,
            (if Qlt_bool 0 (b - a) then a else b) == Qmin a b /\
            (if Qlt_bool 0 (b - a) then a else b) + Qabs (b - a) == Qmax a b /\
            0 <= Qabs (b - a)) as Haxis.
  { intros a b.
    destruct (Q.min_spec a b) as [[Hlt Emin]|[Hle Emin]];
      destruct (Q.max_spec a b) as [[Hlt' Emax]|[Hle' Emax]];
      destruct (Qabs_cases (b - a)) as [[Hs1 Eabs]|[Hs1 Eabs]];
      destruct (Qlt_bool 0 (b - a)) eqn:Hb;
      try (apply Qlt_bool_iff in Hb); try (apply Qlt_bool_false_iff in Hb);
      revert Emin Emax Eabs; generalize (Qmin a b) (Qmax a b) (Qabs (b - a));
      intros; repeat split; lra. }
  destruct (Haxis (px ds) (px p)) as (Hx1 & Hx2 & Hx3).
  destruct (Haxis (py ds) (py p)) as (Hy1 & Hy2 & Hy3).
  repeat split; assumption.
Qed.

Lemma creating_spans_anchor_and_pointer_witness :
  let props := mkProps (image resizeProps) "c0" DRAW 1 (mkPoint 0 0) None in
  let st := mkState true (Some (mkPoint 100 100)) (Some (mkRect 100 100 0 0)) None None in
  let p := getMousePos props (Some (mkPoint 0 0)) (mkEvent 40 60) in
  exists r,
    handleMouseMove props st (Some (mkPoint 0 0)) (mkEvent 40 60) =
      (mkState true (Some (mkPoint 100 100)) (Some r) (draggingAnnotationId st)
               (resizeHandle st), []) /\
    rx r == Qmin 100 (px p) /\ rx r + rw r == Qmax 100 (px p) /\
    ry r == Qmin 100 (py p) /\ ry r + rh r == Qmax 100 (py p) /\
    0 <= rw r /\ 0 <= rh r.
Proof.
  apply (creating_spans_anchor_and_pointer
           (mkProps (image resizeProps) "c0" DRAW 1 (mkPoint 0 0) None)
           (mkState true (Some (mkPoint 100 100)) (Some (mkRect 100 100 0 0)) None None)
           (Some (mkPoint 0 0)) (mkEvent 40 60) (mkPoint 100 100)); reflexivity.
Defined.

(** ** Canvas: resizing *)

(** X3: whatever the handle, the rectangle before and the pointer position,
    the rectangle computed by a resize is at least 5 pixels wide and 5 pixels
    high. *)
Theorem resizeRect_min_size (handle : ResizeHandleType) (rect : Rect Q) (x y : Q) :
  5 <= rw (resizeRect handle rect x y) /\ 5 <= rh (resizeRect handle rect x y).
Proof.
  destruct handle; unfold resizeRect; cbn [rx ry rw rh];
    repeat match goal with
    | |- context [Qmin ?a ?b] =>
        let H := fresh in let E := fresh in
        destruct (Q.min_spec a b) as [[H E]|[H E]]; revert H E;
        generalize (Qmin a b); intros
    | |- context [Qmax ?a ?b] =>
        let H := fresh in let E := fresh in
        destruct (Q.max_spec a b) as [[H E]|[H E]]; revert H E;
        generalize (Qmax a b); intros
    end; split; lra.
Qed.

(** X4: a resize changes only the geometry of the boxes that carry the
    selected id: the list sent to [onUpdateAnnotations] has the same length
    and order, every box keeps its [id] and [labelId], every box with another
    id is sent unchanged, and the state of the gesture stays as it was. *)
Theorem resize_touches_only_selected (props : CanvasProps) (st : CanvasState)
    (container : option Point) (e : MouseEvent) (handle : ResizeHandleType) (ann : BBox Q) :
  mode props = SELECT ->
  resizeHandle st = Some handle ->
  truthy (selectedAnnotationId props) = true ->
  find (idIs (selectedAnnotationId props)) (annotations (image props)) = Some ann ->
  exists updated,
    handleMouseMove props st container e = (st, [onUpdateAnnotations updated]) /\
    Forall2 (fun a a' => id a' = id a /\ labelId a' = labelId a /\
                         (id a <> id ann -> a' = a))
            (annotations (image props)) updated.
Proof.
  intros Hm Hr Ht Hf.
  rewrite (handleMouseMove_resize props st container e handle Hm Hr Ht), Hf. cbv zeta.
  eexists. split; [reflexivity|]. clear Hf.
  induction (annotations (image props)) as [|a anns IH]; cbn [map]; constructor; [|exact IH].
  destruct (String.eqb_spec (id a) (id ann)) as [Heq|Hne].
  - repeat split. intro Hc. contradiction.
  - repeat split.
Qed.

Lemma resize_touches_only_selected_witness :
  exists updated,
    handleMouseMove resizeProps resizeState (Some (mkPoint 0 0)) (mkEvent 300 200)
    = (resizeState, [onUpdateAnnotations updated]) /\
    Forall2 (fun a a' => id a' = id a /\ labelId a' = labelId a /\
                         (id a <> id (mkBBox "b1" "0" (1 # 2) (1 # 2) (1 # 4) (1 # 4)) -> a' = a))
            (annotations (image resizeProps)) updated.
Proof.
  apply (resize_touches_only_selected resizeProps resizeState (Some (mkPoint 0 0))
           (mkEvent 300 200) tl (mkBBox "b1" "0" (1 # 2) (1 # 2) (1 # 4) (1 # 4)));
    reflexivity.
Defined.

(** ** Canvas: releasing the pointer *)

(** X5: a pointer release always ends the gesture (no drag, no anchor, no
    dragged box, no handle), clears the rectangle in progress in [DRAW]
    mode, and makes no callback unless a rectangle more than 5 pixels wide
    and more than 5 pixels high was being drawn: a click or a small drag
    adds no box. *)
Theorem mouseUp_ends_gesture (props : CanvasProps) (st : CanvasState) (uuid : string) :
  let st' := fst (handleMouseUp props st uuid) in
  let cbs := snd (handleMouseUp props st uuid) in
  isDragging st' = false /\ dragStart st' = None /\
  draggingAnnotationId st' = None /\ resizeHandle st' = None /\
  (mode props = DRAW -> activeCreation st' = None) /\
  (mode props <> DRAW -> activeCreation st' = activeCreation st /\ cbs = []) /\
  (activeCreation st = None -> cbs = []) /\
  (forall r, activeCreation st = Some r -> rw r <= 5 \/ rh r <= 5 -> cbs = []).
Proof.
  unfold handleMouseUp.
  destruct (mode props) eqn:Hm; destruct (activeCreation st) as [ac|] eqn:Hac; cbn;
    try (repeat split; congruence).
  destruct (Qlt_bool 5 (rw ac)) eqn:Hw; destruct (Qlt_bool 5 (rh ac)) eqn:Hh; cbn;
    try (repeat split; congruence).
  repeat split; try congruence.
  intros r Hr [Hle|Hle]; injection Hr as <-;
    apply Qlt_bool_iff in Hw, Hh; exfalso; lra.
Qed.

(** X6: releasing the pointer in [DRAW] mode over a rectangle more than 5
    pixels wide and high appends exactly one box after the existing ones,
    with the fresh id and the current label, selects it, and, on an image
    with a size, the box drawn back in pixels is the rectangle that was
    drawn. *)
Theorem mouseUp_finalizes_box (props : CanvasProps) (st : CanvasState) (uuid : string)
    (r : Rect Q) :
  mode props = DRAW -> activeCreation st = Some r ->
  5 < rw r -> 5 < rh r ->
  ~ width (image props) == 0 -> ~ height (image props) == 0 ->
  exists newAnn,
    snd (handleMouseUp props st uuid) =
      [onUpdateAnnotations (annotations (image props) ++ [newAnn])%list;
       onSelectAnnotation (Some uuid)] /\
    id newAnn = uuid /\ labelId newAnn = currentLabelId props /\
    let back := yoloToSvg newAnn (width (image props)) (height (image props)) in
    rx back == rx r /\ ry back == ry r /\ rw back == rw r /\ rh back == rh r.
Proof.
  intros Hm Hac Hw Hh HW HH. unfold handleMouseUp. rewrite Hm, Hac.
  apply Qlt_bool_iff in Hw, Hh. rewrite Hw, Hh. cbn [andb snd].
  eexists. split; [reflexivity|]. split; [reflexivity|]. split; [reflexivity|].
  unfold yoloToSvg, svgToYolo; cbn. repeat split; field; assumption.
Qed.

Lemma mouseUp_finalizes_box_witness :
  let props := mkProps (image resizeProps) "c0" DRAW 1 (mkPoint 0 0) None in
  let st := mkState true (Some (mkPoint 100 100)) (Some (mkRect 40 60 60 40)) None None in
  exists newAnn,
    snd (handleMouseUp props st "u") =
      [onUpdateAnnotations (annotations (image props) ++ [newAnn])%list;
       onSelectAnnotation (Some "u")] /\
    id newAnn = "u" /\ labelId newAnn = currentLabelId props /\
    let back := yoloToSvg newAnn (width (image props)) (height (image props)) in
    rx back == 40 /\ ry back == 60 /\ rw back == 60 /\ rh back == 40.
Proof.
  apply (mouseUp_finalizes_box
           (mkProps (image resizeProps) "c0" DRAW 1 (mkPoint 0 0) None)
           (mkState true (Some (mkPoint 100 100)) (Some (mkRect 40 60 60 40)) None None)
           "u" (mkRect 40 60 60 40)); try reflexivity; discriminate.
Defined.

(** ** App and Canvas together *)

Lemma find_map_update {A : Type} (p : A -> bool) (f : A -> A) (l : list A) :
  (forall a, p (f a) = p a) ->
  find p (map (fun a => if p a then f a else a) l) = option_map f (find p l).
Proof.
  intro Hp. induction l as [|a l IH]; [reflexivity|].
  cbn [map find]. destruct (p a) eqn:Hpa.
  - rewrite Hp, Hpa. reflexivity.
  - rewrite Hpa. exact IH.
Qed.

Lemma currentImage_updateAnnotations (app : AppState) (img : DatasetImage)
    (anns : list (BBox Q)) :
  truthy (selectedImageId app) = true ->
  currentImage app = Some img ->
  currentImage (updateAnnotations app anns) = Some (withAnnotations img anns).
Proof.
  intros Ht Hc. unfold updateAnnotations. rewrite Ht. cbn [negb].
  unfold currentImage in *. cbn [selectedImageId a_images withImages].
  rewrite (find_map_update (imageIs (selectedImageId app))
             (fun img => mkImage (image_id img) (image_name img) (width img) (height img)
                                 anns (deriveStatus anns))).
  - rewrite Hc. reflexivity.
  - intro a. destruct (selectedImageId app); reflexivity.
Qed.

(** One pointer move of a box drag, seen from [App]. *)
Lemma mouseMove_moves (app : AppState) (st : CanvasState) (container : option Point)
    (e : MouseEvent) (img : DatasetImage) (d : string) (ds : Point) (ann : BBox Q) :
  currentImage app = Some img -> truthy (selectedImageId app) = true ->
  toolMode app = SELECT -> resizeHandle st = None ->
  isDragging st = true -> draggingAnnotationId st = Some d -> d <> "" ->
  dragStart st = Some ds ->
  find (idIs (Some d)) (annotations img) = Some ann ->
  forall props, canvasProps app = Some props ->
  let p := getMousePos props container e in
  mouseMove container e app st =
    (updateAnnotations app
       (map (moveBy (Some d) ((px p - px ds) / width img) ((py p - py ds) / height img))
            (annotations img)),
     mkState true (Some p) (activeCreation st) (Some d) None).
Proof.
  intros Hc Ht Hm Hr Hd Hid Hne Hs Hf props Hp p.
  unfold mouseMove, onCanvas. rewrite Hp.
  unfold canvasProps in Hp. rewrite Hc in Hp. injection Hp as <-.
  unfold handleMouseMove. cbn [mode image selectedAnnotationId].
  rewrite Hm, Hr, Hd, Hid, Hs.
  assert (truthy (Some d) = true) as ->.
  { cbn. destruct (String.eqb_spec d ""); [contradiction | reflexivity]. }
  rewrite Hf. reflexivity.
Qed.

Lemma moveBy_twice (sel : option string) (dx1 dy1 dx2 dy2 : Q) (anns : list (BBox Q)) :
  Forall2 (fun a a' =>
             id a' = id a /\ labelId a' = labelId a /\ w a' = w a /\ h a' = h a /\
             (idIs sel a = true -> x a' == x a + (dx1 + dx2) /\ y a' == y a + (dy1 + dy2)) /\
             (idIs sel a = false -> a' = a))
          anns (map (moveBy sel dx2 dy2) (map (moveBy sel dx1 dy1) anns)).
Proof.
  induction anns as [|a anns IH]; cbn [map]; constructor; [|exact IH].
  unfold moveBy. destruct (idIs sel a) eqn:Ha.
  - assert (idIs sel (mkBBox (id a) (labelId a) (x a + dx1) (y a + dy1) (w a) (h a)) = true)
      as -> by (destruct sel; exact Ha).
    cbn [id labelId x y w h].
    split; [reflexivity|]. split; [reflexivity|]. split; [reflexivity|].
    split; [reflexivity|]. split; [intros _; split; ring | intro Hc; discriminate Hc].
  - rewrite Ha.
    split; [reflexivity|]. split; [reflexivity|]. split; [reflexivity|].
    split; [reflexivity|]. split; [intro Hc; discriminate Hc | reflexivity].
Qed.

(** X7: dragging a box does not drift. After two pointer moves of a drag
    that started at [ds], every box with the dragged id sits at its first
    position plus the whole pointer travel from [ds] to the last pointer
    position, divided by the image width and height; its size, id and label
    are unchanged, the other boxes are untouched, and the anchor is the last
    pointer position. *)
Theorem drag_moves_by_total_travel (app : AppState) (st : CanvasState)
    (container : option Point) (e1 e2 : MouseEvent) (img : DatasetImage) (d : string)
    (ds : Point) (ann : BBox Q) (props : CanvasProps) :
  canvasProps app = Some props ->
  currentImage app = Some img -> truthy (selectedImageId app) = true ->
  toolMode app = SELECT -> resizeHandle st = None ->
  isDragging st = true -> draggingAnnotationId st = Some d -> d <> "" ->
  dragStart st = Some ds ->
  find (idIs (Some d)) (annotations img) = Some ann ->
  let p2 := getMousePos props container e2 in
  let after1 := mouseMove container e1 app st in
  let after2 := mouseMove container e2 (fst after1) (snd after1) in
  exists img2,
    currentImage (fst after2) = Some img2 /\
    dragStart (snd after2) = Some p2 /\
    Forall2 (fun a a' =>
               id a' = id a /\ labelId a' = labelId a /\ w a' = w a /\ h a' = h a /\
               (idIs (Some d) a = true ->
                x a' == x a + (px p2 - px ds) / width img /\
                y a' == y a + (py p2 - py ds) / height img) /\
               (idIs (Some d) a = false -> a' = a))
            (annotations img) (annotations img2).
Proof.
  intros Hp Hc Ht Hm Hr Hd Hid Hne Hs Hf p2 after1 after2.
  set (p1 := getMousePos props container e1).
  set (anns1 := map (moveBy (Some d) ((px p1 - px ds) / width img)
                            ((py p1 - py ds) / height img)) (annotations img)).
  assert (after1 = (updateAnnotations app anns1,
                    mkState true (Some p1) (activeCreation st) (Some d) None)) as H1.
  { unfold after1. apply (mouseMove_moves app st container e1 img d ds ann); assumption. }
  assert (currentImage (updateAnnotations app anns1) = Some (withAnnotations img anns1)) as Hc1
    by (apply currentImage_updateAnnotations; assumption).
  assert (selectedImageId (updateAnnotations app anns1) = selectedImageId app) as Hsel.
  { unfold updateAnnotations. destruct (negb (truthy (selectedImageId app))); reflexivity. }
  assert (canvasProps (updateAnnotations app anns1)
          = Some (mkProps (withAnnotations img anns1) (currentLabelId props) (mode props)
                          (zoom props) (pan props) (selectedAnnotationId props))) as Hp1.
  { unfold canvasProps in *. rewrite Hc1. rewrite Hc in Hp. injection Hp as <-.
    unfold updateAnnotations. destruct (negb (truthy (selectedImageId app))); reflexivity. }
  assert (find (idIs (Some d)) anns1
          = Some (mkBBox (id ann) (labelId ann) (x ann + (px p1 - px ds) / width img)
                         (y ann + (py p1 - py ds) / height img) (w ann) (h ann))) as Hf1.
  { unfold anns1, moveBy.
    rewrite (find_map_update (idIs (Some d))
               (fun a => mkBBox (id a) (labelId a) (x a + (px p1 - px ds) / width img)
                                (y a + (py p1 - py ds) / height img) (w a) (h a))).
    - rewrite Hf. reflexivity.
    - intro a. reflexivity. }
  assert (after2 =
          (updateAnnotations (updateAnnotations app anns1)
             (map (moveBy (Some d) ((px p2 - px p1) / width img) ((py p2 - py p1) / height img))
                  anns1),
           mkState true (Some p2) (activeCreation st) (Some d) None)) as H2.
  { unfold after2. rewrite H1. cbn [fst snd].
    assert (truthy (selectedImageId (updateAnnotations app anns1)) = true) as Ht1
      by (rewrite Hsel; exact Ht).
    assert (toolMode (updateAnnotations app anns1) = SELECT) as Hm1.
    { unfold updateAnnotations. destruct (negb (truthy (selectedImageId app))); exact Hm. }
    exact (mouseMove_moves (updateAnnotations app anns1)
             (mkState true (Some p1) (activeCreation st) (Some d) None) container e2
             (withAnnotations img anns1) d p1 _ Hc1 Ht1 Hm1 eq_refl eq_refl eq_refl Hne
             eq_refl Hf1 _ Hp1). }
  rewrite H2. cbn [fst snd].
  eexists. split.
  - apply currentImage_updateAnnotations; [rewrite Hsel; exact Ht | exact Hc1].
  - split; [reflexivity|]. cbn [annotations withAnnotations]. unfold anns1.
    pose proof (moveBy_twice (Some d) ((px p1 - px ds) / width img) ((py p1 - py ds) / height img)
                  ((px p2 - px p1) / width img) ((py p2 - py p1) / height img)
                  (annotations img)) as Htw.
    eapply Forall2_impl; [|exact Htw].
    intros a a' (Hi & Hl & Hw & Hh & Hmv & Hst).
    repeat split; try assumption.
    + destruct (Hmv H) as [Hx _]. rewrite Hx. unfold Qdiv. ring.
    + destruct (Hmv H) as [_ Hy]. rewrite Hy. unfold Qdiv. ring.
Qed.

Lemma drag_moves_by_total_travel_witness :
  let img := image resizeProps in
  let p2 := mkPoint ((50 - 0 - 0) / 1) ((70 - 0 - 0) / 1) in
  let after1 := mouseMove (Some (mkPoint 0 0)) (mkEvent 20 30) (editorApp SELECT) dragState in
  let after2 := mouseMove (Some (mkPoint 0 0)) (mkEvent 50 70) (fst after1) (snd after1) in
  exists img2,
    currentImage (fst after2) = Some img2 /\
    dragStart (snd after2) = Some p2 /\
    Forall2 (fun a a' =>
               id a' = id a /\ labelId a' = labelId a /\ w a' = w a /\ h a' = h a /\
               (idIs (Some "b1") a = true ->
                x a' == x a + (px p2 - px (mkPoint 10 10)) / width img /\
                y a' == y a + (py p2 - py (mkPoint 10 10)) / height img) /\
               (idIs (Some "b1") a = false -> a' = a))
            (annotations img) (annotations img2).
Proof.
  apply (drag_moves_by_total_travel (editorApp SELECT) dragState (Some (mkPoint 0 0))
           (mkEvent 20 30) (mkEvent 50 70) (image resizeProps) "b1" (mkPoint 10 10)
           (mkBBox "b1" "0" (1 # 2) (1 # 2) (1 # 4) (1 # 4))
           (mkProps (image resizeProps) "c0" SELECT 1 (mkPoint 0 0) (Some "b1")));
    try reflexivity. discriminate.
Defined.

Lemma mouseDown_pan (app : AppState) (st : CanvasState) (container : option Point)
    (e : MouseEvent) (img : DatasetImage) :
  currentImage app = Some img -> toolMode app = PAN ->
  mouseDown container e app st =
    (app, mkState true (Some (mkPoint (clientX e) (clientY e))) (activeCreation st)
                  (draggingAnnotationId st) (resizeHandle st)).
Proof.
  intros Hc Hm. unfold mouseDown, onCanvas, canvasProps. rewrite Hc.
  unfold handleMouseDown. cbn [mode]. rewrite Hm. reflexivity.
Qed.

Lemma mouseMove_pan (app : AppState) (st : CanvasState) (container : option Point)
    (e : MouseEvent) (img : DatasetImage) (ds : Point) :
  currentImage app = Some img -> toolMode app = PAN ->
  isDragging st = true -> dragStart st = Some ds ->
  mouseMove container e app st =
    (withPan app (mkPoint (px (a_pan app) + (clientX e - px ds))
                          (py (a_pan app) + (clientY e - py ds))),
     mkState true (Some (mkPoint (clientX e) (clientY e))) (activeCreation st)
             (draggingAnnotationId st) (resizeHandle st)).
Proof.
  intros Hc Hm Hd Hs. unfold mouseMove, onCanvas, canvasProps. rewrite Hc.
  unfold handleMouseMove. cbn [mode pan]. rewrite Hm, Hd, Hs. reflexivity.
Qed.

(** X8: panning follows the pointer. In [PAN] mode, a pointer-down followed
    by two pointer moves leaves the pan offset at its first value plus the
    whole screen travel of the pointer, and changes no image. *)
Theorem pan_follows_pointer (app : AppState) (st : CanvasState) (container : option Point)
    (e0 e1 e2 : MouseEvent) (img : DatasetImage) :
  currentImage app = Some img -> toolMode app = PAN ->
  let after0 := mouseDown container e0 app st in
  let after1 := mouseMove container e1 (fst after0) (snd after0) in
  let after2 := mouseMove container e2 (fst after1) (snd after1) in
  px (a_pan (fst after2)) == px (a_pan app) + (clientX e2 - clientX e0) /\
  py (a_pan (fst after2)) == py (a_pan app) + (clientY e2 - clientY e0) /\
  a_images (fst after2) = a_images app /\
  dragStart (snd after2) = Some (mkPoint (clientX e2) (clientY e2)).
Proof.
  intros Hc Hm after0 after1 after2.
  unfold after2, after1, after0.
  rewrite (mouseDown_pan app st container e0 img Hc Hm). cbn [fst snd].
  rewrite (mouseMove_pan app
             (mkState true (Some (mkPoint (clientX e0) (clientY e0))) (activeCreation st)
                      (draggingAnnotationId st) (resizeHandle st))
             container e1 img (mkPoint (clientX e0) (clientY e0)) Hc Hm eq_refl eq_refl).
  cbn [fst snd activeCreation draggingAnnotationId resizeHandle px py].
  rewrite (mouseMove_pan
             (withPan app (mkPoint (px (a_pan app) + (clientX e1 - clientX e0))
                                   (py (a_pan app) + (clientY e1 - clientY e0))))
             (mkState true (Some (mkPoint (clientX e1) (clientY e1))) (activeCreation st)
                      (draggingAnnotationId st) (resizeHandle st))
             container e2 img (mkPoint (clientX e1) (clientY e1)) Hc Hm eq_refl eq_refl).
  cbn. repeat split; ring.
Qed.

Lemma pan_follows_pointer_witness :
  let app := editorApp PAN in
  let after0 := mouseDown (Some (mkPoint 0 0)) (mkEvent 5 5) app idleState in
  let after1 := mouseMove (Some (mkPoint 0 0)) (mkEvent 9 2) (fst after0) (snd after0) in
  let after2 := mouseMove (Some (mkPoint 0 0)) (mkEvent 30 40) (fst after1) (snd after1) in
  px (a_pan (fst after2)) == px (a_pan app) + (30 - 5) /\
  py (a_pan (fst after2)) == py (a_pan app) + (40 - 5) /\
  a_images (fst after2) = a_images app /\
  dragStart (snd after2) = Some (mkPoint 30 40).
Proof.
  apply (pan_follows_pointer (editorApp PAN) idleState (Some (mkPoint 0 0))
           (mkEvent 5 5) (mkEvent 9 2) (mkEvent 30 40) (image resizeProps)); reflexivity.
Defined.

Lemma span_axis (a b : Q) :
  (if Qlt_bool 0 (b - a) then a else b) == Qmin a b /\
  (if Qlt_bool 0 (b - a) then a else b) + Qabs (b - a) == Qmax a b.
Proof.
  destruct (Q.min_spec a b) as [[Hlt Emin]|[Hle Emin]];
    destruct (Q.max_spec a b) as [[Hlt' Emax]|[Hle' Emax]];
    destruct (Qabs_cases (b - a)) as [[Hs1 Eabs]|[Hs1 Eabs]];
    destruct (Qlt_bool 0 (b - a)) eqn:Hb;
    try (apply Qlt_bool_iff in Hb); try (apply Qlt_bool_false_iff in Hb);
    revert Emin Emax Eabs; generalize (Qmin a b) (Qmax a b) (Qabs (b - a));
    intros; split; lra.
Qed.

Lemma mouseDown_draw (app : AppState) (st : CanvasState) (container : option Point)
    (e : MouseEvent) (img : DatasetImage) (props : CanvasProps) :
  canvasProps app = Some props -> toolMode app = DRAW ->
  let p := getMousePos props container e in
  mouseDown container e app st =
    (withSelectedAnn app None,
     mkState true (Some p) (Some (mkRect (px p) (py p) 0 0))
             (draggingAnnotationId st) (resizeHandle st)).
Proof.
  intros Hp Hm p. unfold mouseDown, onCanvas. rewrite Hp.
  unfold canvasProps in Hp. destruct (currentImage app); [|discriminate].
  injection Hp as <-. unfold handleMouseDown. cbn [mode]. rewrite Hm. reflexivity.
Qed.

Lemma mouseMove_draw (app : AppState) (st : CanvasState) (container : option Point)
    (e : MouseEvent) (ds : Point) (props : CanvasProps) :
  canvasProps app = Some props -> toolMode app = DRAW ->
  isDragging st = true -> dragStart st = Some ds ->
  let p := getMousePos props container e in
  mouseMove container e app st =
    (app,
     mkState true (Some ds)
             (Some (mkRect (if Qlt_bool 0 (px p - px ds) then px ds else px p)
                           (if Qlt_bool 0 (py p - py ds) then py ds else py p)
                           (Qabs (px p - px ds)) (Qabs (py p - py ds))))
             (draggingAnnotationId st) (resizeHandle st)).
Proof.
  intros Hp Hm Hd Hs p. unfold mouseMove, onCanvas. rewrite Hp.
  unfold canvasProps in Hp. destruct (currentImage app); [|discriminate].
  injection Hp as <-. unfold handleMouseMove. cbn [mode]. rewrite Hm, Hd, Hs. reflexivity.
Qed.

Lemma mouseUp_draw (app : AppState) (st : CanvasState) (uuid : string)
    (img : DatasetImage) (r : Rect Q) :
  currentImage app = Some img -> toolMode app = DRAW ->
  activeCreation st = Some r -> 5 < rw r -> 5 < rh r ->
  let yoloBox := svgToYolo (rx r) (ry r) (rw r) (rh r) (width img) (height img) in
  let newAnn := mkBBox uuid (a_currentLabelId app)
                       (rx yoloBox) (ry yoloBox) (rw yoloBox) (rh yoloBox) in
  mouseUp uuid app st =
    (withSelectedAnn (updateAnnotations app (annotations img ++ [newAnn])%list) (Some uuid),
     idleState).
Proof.
  intros Hc Hm Hac Hw Hh. cbv zeta. unfold mouseUp, onCanvas, canvasProps. rewrite Hc.
  unfold handleMouseUp. cbn [mode image currentLabelId]. rewrite Hm, Hac.
  apply Qlt_bool_iff in Hw, Hh. rewrite Hw, Hh. reflexivity.
Qed.

(** X9: a whole drawing gesture. In [DRAW] mode, pressing at one point,
    moving to another and releasing, when the rectangle in progress after
    the move is more than 5 pixels wide and more than 5 pixels high, adds
    exactly one box after the existing ones of the current image, with the
    fresh id and the current label, selects it, marks the image in progress
    and leaves the canvas idle; on an image with a size, the box drawn back
    in pixels is that rectangle, which is the one spanned by the two
    points. *)
Theorem draw_gesture_adds_box (app : AppState) (st : CanvasState) (container : option Point)
    (e0 e1 : MouseEvent) (uuid : string) (img : DatasetImage) (props : CanvasProps)
    (r : Rect Q) :
  canvasProps app = Some props -> currentImage app = Some img ->
  truthy (selectedImageId app) = true -> toolMode app = DRAW ->
  let after0 := mouseDown container e0 app st in
  let after1 := mouseMove container e1 (fst after0) (snd after0) in
  activeCreation (snd after1) = Some r -> 5 < rw r -> 5 < rh r ->
  ~ width img == 0 -> ~ height img == 0 ->
  let after2 := mouseUp uuid (fst after1) (snd after1) in
  let p0 := getMousePos props container e0 in
  let p1 := getMousePos props container e1 in
  exists newAnn,
    currentImage (fst after2)
    = Some (mkImage (image_id img) (image_name img) (width img) (height img)
                    (annotations img ++ [newAnn])%list in_progress) /\
    selectedAnnId (fst after2) = Some uuid /\
    snd after2 = idleState /\
    id newAnn = uuid /\ labelId newAnn = a_currentLabelId app /\
    let back := yoloToSvg newAnn (width img) (height img) in
    (rx back == rx r /\ ry back == ry r /\ rw back == rw r /\ rh back == rh r) /\
    rx r == Qmin (px p0) (px p1) /\ rx r + rw r == Qmax (px p0) (px p1) /\
    ry r == Qmin (py p0) (py p1) /\ ry r + rh r == Qmax (py p0) (py p1).
Proof.
  intros Hp Hc Ht Hm after0 after1 Hac Hw Hh HW HH after2 p0 p1.
  assert (canvasProps (withSelectedAnn app None)
          = Some (mkProps (image props) (currentLabelId props) (mode props) (zoom props)
                          (pan props) None)) as Hp0.
  { unfold canvasProps in *. unfold currentImage in *.
    cbn [withSelectedAnn a_images selectedImageId].
    destruct (find _ _); [|discriminate]. injection Hp as <-. reflexivity. }
  set (st0 := mkState true (Some p0) (Some (mkRect (px p0) (py p0) 0 0))
                      (draggingAnnotationId st) (resizeHandle st)).
  set (r1 := mkRect (if Qlt_bool 0 (px p1 - px p0) then px p0 else px p1)
                    (if Qlt_bool 0 (py p1 - py p0) then py p0 else py p1)
                    (Qabs (px p1 - px p0)) (Qabs (py p1 - py p0))).
  set (st1 := mkState true (Some p0) (Some r1) (draggingAnnotationId st) (resizeHandle st)).
  assert (after0 = (withSelectedAnn app None, st0)) as H0
    by exact (mouseDown_draw app st container e0 img props Hp Hm).
  assert (after1 = (withSelectedAnn app None, st1)) as H1.
  { unfold after1. rewrite H0. cbn [fst snd].
    exact (mouseMove_draw (withSelectedAnn app None) st0 container e1 p0 _ Hp0 Hm
             eq_refl eq_refl). }
  assert (r = r1) as Hr.
  { rewrite H1 in Hac. cbn [snd st1 activeCreation] in Hac. congruence. }
  unfold after2. rewrite H1. cbn [fst snd].
  rewrite (mouseUp_draw (withSelectedAnn app None) st1 uuid img r Hc Hm
             (eq_trans eq_refl (eq_sym (f_equal Some Hr))) Hw Hh).
  cbn [fst snd].
  eexists. split.
  { match goal with
    | |- currentImage (withSelectedAnn ?a ?s) = ?rhs => change (currentImage a = rhs)
    end.
    rewrite (currentImage_updateAnnotations (withSelectedAnn app None) img _ Ht Hc).
    unfold withAnnotations. destruct (annotations img); reflexivity. }
  split; [reflexivity|]. split; [reflexivity|]. split; [reflexivity|].
  split; [reflexivity|]. split.
  - unfold yoloToSvg, svgToYolo. cbn [x y w h rx ry rw rh add sub mul div two NumericQ].
    repeat split; field; assumption.
  - rewrite Hr. unfold r1. cbn [rx ry rw rh].
    destruct (span_axis (px p0) (px p1)) as [Hx1 Hx2].
    destruct (span_axis (py p0) (py p1)) as [Hy1 Hy2].
    repeat split; assumption.
Qed.

Lemma draw_gesture_adds_box_witness :
  let app := editorApp DRAW in
  let img := image resizeProps in
  let r := mkRect ((40 - 0 - 0) / 1) ((60 - 0 - 0) / 1)
                  (Qabs ((40 - 0 - 0) / 1 - (100 - 0 - 0) / 1))
                  (Qabs ((60 - 0 - 0) / 1 - (100 - 0 - 0) / 1)) in
  let after0 := mouseDown (Some (mkPoint 0 0)) (mkEvent 100 100) app idleState in
  let after1 := mouseMove (Some (mkPoint 0 0)) (mkEvent 40 60) (fst after0) (snd after0) in
  let after2 := mouseUp "u" (fst after1) (snd after1) in
  activeCreation (snd after1) = Some r /\ 5 < rw r /\ 5 < rh r /\
  exists newAnn,
    currentImage (fst after2)
    = Some (mkImage (image_id img) (image_name img) (width img) (height img)
                    (annotations img ++ [newAnn])%list in_progress) /\
    selectedAnnId (fst after2) = Some "u" /\
    snd after2 = idleState /\
    id newAnn = "u" /\ labelId newAnn = a_currentLabelId app /\
    let back := yoloToSvg newAnn (width img) (height img) in
    (rx back == rx r /\ ry back == ry r /\ rw back == rw r /\ rh back == rh r) /\
    rx r == Qmin ((100 - 0 - 0) / 1) ((40 - 0 - 0) / 1) /\
    rx r + rw r == Qmax ((100 - 0 - 0) / 1) ((40 - 0 - 0) / 1) /\
    ry r == Qmin ((100 - 0 - 0) / 1) ((60 - 0 - 0) / 1) /\
    ry r + rh r == Qmax ((100 - 0 - 0) / 1) ((60 - 0 - 0) / 1).
Proof.
  split; [reflexivity|]. split; [reflexivity|]. split; [reflexivity|].
  apply (draw_gesture_adds_box (editorApp DRAW) idleState (Some (mkPoint 0 0))
           (mkEvent 100 100) (mkEvent 40 60) "u" (image resizeProps)
           (mkProps (image resizeProps) "c0" DRAW 1 (mkPoint 0 0) (Some "b1")));
    try reflexivity; discriminate.
Defined.

(** ** App: annotations of the current image *)

(** X10: [updateAnnotations] writes only to the images that carry the
    selected id: such an image gets the new list and a status recomputed
    from it ([unlabeled] for an empty list, otherwise [in_progress], so never
    [done]) and keeps its id, name and size; every other image is left as it
    is, and so are the order and number of images. With no image selected
    nothing changes. *)
Theorem updateAnnotations_frame (app : AppState) (anns : list (BBox Q)) :
  (truthy (selectedImageId app) = false -> updateAnnotations app anns = app) /\
  Forall2 (fun img img' =>
             (imageIs (selectedImageId app) img = true ->
              truthy (selectedImageId app) = true ->
              annotations img' = anns /\ status img' <> done /\
              (status img' = unlabeled <-> anns = []) /\
              image_id img' = image_id img /\ image_name img' = image_name img /\
              width img' = width img /\ height img' = height img) /\
             (imageIs (selectedImageId app) img = false -> img' = img))
          (a_images app) (a_images (updateAnnotations app anns)).
Proof.
  split.
  - intro Hf. unfold updateAnnotations. rewrite Hf. reflexivity.
  - unfold updateAnnotations. destruct (truthy (selectedImageId app)) eqn:Ht; cbn [negb].
    + cbn [withImages a_images].
      induction (a_images app) as [|img imgs IH]; cbn [map]; constructor; [|exact IH].
      destruct (imageIs (selectedImageId app) img) eqn:Hi.
      * split; [|intro Hc; discriminate Hc]. intros _ _. cbn.
        split; [reflexivity|]. split; [destruct anns; discriminate|].
        split; [|repeat split].
        destruct anns; split; intro Hc; try reflexivity; discriminate Hc.
      * split; [intro Hc; discriminate Hc | reflexivity].
    + induction (a_images app) as [|img imgs IH]; constructor; [|exact IH].
      split; [intros _ Hc; discriminate Hc | reflexivity].
Qed.

Lemma filter_not_idIs (sel : option string) (anns : list (BBox Q)) :
  find (idIs sel) (filter (fun a => negb (idIs sel a)) anns) = None.
Proof.
  induction anns as [|a anns IH]; [reflexivity|].
  cbn [filter]. destruct (idIs sel a) eqn:Ha; cbn [negb]; [exact IH|].
  cbn [find]. rewrite Ha. exact IH.
Qed.

(** X11: deleting the selected box. With a box selected and an image open,
    [handleDeleteAnnotation] leaves in the current image exactly the boxes
    whose id is not the selected one, in their order, so none with that id
    remains, and clears the selection; with no selection, or no image,
    nothing changes. *)
Theorem handleDeleteAnnotation_removes (app : AppState) :
  (truthy (selectedAnnId app) = false -> handleDeleteAnnotation app = app) /\
  (currentImage app = None -> handleDeleteAnnotation app = app) /\
  (forall img,
     truthy (selectedAnnId app) = true -> truthy (selectedImageId app) = true ->
     currentImage app = Some img ->
     exists img',
       currentImage (handleDeleteAnnotation app) = Some img' /\
       annotations img' = filter (fun a => negb (idIs (selectedAnnId app) a)) (annotations img) /\
       find (idIs (selectedAnnId app)) (annotations img') = None /\
       (List.length (annotations img') <= List.length (annotations img))%nat /\
       selectedAnnId (handleDeleteAnnotation app) = None).
Proof.
  split; [|split].
  - intro Hf. unfold handleDeleteAnnotation. rewrite Hf. reflexivity.
  - intro Hn. unfold handleDeleteAnnotation. rewrite Hn.
    destruct (truthy (selectedAnnId app)); reflexivity.
  - intros img Ha Hs Hc. unfold handleDeleteAnnotation. rewrite Ha, Hc.
    eexists. split.
    { match goal with
      | |- currentImage (withSelectedAnn ?a ?s) = ?rhs => change (currentImage a = rhs)
      end.
      exact (currentImage_updateAnnotations app img _ Hs Hc). }
    cbn [annotations withAnnotations]. split; [reflexivity|].
    split; [apply filter_not_idIs|]. split; [apply filter_length_le | reflexivity].
Qed.

Lemma handleDeleteAnnotation_removes_witness :
  exists img',
    currentImage (handleDeleteAnnotation (editorApp SELECT)) = Some img' /\
    annotations img' = filter (fun a => negb (idIs (Some "b1") a)) (annotations (image resizeProps)) /\
    find (idIs (Some "b1")) (annotations img') = None /\
    (List.length (annotations img') <= List.length (annotations (image resizeProps)))%nat /\
    selectedAnnId (handleDeleteAnnotation (editorApp SELECT)) = None.
Proof.
  apply (proj2 (proj2 (handleDeleteAnnotation_removes (editorApp SELECT)))
           (image resizeProps)); reflexivity.
Defined.

Lemma updateAnnotations_frame_witness :
  updateAnnotations (mkApp [image resizeProps] None [car0] "c0" SELECT 1 (mkPoint 0 0) None)
                    twoBoxes
  = mkApp [image resizeProps] None [car0] "c0" SELECT 1 (mkPoint 0 0) None.
Proof.
  apply (proj1 (updateAnnotations_frame
                  (mkApp [image resizeProps] None [car0] "c0" SELECT 1 (mkPoint 0 0) None)
                  twoBoxes)).
  reflexivity.
Defined.

(** ** App: the train/validation split *)

Lemma assignFrom_valCount (imgs : list DatasetImage) :
  forall index,
    (valCount (assignFrom index imgs) + (index + 4) / 5
     = (index + List.length imgs + 4) / 5)%nat.
Proof.
  induction imgs as [|img imgs IH]; intro index.
  - cbn. rewrite Nat.add_0_r. reflexivity.
  - cbn [assignFrom List.length]. unfold valCount in *. cbn [filter fst].
    specialize (IH (S index)). unfold isVal.
    destruct (Nat.eqb_spec (index mod 5) 0) as [Hz|Hnz]; cbn [List.length].
    + replace (index + S (List.length imgs) + 4)%nat
        with (S index + List.length imgs + 4)%nat by lia.
      rewrite <- IH.
      assert ((S index + 4) / 5 = S ((index + 4) / 5))%nat as ->; [|lia].
      pose proof (Nat.div_mod_eq index 5). pose proof (Nat.div_mod_eq (S index + 4) 5).
      pose proof (Nat.div_mod_eq (index + 4) 5). pose proof (Nat.mod_upper_bound index 5).
      pose proof (Nat.mod_upper_bound (S index + 4) 5).
      pose proof (Nat.mod_upper_bound (index + 4) 5). lia.
    + replace (index + S (List.length imgs) + 4)%nat
        with (S index + List.length imgs + 4)%nat by lia.
      rewrite <- IH.
      assert ((S index + 4) / 5 = (index + 4) / 5)%nat as ->; [|lia].
      pose proof (Nat.div_mod_eq index 5). pose proof (Nat.div_mod_eq (S index + 4) 5).
      pose proof (Nat.div_mod_eq (index + 4) 5). pose proof (Nat.mod_upper_bound index 5).
      pose proof (Nat.mod_upper_bound (S index + 4) 5).
      pose proof (Nat.mod_upper_bound (index + 4) 5). lia.
Qed.

Lemma assignFrom_images (imgs : list DatasetImage) :
  forall index, map snd (assignFrom index imgs) = imgs.
Proof.
  induction imgs as [|img imgs IH]; intro index; [reflexivity|].
  cbn [assignFrom map snd]. rewrite IH. reflexivity.
Qed.

(** X12: the export assigns every image, in order, to exactly one of the
    validation and training folders, and the validation side gets one image
    in five rounded up: [ceil(n / 5)] of [n] images, the rest going to
    training. A dataset of one image has no training image. *)
Theorem split_counts (imgs : list DatasetImage) :
  map snd (assignSplit imgs) = imgs /\
  valCount (assignSplit imgs) = ((List.length imgs + 4) / 5)%nat /\
  (valCount (assignSplit imgs) + trainCount (assignSplit imgs) = List.length imgs)%nat /\
  (List.length imgs = 1%nat -> trainCount (assignSplit imgs) = 0%nat).
Proof.
  assert (valCount (assignSplit imgs) = ((List.length imgs + 4) / 5)%nat) as Hv.
  { pose proof (assignFrom_valCount imgs 0) as H. cbn in H. unfold assignSplit.
    rewrite Nat.add_0_r in H. exact H. }
  assert (valCount (assignSplit imgs) + trainCount (assignSplit imgs) = List.length imgs)%nat
    as Hsum.
  { rewrite <- (assignFrom_images imgs 0) at 3. rewrite length_map.
    unfold valCount, trainCount, assignSplit.
    induction (assignFrom 0 imgs) as [|[b i] l IH]; [reflexivity|].
    cbn [filter fst]. destruct b; cbn [negb List.length]; lia. }
  split; [apply assignFrom_images|]. split; [exact Hv|]. split; [exact Hsum|].
  intro H1. rewrite Hv, H1 in Hsum. cbn in Hsum. lia.
Qed.

Lemma split_counts_witness : trainCount (assignSplit [image resizeProps]) = 0%nat.
Proof.
  apply (proj2 (proj2 (proj2 (split_counts [image resizeProps])))). reflexivity.
Defined.

(** ** Detection pipeline: clamping *)

Ltac split_minmax :=
  repeat match goal with
  | |- context [Qmin ?a ?b] =>
      let H := fresh in let E := fresh in
      destruct (Q.min_spec a b) as [[H E]|[H E]]; revert H E;
      generalize (Qmin a b); intros
  | |- context [Qmax ?a ?b] =>
      let H := fresh in let E := fresh in
      destruct (Q.max_spec a b) as [[H E]|[H E]]; revert H E;
      generalize (Qmax a b); intros
  end.

Ltac linear_Q := unfold Qdiv in *; change (/ 2) with (1 # 2) in *; lra.

Lemma clamp01_id (v : Q) : 0 <= v -> v <= 1 -> Qmax 0 (Qmin 1 v) == v.
Proof. intros H0 H1. split_minmax; lra. Qed.

(** The minimum-size step on one axis, for bounds already within [0, 1]. *)
Lemma minSize_axis (lo hi : Q) :
  0 <= lo -> lo <= 1 -> 0 <= hi -> hi <= 1 ->
  let '(lo', hi') :=
    if Qlt_bool (hi - lo) MIN_SIZE then
      let center := (lo + hi) / 2 in
      (Qmax 0 (center - MIN_SIZE / 2), Qmin 1 (center + MIN_SIZE / 2))
    else (lo, hi) in
  0 <= lo' /\ lo' <= 1 /\ 0 <= hi' /\ hi' <= 1 /\ (1 # 200) <= hi' - lo' /\
  (MIN_SIZE <= hi - lo -> lo' = lo /\ hi' = hi) /\
  ((1 # 200) <= (lo + hi) / 2 -> (lo + hi) / 2 <= (199 # 200) -> MIN_SIZE <= hi' - lo').
Proof.
  intros Hl0 Hl1 Hh0 Hh1. unfold MIN_SIZE.
  destruct (Qlt_bool (hi - lo) (1 # 100)) eqn:Hb.
  - cbv beta iota zeta. apply Qlt_bool_iff in Hb.
    split_minmax; repeat split; intros; try linear_Q.
  - apply Qlt_bool_false_iff in Hb. repeat split; intros; linear_Q.
Qed.

Lemma clampBBox_bounds (box out : list Q) :
  clampBBox box = Some out ->
  exists ymin xmin ymax xmax,
    out = [ymin; xmin; ymax; xmax] /\
    0 <= ymin /\ ymax <= 1 /\ 0 <= xmin /\ xmax <= 1 /\
    (1 # 200) <= ymax - ymin /\ (1 # 200) <= xmax - xmin.
Proof.
  destruct box as [|a [|b [|c [|d rest]]]]; try discriminate.
  unfold clampBBox. cbn [map].
  pose proof (clamp01_range a) as [Ha0 Ha1]. pose proof (clamp01_range b) as [Hb0 Hb1].
  pose proof (clamp01_range c) as [Hc0 Hc1]. pose proof (clamp01_range d) as [Hd0 Hd1].
  pose proof (minSize_axis _ _ Ha0 Ha1 Hc0 Hc1) as Hy.
  pose proof (minSize_axis _ _ Hb0 Hb1 Hd0 Hd1) as Hx.
  revert Hy Hx.
  generalize (Qmax 0 (Qmin 1 a)) (Qmax 0 (Qmin 1 b)) (Qmax 0 (Qmin 1 c)) (Qmax 0 (Qmin 1 d)).
  intros ymin xmin ymax xmax Hy Hx.
  destruct (if Qlt_bool (ymax - ymin) MIN_SIZE
            then let center := (ymin + ymax) / 2 in
                 (Qmax 0 (center - MIN_SIZE / 2), Qmin 1 (center + MIN_SIZE / 2))
            else (ymin, ymax)) as [ymin' ymax'].
  destruct (if Qlt_bool (xmax - xmin) MIN_SIZE
            then let center := (xmin + xmax) / 2 in
                 (Qmax 0 (center - MIN_SIZE / 2), Qmin 1 (center + MIN_SIZE / 2))
            else (xmin, xmax)) as [xmin' xmax'].
  intro E. injection E as <-. exists ymin', xmin', ymax', xmax'.
  tauto.
Qed.

(** X13: for every four numbers, [clampBBox] returns four values within
    [0, 1] with [ymin < ymax] and [xmin < xmax], each extent being at least
    0.005 (half of the minimum size, which is what is left of a box
    re-centred on an edge of the image). *)
Theorem clampBBox_range (a b c d : Q) :
  exists ymin xmin ymax xmax,
    clampBBox [a; b; c; d] = Some [ymin; xmin; ymax; xmax] /\
    0 <= ymin /\ ymin <= ymax /\ ymax <= 1 /\
    0 <= xmin /\ xmin <= xmax /\ xmax <= 1 /\
    (1 # 200) <= ymax - ymin /\ (1 # 200) <= xmax - xmin.
Proof.
  destruct (clampBBox_four a b c d) as [out Hout].
  destruct (clampBBox_bounds _ _ Hout)
    as (ymin & xmin & ymax & xmax & -> & Hy0 & Hy1 & Hx0 & Hx1 & Hy & Hx).
  exists ymin, xmin, ymax, xmax. repeat split; try assumption; lra.
Qed.

(** X14: a box that is already normalized, ordered and at least 0.01 wide
    and high goes through [clampBBox] with its four values unchanged. *)
Theorem clampBBox_keeps_valid_box (a b c d : Q) :
  0 <= a -> c <= 1 -> 0 <= b -> d <= 1 ->
  MIN_SIZE <= c - a -> MIN_SIZE <= d - b ->
  exists ymin xmin ymax xmax,
    clampBBox [a; b; c; d] = Some [ymin; xmin; ymax; xmax] /\
    ymin == a /\ xmin == b /\ ymax == c /\ xmax == d.
Proof.
  intros Ha Hc Hb Hd Hh Hw. unfold MIN_SIZE in Hh, Hw.
  assert (Qmax 0 (Qmin 1 a) == a) as Ea by (apply clamp01_id; lra).
  assert (Qmax 0 (Qmin 1 b) == b) as Eb by (apply clamp01_id; lra).
  assert (Qmax 0 (Qmin 1 c) == c) as Ec by (apply clamp01_id; lra).
  assert (Qmax 0 (Qmin 1 d) == d) as Ed by (apply clamp01_id; lra).
  unfold clampBBox. cbn [map].
  assert (Qlt_bool (Qmax 0 (Qmin 1 c) - Qmax 0 (Qmin 1 a)) MIN_SIZE = false) as ->.
  { apply Qlt_bool_false_iff. rewrite Ea, Ec. exact Hh. }
  assert (Qlt_bool (Qmax 0 (Qmin 1 d) - Qmax 0 (Qmin 1 b)) MIN_SIZE = false) as ->.
  { apply Qlt_bool_false_iff. rewrite Eb, Ed. exact Hw. }
  eexists _, _, _, _. split; [reflexivity|]. auto.
Qed.

Lemma clampBBox_keeps_valid_box_witness :
  exists ymin xmin ymax xmax,
    clampBBox [1 # 10; 2 # 10; 5 # 10; 6 # 10] = Some [ymin; xmin; ymax; xmax] /\
    ymin == 1 # 10 /\ xmin == 2 # 10 /\ ymax == 5 # 10 /\ xmax == 6 # 10.
Proof.
  apply (clampBBox_keeps_valid_box (1 # 10) (2 # 10) (5 # 10) (6 # 10)); discriminate.
Defined.

(** X15: a box thinner than 0.01 on an axis is widened to exactly 0.01 on
    that axis, around its own centre, when that centre is at least 0.005
    away from both edges of the image. *)
Theorem clampBBox_expands_thin_box (a b c d : Q) :
  0 <= a -> a <= c -> c <= 1 -> 0 <= b -> b <= d -> d <= 1 ->
  c - a < MIN_SIZE -> (1 # 200) <= (a + c) / 2 -> (a + c) / 2 <= 199 # 200 ->
  exists ymin xmin ymax xmax,
    clampBBox [a; b; c; d] = Some [ymin; xmin; ymax; xmax] /\
    ymax - ymin == MIN_SIZE /\ (ymin + ymax) / 2 == (a + c) / 2.
Proof.
  intros Ha Hac Hc Hb Hbd Hd Hthin Hlo Hhi. unfold MIN_SIZE in *.
  assert (Qmax 0 (Qmin 1 a) == a) as Ea by (apply clamp01_id; lra).
  assert (Qmax 0 (Qmin 1 c) == c) as Ec by (apply clamp01_id; lra).
  unfold clampBBox. cbn [map]. unfold MIN_SIZE.
  assert (Qlt_bool (Qmax 0 (Qmin 1 c) - Qmax 0 (Qmin 1 a)) (1 # 100) = true) as ->.
  { apply Qlt_bool_iff. rewrite Ea, Ec. exact Hthin. }
  cbv beta iota zeta.
  destruct (if Qlt_bool (Qmax 0 (Qmin 1 d) - Qmax 0 (Qmin 1 b)) (1 # 100)
            then _ else _) as [xmin' xmax'].
  eexists _, _, _, _. split; [reflexivity|].
  revert Ea Ec. generalize (Qmax 0 (Qmin 1 a)) (Qmax 0 (Qmin 1 c)). intros a' c' Ea Ec.
  split_minmax; split; linear_Q.
Qed.

Lemma clampBBox_expands_thin_box_witness :
  exists ymin xmin ymax xmax,
    clampBBox [50 # 100; 50 # 100; 505 # 1000; 505 # 1000] = Some [ymin; xmin; ymax; xmax] /\
    ymax - ymin == MIN_SIZE /\
    (ymin + ymax) / 2 == ((50 # 100) + (505 # 1000)) / 2.
Proof.
  apply (clampBBox_expands_thin_box (50 # 100) (50 # 100) (505 # 1000) (505 # 1000));
    try discriminate; reflexivity.
Defined.

(** ** Detection pipeline: inverted boxes *)

(** X16: on four numbers, the inversion step returns four numbers with
    [ymin <= ymax] and [xmin <= xmax]; on each axis the two values are the
    two given ones, exchanged exactly when the first exceeded the second. *)
Theorem correctInversion_orders (a b c d : Q) :
  exists a' b' c' d',
    correctInversion (map Some [a; b; c; d]) = map Some [a'; b'; c'; d'] /\
    a' <= c' /\ b' <= d' /\
    ((c < a /\ a' = c /\ c' = a) \/ (a <= c /\ a' = a /\ c' = c)) /\
    ((d < b /\ b' = d /\ d' = b) \/ (b <= d /\ b' = b /\ d' = d)).
Proof.
  unfold correctInversion. cbn [map at_ nth_error ngt].
  destruct (Qlt_bool c a) eqn:Hy; cbn [setAt at_ nth_error ngt];
    destruct (Qlt_bool d b) eqn:Hx; cbn [setAt];
    try (apply Qlt_bool_iff in Hy); try (apply Qlt_bool_false_iff in Hy);
    try (apply Qlt_bool_iff in Hx); try (apply Qlt_bool_false_iff in Hx);
    eexists _, _, _, _; (split; [reflexivity|]);
    repeat split; try (apply Qlt_le_weak; assumption); try assumption; tauto.
Qed.

(** ** Detection pipeline: what is pushed *)

Lemma mapSet_values {V : Type} (k : string) (v : V) (m : JsMap V) :
  forall kv, In kv (mapSet k v m) -> kv = (k, v) \/ In kv m.
Proof.
  induction m as [|[k' v'] m IH]; cbn; intros kv Hin.
  - destruct Hin as [<-|[]]. left. reflexivity.
  - destruct (String.eqb k' k).
    + destruct Hin as [<-|Hin]; [left; reflexivity | right; right; exact Hin].
    + destruct Hin as [<-|Hin]; [right; left; reflexivity|].
      destruct (IH kv Hin) as [->|Hm]; [left; reflexivity | right; right; exact Hm].
Qed.

Lemma makeLabelMap_values (activeLabels : list LabelClass) :
  forall kv, In kv (makeLabelMap activeLabels) -> In (snd kv) activeLabels.
Proof.
  unfold makeLabelMap.
  assert (forall (m : JsMap LabelClass) kv,
            In kv (fold_left (fun m l => mapSet (trim (toLowerCase (name l))) l m)
                             activeLabels m) ->
            In kv m \/ In (snd kv) activeLabels) as Hgen.
  { induction activeLabels as [|l ls IH]; cbn [fold_left]; intros m kv Hin.
    - left. exact Hin.
    - destruct (IH _ kv Hin) as [Hm|Hl]; [|right; right; exact Hl].
      destruct (mapSet_values _ _ _ _ Hm) as [->|Hm']; [right; left; reflexivity|].
      left. exact Hm'. }
  intros kv Hin. destruct (Hgen [] kv Hin) as [[]|H]. exact H.
Qed.

Lemma mapGet_In {V : Type} (k : string) (m : JsMap V) (v : V) :
  mapGet k m = Some v -> exists k', In (k', v) m.
Proof.
  induction m as [|[k' v'] m IH]; cbn; [discriminate|].
  destruct (String.eqb k' k).
  - intros [= <-]. exists k'. left. reflexivity.
  - intro H. destruct (IH H) as [k'' Hin]. exists k''. right. exact Hin.
Qed.

Lemma resolveLabel_entry (m : JsMap LabelClass) (resLabel : string) (l : LabelClass) :
  resolveLabel m resLabel = Some l -> exists k, In (k, l) m.
Proof.
  unfold resolveLabel. destruct (mapGet resLabel m) as [l'|] eqn:Hg.
  - intros [= <-]. exact (mapGet_In _ _ _ Hg).
  - destruct (find _ m) as [[k v]|] eqn:Hf; [|discriminate].
    intros [= <-]. apply find_some in Hf. destruct Hf as [Hin _].
    exists k. exact Hin.
Qed.

(** X17: whatever the detected label, the label that step 2 resolves it to,
    by exact or by substring match, is one of the active labels. *)
Theorem resolveLabel_active (activeLabels : list LabelClass) (resLabel : string)
    (l : LabelClass) :
  resolveLabel (makeLabelMap activeLabels) resLabel = Some l -> In l activeLabels.
Proof.
  intro Hr. destruct (resolveLabel_entry _ _ _ Hr) as [k Hin].
  exact (makeLabelMap_values activeLabels (k, l) Hin).
Qed.

Lemma resolveLabel_active_witness : In car0 [car0; dog1].
Proof.
  apply (resolveLabel_active [car0; dog1] "red car" car0). reflexivity.
Defined.

(** What a pushed annotation is made of. *)
Lemma processDetection_pushed (img : DatasetImage) (labelMap : JsMap LabelClass)
    (minConfidence : Q) (res : GeminiDetectionResult) (uuid : string)
    (s : BBoxWithConfidence) :
  processDetection img labelMap minConfidence res uuid = Pushed s ->
  exists (lbl : string) (labelObj : LabelClass) (ymin xmin ymax xmax : Q),
    resolveLabel labelMap (trim (toLowerCase lbl)) = Some labelObj /\
    minConfidence <= confidenceOf res /\
    0 <= ymin /\ ymax <= 1 /\ 0 <= xmin /\ xmax <= 1 /\
    (1 # 200) <= ymax - ymin /\ (1 # 200) <= xmax - xmin /\
    s = mkScored (mkBBox uuid (lid labelObj) (xmin + (xmax - xmin) / 2)
                         (ymin + (ymax - ymin) / 2) (xmax - xmin) (ymax - ymin))
                 (confidenceOf res) (description res).
Proof.
  unfold processDetection.
  destruct (label res) as [lbl|]; [|discriminate].
  destruct (box_2d res) as [boxIn|]; [|discriminate].
  destruct (String.eqb lbl ""); [discriminate|].
  destruct (resolveLabel labelMap (trim (toLowerCase lbl))) as [labelObj|] eqn:Hr;
    [|discriminate].
  destruct (Qlt_bool (confidenceOf res) minConfidence) eqn:Hc; [discriminate|].
  apply Qlt_bool_false_iff in Hc.
  unfold convertBox.
  destruct (normalizeCoordinates img (map Some boxIn)) as [box|]; [|discriminate].
  destruct (negb (validateBBox (correctInversion box))); [discriminate|].
  destruct (numbers (correctInversion box)) as [qs|]; [|discriminate].
  destruct (clampBBox qs) as [out|] eqn:Hcl; [|discriminate].
  destruct (clampBBox_bounds _ _ Hcl)
    as (ymin & xmin & ymax & xmax & -> & Hy0 & Hy1 & Hx0 & Hx1 & Hy & Hx).
  destruct (Qle_bool (xmax - xmin) 0 || Qle_bool (ymax - ymin) 0); [discriminate|].
  intros [= <-]. exists lbl, labelObj, ymin, xmin, ymax, xmax. tauto.
Qed.

(** X18: every annotation that the pipeline pushes lies within the image
    (positive width and height, all four edges between 0 and 1), carries the
    fresh id, the id of an active label, the detection's description and its
    confidence (1 when it gave none), and that confidence is not below the
    threshold. *)
Theorem pushed_annotation_valid (img : DatasetImage) (activeLabels : list LabelClass)
    (minConfidence : Q) (res : GeminiDetectionResult) (uuid : string)
    (s : BBoxWithConfidence) :
  processDetection img (makeLabelMap activeLabels) minConfidence res uuid = Pushed s ->
  insideImage (bbox s) /\
  id (bbox s) = uuid /\
  (exists l, In l activeLabels /\ labelId (bbox s) = lid l) /\
  b_confidence s = confidenceOf res /\ minConfidence <= b_confidence s /\
  b_description s = description res.
Proof.
  intro Hp.
  destruct (processDetection_pushed _ _ _ _ _ _ Hp)
    as (lbl & labelObj & ymin & xmin & ymax & xmax & Hr & Hc & Hy0 & Hy1 & Hx0 & Hx1
        & Hy & Hx & ->).
  cbn [bbox b_confidence b_description id labelId].
  split.
  { unfold insideImage. cbn [x y w h]. repeat split; linear_Q. }
  split; [reflexivity|]. split.
  { exists labelObj. split; [|reflexivity].
    destruct (resolveLabel_entry _ _ _ Hr) as [k Hin].
    exact (makeLabelMap_values activeLabels (k, labelObj) Hin). }
  split; [reflexivity|]. split; [exact Hc | reflexivity].
Qed.

Lemma pushed_annotation_valid_witness :
  let s := mkScored (mkBBox "u" "c0" ((2 # 10) + ((6 # 10) - (2 # 10)) / 2)
                            ((1 # 10) + ((5 # 10) - (1 # 10)) / 2)
                            ((6 # 10) - (2 # 10)) ((5 # 10) - (1 # 10)))
                    (1 # 2) None in
  insideImage (bbox s) /\
  id (bbox s) = "u" /\
  (exists l, In l [car0] /\ labelId (bbox s) = lid l) /\
  b_confidence s = confidenceOf halfSure /\ (3 # 10) <= b_confidence s /\
  b_description s = description halfSure.
Proof.
  apply (pushed_annotation_valid vga [car0] (3 # 10) halfSure "u"). reflexivity.
Defined.

(** ** Detection pipeline: the batch *)

Lemma ingestFrom_outcomes (img : DatasetImage) (labelMap : JsMap LabelClass)
    (minConfidence : Q) (uuid : nat -> string) (results : list GeminiDetectionResult) :
  forall (index : nat) (t : Tally),
    let os := outcomesFrom img labelMap minConfidence uuid index results in
    let t' := ingestFrom img labelMap minConfidence uuid index results t in
    newAnnotations t' = (newAnnotations t ++ flat_map pushedOf os)%list /\
    filteredByConfidence t' = (filteredByConfidence t + countOutcomes isBelowThreshold os)%nat /\
    invalidBoxes t' = (invalidBoxes t + countOutcomes isInvalid os)%nat /\
    unknownLabels t' = (unknownLabels t + countOutcomes isUnknownLabel os)%nat.
Proof.
  induction results as [|res rest IH]; intros index t; cbn [outcomesFrom ingestFrom].
  - cbn. rewrite app_nil_r, !Nat.add_0_r. repeat split.
  - cbv zeta in *.
    destruct (IH (S index)
                (record t (processDetection img labelMap minConfidence res (uuid index))))
      as (Hn & Hf & Hi & Hu).
    rewrite Hn, Hf, Hi, Hu. unfold countOutcomes. cbn [flat_map filter].
    destruct (processDetection img labelMap minConfidence res (uuid index));
      cbn [record newAnnotations filteredByConfidence invalidBoxes unknownLabels pushedOf
           isBelowThreshold isInvalid isUnknownLabel List.length app];
      rewrite ?app_nil_r, <- ?app_assoc; repeat split; try reflexivity; lia.
Qed.

Lemma outcomes_partition (os : list Outcome) :
  (List.length (flat_map pushedOf os) + countOutcomes isBelowThreshold os
   + countOutcomes isInvalid os + countOutcomes isUnknownLabel os
   + countOutcomes isMissingField os = List.length os)%nat.
Proof.
  unfold countOutcomes. induction os as [|o os IH]; [reflexivity|].
  cbn [flat_map filter]. rewrite length_app.
  destruct o; cbn [pushedOf isBelowThreshold isInvalid isUnknownLabel isMissingField
                   List.length]; lia.
Qed.

Lemma record_fold (os : list Outcome) :
  forall t : Tally,
    let t' := fold_left record os t in
    newAnnotations t' = (newAnnotations t ++ flat_map pushedOf os)%list /\
    filteredByConfidence t' = (filteredByConfidence t + countOutcomes isBelowThreshold os)%nat /\
    invalidBoxes t' = (invalidBoxes t + countOutcomes isInvalid os)%nat /\
    unknownLabels t' = (unknownLabels t + countOutcomes isUnknownLabel os)%nat.
Proof.
  induction os as [|o os IH]; intro t; cbn [fold_left].
  - cbn. rewrite app_nil_r, !Nat.add_0_r. repeat split.
  - cbv zeta in *. destruct (IH (record t o)) as (Hn & Hf & Hi & Hu).
    rewrite Hn, Hf, Hi, Hu. unfold countOutcomes. cbn [flat_map filter].
    destruct o;
      cbn [record newAnnotations filteredByConfidence invalidBoxes unknownLabels pushedOf
           isBelowThreshold isInvalid isUnknownLabel List.length app];
      rewrite ?app_nil_r, <- ?app_assoc; repeat split; try reflexivity; lia.
Qed.

Lemma ingestFrom_fold (img : DatasetImage) (labelMap : JsMap LabelClass)
    (minConfidence : Q) (uuid : nat -> string) (results : list GeminiDetectionResult) :
  forall (index : nat) (t : Tally),
    ingestFrom img labelMap minConfidence uuid index results t
    = fold_left record (outcomesFrom img labelMap minConfidence uuid index results) t.
Proof.
  induction results as [|res rest IH]; intros index t; [reflexivity|].
  cbn [ingestFrom outcomesFrom fold_left]. apply IH.
Qed.

Lemma ingestItemsFrom_throws (img : DatasetImage) (labelMap : JsMap LabelClass)
    (minConfidence : Q) (uuid : nat -> string) (items : list ReplyItem) :
  forall (index : nat) (t : Tally),
    In None (itemOutcomesFrom img labelMap minConfidence uuid index items) ->
    ingestItemsFrom img labelMap minConfidence uuid index items t = None.
Proof.
  induction items as [|item rest IH]; intros index t Hin; [destruct Hin|].
  cbn [itemOutcomesFrom ingestItemsFrom] in *.
  destruct (processItem img labelMap minConfidence item (uuid index)) as [o|];
    [|reflexivity].
  destruct Hin as [Hc|Hin]; [discriminate Hc|]. apply IH. exact Hin.
Qed.

Lemma ingestItemsFrom_returns (img : DatasetImage) (labelMap : JsMap LabelClass)
    (minConfidence : Q) (uuid : nat -> string) (items : list ReplyItem) :
  forall (index : nat) (t : Tally) (os : list Outcome),
    itemOutcomesFrom img labelMap minConfidence uuid index items = map Some os ->
    ingestItemsFrom img labelMap minConfidence uuid index items t
    = Some (fold_left record os t).
Proof.
  induction items as [|item rest IH]; intros index t os Hos;
    destruct os as [|o os]; try discriminate Hos; [reflexivity|].
  cbn [itemOutcomesFrom map] in Hos. injection Hos as Ho Hrest.
  cbn [ingestItemsFrom fold_left]. rewrite Ho. apply IH. exact Hrest.
Qed.

Lemma itemOutcomesFrom_null (img : DatasetImage) (labelMap : JsMap LabelClass)
    (minConfidence : Q) (uuid : nat -> string) (items : list ReplyItem) :
  forall index : nat,
    In ItemNull items ->
    In None (itemOutcomesFrom img labelMap minConfidence uuid index items).
Proof.
  induction items as [|item rest IH]; intros index Hin; [destruct Hin|].
  cbn [itemOutcomesFrom]. destruct Hin as [->|Hin]; [left; reflexivity|].
  right. apply IH. exact Hin.
Qed.

(** On an item of the declared type the body is [processDetection] on its
    fields, and throws nothing. *)
Lemma processItem_typed (img : DatasetImage) (labelMap : JsMap LabelClass)
    (minConfidence : Q) (item : ReplyItem) (uuid : string) :
  hasDeclaredType item = true ->
  processItem img labelMap minConfidence item uuid
  = Some (processDetection img labelMap minConfidence (typedItem item) uuid).
Proof.
  destruct item as [|l b c d]; [discriminate|].
  destruct l as [|lbl|]; destruct b as [|box|]; try discriminate; intros _;
    try reflexivity.
  unfold processItem, processDetection. cbn [typedItem label box_2d].
  destruct (String.eqb lbl ""); [reflexivity|].
  destruct (resolveLabel labelMap (trim (toLowerCase lbl))); [|reflexivity].
  destruct (Qlt_bool _ minConfidence); reflexivity.
Qed.

Lemma itemOutcomesFrom_typed (img : DatasetImage) (labelMap : JsMap LabelClass)
    (minConfidence : Q) (uuid : nat -> string) (items : list ReplyItem) :
  forall index : nat,
    Forall (fun item => hasDeclaredType item = true) items ->
    itemOutcomesFrom img labelMap minConfidence uuid index items
    = map Some (outcomesFrom img labelMap minConfidence uuid index (map typedItem items)).
Proof.
  induction items as [|item rest IH]; intros index Hall; [reflexivity|].
  inversion Hall as [|i r Hitem Hrest]; subst.
  cbn [itemOutcomesFrom map outcomesFrom].
  rewrite (processItem_typed img labelMap minConfidence item (uuid index) Hitem).
  rewrite (IH (S index) Hrest). reflexivity.
Qed.

Lemma itemOutcomesFrom_length (img : DatasetImage) (labelMap : JsMap LabelClass)
    (minConfidence : Q) (uuid : nat -> string) (items : list ReplyItem) :
  forall index,
    List.length (itemOutcomesFrom img labelMap minConfidence uuid index items)
    = List.length items.
Proof.
  induction items as [|item rest IH]; intro index; cbn; [reflexivity|].
  rewrite IH. reflexivity.
Qed.

(** X19: what [forEach] makes of a parsed reply whose items may have any
    type. If the body throws on some item (as it does on every [null]
    item), the loop is left and no tally is returned. If the body throws on
    no item, the batch is the sum of its items: the annotations collected
    are exactly the ones pushed for the single items, in their order; each
    counter counts the items skipped for its reason; pushed, filtered,
    invalid, unknown-label and missing-field items together are all the
    items, so there are never more annotations than items. When every item
    has the declared type the body throws on none, and the tally is the one
    of [ingest] on the typed items. *)
Theorem ingest_accounting (img : DatasetImage) (activeLabels : list LabelClass)
    (minConfidence : Q) (uuid : nat -> string) (items : list ReplyItem) :
  let ros := itemOutcomesFrom img (makeLabelMap activeLabels) minConfidence uuid 0 items in
  let r := ingestItems img activeLabels minConfidence uuid items in
  (In None ros -> r = None) /\
  (In ItemNull items -> r = None) /\
  (forall os, ros = map Some os ->
     exists t, r = Some t /\
       newAnnotations t = flat_map pushedOf os /\
       filteredByConfidence t = countOutcomes isBelowThreshold os /\
       invalidBoxes t = countOutcomes isInvalid os /\
       unknownLabels t = countOutcomes isUnknownLabel os /\
       (List.length (newAnnotations t) + filteredByConfidence t + invalidBoxes t
        + unknownLabels t + countOutcomes isMissingField os = List.length items)%nat /\
       (List.length (newAnnotations t) <= List.length items)%nat) /\
  (Forall (fun item => hasDeclaredType item = true) items ->
   r = Some (ingest img activeLabels minConfidence uuid (map typedItem items))).
Proof.
  intros ros r. split; [|split; [|split]].
  - intro Hin. apply ingestItemsFrom_throws. exact Hin.
  - intro Hin. apply ingestItemsFrom_throws. apply itemOutcomesFrom_null. exact Hin.
  - intros os Hos. exists (fold_left record os (mkTally [] 0 0 0)).
    split; [exact (ingestItemsFrom_returns _ _ _ _ _ _ _ _ Hos)|].
    destruct (record_fold os (mkTally [] 0 0 0)) as (Hn & Hf & Hi & Hu).
    cbn [newAnnotations filteredByConfidence invalidBoxes unknownLabels app Nat.add]
      in Hn, Hf, Hi, Hu.
    pose proof (outcomes_partition os) as Hp.
    assert (List.length os = List.length items) as Hlen.
    { rewrite <- (length_map Some os), <- Hos. apply itemOutcomesFrom_length. }
    rewrite app_nil_l in Hn. rewrite Hn, Hf, Hi, Hu. repeat split; try reflexivity; lia.
  - intro Hall. unfold r, ingestItems, ingest. rewrite ingestFrom_fold.
    apply ingestItemsFrom_returns. apply itemOutcomesFrom_typed. exact Hall.
Qed.

Lemma ingest_accounting_witness :
  ingestItems vga [car0] (3 # 10) (fun _ => "u") [carItem; textBoxItem; carItem] = None /\
  ingestItems vga [car0] (3 # 10) (fun _ => "u") [carItem; ItemNull; carItem] = None /\
  (exists t, ingestItems vga [dog1] (3 # 10) (fun _ => "u") [bareItem; textBoxItem] = Some t /\
     newAnnotations t = flat_map pushedOf [MissingField; UnknownLabel] /\
     filteredByConfidence t = countOutcomes isBelowThreshold [MissingField; UnknownLabel] /\
     invalidBoxes t = countOutcomes isInvalid [MissingField; UnknownLabel] /\
     unknownLabels t = countOutcomes isUnknownLabel [MissingField; UnknownLabel] /\
     (List.length (newAnnotations t) + filteredByConfidence t + invalidBoxes t
      + unknownLabels t + countOutcomes isMissingField [MissingField; UnknownLabel]
      = List.length [bareItem; textBoxItem])%nat /\
     (List.length (newAnnotations t) <= List.length [bareItem; textBoxItem])%nat) /\
  ingestItems vga [car0] (3 # 10) (fun _ => "u") [carItem; bareItem]
  = Some (ingest vga [car0] (3 # 10) (fun _ => "u") (map typedItem [carItem; bareItem])).
Proof.
  split; [|split; [|split]].
  - apply (proj1 (ingest_accounting vga [car0] (3 # 10) (fun _ => "u")
                    [carItem; textBoxItem; carItem])).
    right. left. reflexivity.
  - apply (proj1 (proj2 (ingest_accounting vga [car0] (3 # 10) (fun _ => "u")
                           [carItem; ItemNull; carItem]))).
    right. left. reflexivity.
  - apply (proj1 (proj2 (proj2 (ingest_accounting vga [dog1] (3 # 10) (fun _ => "u")
                                  [bareItem; textBoxItem])))).
    reflexivity.
  - apply (proj2 (proj2 (proj2 (ingest_accounting vga [car0] (3 # 10) (fun _ => "u")
                                  [carItem; bareItem])))).
    repeat constructor.
Defined.

Lemma ingest_valid (img : DatasetImage) (activeLabels : list LabelClass)
    (minConfidence : Q) (uuid : nat -> string) (results : list GeminiDetectionResult) :
  Forall (fun s => insideImage (bbox s) /\
                   (exists l, In l activeLabels /\ labelId (bbox s) = lid l) /\
                   minConfidence <= b_confidence s)
         (newAnnotations (ingest img activeLabels minConfidence uuid results)).
Proof.
  unfold ingest.
  rewrite (proj1 (ingestFrom_outcomes img (makeLabelMap activeLabels) minConfidence uuid
                    results 0 (mkTally [] 0 0 0))).
  cbn [newAnnotations]. rewrite app_nil_l. generalize 0%nat.
  induction results as [|res rest IH]; intro index; cbn [outcomesFrom flat_map];
    [constructor|].
  apply Forall_app. split; [|apply IH].
  destruct (processDetection img (makeLabelMap activeLabels) minConfidence res (uuid index))
    eqn:Hp; cbn [pushedOf]; try constructor; [|constructor].
  destruct (processDetection_pushed _ _ _ _ _ _ Hp)
    as (lbl & labelObj & ymin & xmin & ymax & xmax & Hr & Hc & Hy0 & Hy1 & Hx0 & Hx1
        & Hy & Hx & ->).
  cbn [bbox b_confidence labelId]. split; [|split; [|exact Hc]].
  - unfold insideImage. cbn [x y w h]. repeat split; linear_Q.
  - exists labelObj. split; [|reflexivity].
    destruct (resolveLabel_entry _ _ _ Hr) as [k Hin].
    exact (makeLabelMap_values activeLabels (k, labelObj) Hin).
Qed.

(** ** Detection pipeline: exact label match *)

Lemma mapGet_mapSet {V : Type} (k k' : string) (v : V) (m : JsMap V) :
  mapGet k (mapSet k' v m) = if String.eqb k' k then Some v else mapGet k m.
Proof.
  induction m as [|[k0 v0] m IH]; cbn.
  - reflexivity.
  - destruct (String.eqb_spec k0 k') as [->|Hne]; cbn.
    + destruct (String.eqb k' k); reflexivity.
    + rewrite IH. destruct (String.eqb_spec k0 k) as [->|Hne'].
      * destruct (String.eqb_spec k' k) as [->|]; [contradiction | reflexivity].
      * reflexivity.
Qed.

Lemma mapGet_fold_other (k : string) (ls : list LabelClass) :
  ~ In k (map (fun l => normalizeName (name l)) ls) ->
  forall m : JsMap LabelClass,
    mapGet k (fold_left (fun m l => mapSet (trim (toLowerCase (name l))) l m) ls m)
    = mapGet k m.
Proof.
  induction ls as [|l ls IH]; intros Hn m; cbn [fold_left]; [reflexivity|].
  rewrite IH.
  - rewrite mapGet_mapSet.
    destruct (String.eqb_spec (trim (toLowerCase (name l))) k) as [He|]; [|reflexivity].
    exfalso. apply Hn. left. exact He.
  - intro Hin. apply Hn. right. exact Hin.
Qed.

Lemma mapGet_makeLabelMap (activeLabels : list LabelClass) (l : LabelClass) :
  NoDup (map (fun l => normalizeName (name l)) activeLabels) ->
  In l activeLabels ->
  mapGet (normalizeName (name l)) (makeLabelMap activeLabels) = Some l.
Proof.
  unfold makeLabelMap. generalize (@nil (string * LabelClass)).
  induction activeLabels as [|l0 ls IH]; intros m Hnd Hin; [destruct Hin|].
  cbn [fold_left]. cbn [map] in Hnd. inversion Hnd as [|k0 ks Hnotin Hnd']; subst.
  destruct Hin as [->|Hin].
  - rewrite (mapGet_fold_other _ ls Hnotin). rewrite mapGet_mapSet.
    unfold normalizeName. rewrite String.eqb_refl. reflexivity.
  - apply IH; assumption.
Qed.

(** X20: for label names and a detected label that are ASCII text: when no
    two active labels have the same name up to case and surrounding blanks, a
    detected label that equals the name of an active label up to case and
    surrounding blanks resolves to that very label, whatever other label
    names it contains or is contained in. *)
Theorem resolveLabel_exact (activeLabels : list LabelClass) (l : LabelClass)
    (detected : string) :
  Forall (fun l => isAscii (name l) = true) activeLabels ->
  isAscii detected = true ->
  NoDup (map (fun l => normalizeName (name l)) activeLabels) ->
  In l activeLabels ->
  normalizeName detected = normalizeName (name l) ->
  resolveLabel (makeLabelMap activeLabels) (trim (toLowerCase detected)) = Some l.
Proof.
  intros _ _ Hnd Hin He. unfold resolveLabel.
  change (trim (toLowerCase detected)) with (normalizeName detected). rewrite He.
  rewrite (mapGet_makeLabelMap activeLabels l Hnd Hin). reflexivity.
Qed.

Lemma resolveLabel_exact_witness :
  resolveLabel (makeLabelMap [carpet; car0; dog1]) (trim (toLowerCase "  CAR ")) = Some car0.
Proof.
  apply (resolveLabel_exact [carpet; car0; dog1] car0 "  CAR ").
  - repeat constructor.
  - reflexivity.
  - repeat constructor; cbn; intuition discriminate.
  - right. left. reflexivity.
  - reflexivity.
Defined.

(** ** Retry wrapper: success and edge cases *)

Lemma retryLoop_success {E T : Type} (fn : nat -> E + T) (m : Z) (v : T) :
  forall (k n a : nat) (d : Z) (le : option E),
    (k < n)%nat -> (Z.of_nat (a + k) <= m)%Z ->
    fn (a + k)%nat = inr v ->
    (forall j, (j < k)%nat -> exists e, fn (a + j)%nat = inl e) ->
    fst (retryLoop fn n a m d le) = Returned v /\
    attemptsOf (snd (retryLoop fn n a m d le)) = S k /\
    sleepsOf (snd (retryLoop fn n a m d le)) = backoff k d.
Proof.
  induction k as [|k IH]; intros n a d le Hn Hm Hv Hfail.
  - destruct n as [|n]; [lia|]. cbn [retryLoop]. rewrite Nat.add_0_r in Hv. rewrite Hv.
    cbn. repeat split.
  - destruct n as [|n]; [lia|]. cbn [retryLoop].
    destruct (Hfail 0%nat) as [e He]; [lia|]. rewrite Nat.add_0_r in He. rewrite He.
    destruct (Z.ltb_spec (Z.of_nat a) m) as [_|Hge]; [|lia].
    destruct (IH n (S a) (d * 2)%Z (Some e)) as (Hr & Ha & Hs).
    + lia.
    + replace (S a + k)%nat with (a + S k)%nat by lia. exact Hm.
    + replace (S a + k)%nat with (a + S k)%nat by lia. exact Hv.
    + intros j Hj. replace (S a + j)%nat with (a + S j)%nat by lia. apply Hfail. lia.
    + destruct (retryLoop fn n (S a) m (d * 2) (Some e)) as [c evs]. cbn in *.
      rewrite Hr, Ha, Hs. repeat split.
Qed.

Lemma sumZ_backoff (k : nat) : forall d, sumZ (backoff k d) = (d * (2 ^ Z.of_nat k - 1))%Z.
Proof.
  induction k as [|k IH]; intro d; cbn [backoff sumZ].
  - cbn. lia.
  - rewrite IH, Nat2Z.inj_succ, Z.pow_succ_r by lia. lia.
Qed.

(** X21: the first success ends the retries. If the call number [k] (from
    0, [k <= maxRetries]) is the first that succeeds, [retryAsync] returns
    its value after exactly [k + 1] calls and [k] sleeps of [retryDelay],
    twice that, and so on, having waited [retryDelay * (2^k - 1)]
    milliseconds in all; a first call that succeeds is not followed by any
    sleep. *)
Theorem retryAsync_first_success {E T : Type} (fn : nat -> E + T)
    (maxRetries retryDelay : Z) (k : nat) (v : T) :
  (Z.of_nat k <= maxRetries)%Z ->
  fn k = inr v ->
  (forall j, (j < k)%nat -> exists e, fn j = inl e) ->
  let run := retryAsync fn maxRetries retryDelay in
  fst run = Returned v /\
  attemptsOf (snd run) = S k /\
  sleepsOf (snd run) = backoff k retryDelay /\
  sumZ (sleepsOf (snd run)) = (retryDelay * (2 ^ Z.of_nat k - 1))%Z.
Proof.
  intros Hk Hv Hfail run. unfold run, retryAsync.
  destruct (retryLoop_success fn maxRetries v k (Z.to_nat (maxRetries + 1)) 0 retryDelay None)
    as (Hr & Ha & Hs); try assumption; try lia.
  rewrite Hs, sumZ_backoff. auto.
Qed.

Lemma retryAsync_first_success_witness :
  let run := retryAsync failsTwice 3 1000 in
  fst run = Returned 7%nat /\
  attemptsOf (snd run) = 3%nat /\
  sleepsOf (snd run) = backoff 2 1000 /\
  sumZ (sleepsOf (snd run)) = (1000 * (2 ^ Z.of_nat 2 - 1))%Z.
Proof.
  apply (retryAsync_first_success failsTwice 3 1000 2 7%nat).
  - lia.
  - reflexivity.
  - intros [|[|j]] Hj; [eexists; reflexivity | eexists; reflexivity | lia].
Defined.

(** X22: the edges of [maxRetries]. With a negative [maxRetries] the request
    is never made and [undefined] is thrown; with [maxRetries = 0] it is made
    exactly once, never followed by a sleep, and its own value or error is
    the result. *)
Theorem retryAsync_edge_counts {E T : Type} (fn : nat -> E + T) (maxRetries retryDelay : Z) :
  ((maxRetries < 0)%Z -> retryAsync fn maxRetries retryDelay = (Thrown None, [])) /\
  (maxRetries = 0%Z ->
   snd (retryAsync fn maxRetries retryDelay) = [Attempt 0] /\
   fst (retryAsync fn maxRetries retryDelay)
   = match fn 0%nat with
     | inr v => Returned v
     | inl e => Thrown (Some e)
     end).
Proof.
  split.
  - intro Hneg. unfold retryAsync.
    replace (Z.to_nat (maxRetries + 1)) with 0%nat by lia. reflexivity.
  - intros ->. unfold retryAsync. change (Z.to_nat (0 + 1)) with 1%nat.
    cbn [retryLoop]. destruct (fn 0%nat); split; reflexivity.
Qed.

Lemma retryAsync_edge_counts_witness :
  retryAsync alwaysFails (-1) 1000 = (Thrown None, []).
Proof.
  apply (proj1 (retryAsync_edge_counts alwaysFails (-1) 1000)). lia.
Defined.

(** ** [autoLabelImage] as a whole *)

(** X23: whatever the configuration, the replies and the image, every
    annotation that [autoLabelImage] returns lies within the image, carries
    the id of one of the active labels, and has a confidence that is not
    below the threshold in force (the configured one, else the default); and
    it returns only when there is at least one active label. *)
Theorem autoLabelImage_returns_valid (img : DatasetImage) (activeLabels : list LabelClass)
    (config : AutoLabelConfig) (api : nat -> string + list GeminiDetectionResult)
    (uuid : nat -> string) (anns : list BBoxWithConfidence) :
  autoLabelImage img activeLabels config api uuid = Returned anns ->
  activeLabels <> [] /\
  Forall (fun s => insideImage (bbox s) /\
                   (exists l, In l activeLabels /\ labelId (bbox s) = lid l) /\
                   s_minConfidence (settings config) <= b_confidence s)
         anns.
Proof.
  unfold autoLabelImage. destruct activeLabels as [|l0 ls]; [discriminate|].
  destruct (fst (retryAsync api (s_maxRetries (settings config)) defaultRetryDelay))
    as [results|[message|]]; try discriminate.
  intros [= <-]. split; [discriminate|]. apply ingest_valid.
Qed.

Lemma autoLabelImage_returns_valid_witness :
  [car0] <> [] /\
  Forall (fun s => insideImage (bbox s) /\
                   (exists l, In l [car0] /\ labelId (bbox s) = lid l) /\
                   s_minConfidence (settings (mkConfig None (Some (3 # 10)) None None None))
                   <= b_confidence s)
         [mkScored (mkBBox "u" "c0" ((2 # 10) + ((6 # 10) - (2 # 10)) / 2)
                           ((1 # 10) + ((5 # 10) - (1 # 10)) / 2)
                           ((6 # 10) - (2 # 10)) ((5 # 10) - (1 # 10)))
                   (1 # 2) None].
Proof.
  apply (autoLabelImage_returns_valid vga [car0] (mkConfig None (Some (3 # 10)) None None None)
           (fun _ => inr [halfSure]) (fun _ => "u")).
  reflexivity.
Defined.



(** ** Export: class indices and composition *)

Lemma findIndex_nodup (labels : list LabelClass) :
  NoDup (map lid labels) ->
  forall (i : nat) (l : LabelClass),
    nth_error labels i = Some l ->
    findIndex (fun l' => String.eqb (lid l') (lid l)) labels = Z.of_nat i.
Proof.
  induction labels as [|l0 ls IH]; intros Hnd i l Hn.
  - destruct i; discriminate.
  - cbn [map] in Hnd. inversion Hnd as [|k ks Hnotin Hnd']; subst.
    destruct i as [|i]; cbn in Hn.
    + injection Hn as ->. cbn [findIndex]. rewrite String.eqb_refl. reflexivity.
    + cbn [findIndex].
      destruct (String.eqb_spec (lid l0) (lid l)) as [He|Hne].
      * exfalso. apply Hnotin. rewrite He. apply in_map. exact (nth_error_In _ _ Hn).
      * rewrite (IH Hnd' i l Hn).
        destruct (Z.eqb_spec (Z.of_nat i) (-1)); lia.
Qed.

(** X25: when the label ids are pairwise distinct, the class index written
    for an annotation is the position of its label: an annotation whose
    [labelId] is the id of the label at position [i] gets a line that starts
    with [i] and a space, and [i] is also the position of that label's name
    among the [names] entries that [generateDataYaml] writes. *)
Theorem classIndex_is_position (labels : list LabelClass) (ann : BBox Q) (i : nat)
    (l : LabelClass) :
  NoDup (map lid labels) ->
  nth_error labels i = Some l ->
  labelId ann = lid l ->
  (exists rest, annotationLine labels ann = decimal (Z.of_nat i) ++ " " ++ rest) /\
  nth_error (map nameLine labels) i = Some ("  - " ++ name l) /\
  exists preamble,
    generateDataYaml labels = preamble ++ join newline (map nameLine labels) ++ newline.
Proof.
  intros Hnd Hn Hl. split; [|split].
  - unfold annotationLine. rewrite Hl, (findIndex_nodup labels Hnd i l Hn).
    destruct (Z.eqb_spec (Z.of_nat i) (-1)); [lia|]. eexists. reflexivity.
  - rewrite nth_error_map, Hn. reflexivity.
  - unfold generateDataYaml. cbv zeta.
    exists (newline ++ "train: ./train/images" ++ newline ++ "val: ./val/images" ++ newline
            ++ newline ++ "nc: " ++ decimal (Z.of_nat (List.length labels)) ++ newline
            ++ "names:" ++ newline).
    rewrite !append_assoc. reflexivity.
Qed.

Lemma classIndex_is_position_witness :
  (exists rest, annotationLine [car0; dog1] (mkBBox "b" "c1" (1 # 10) (2 # 10) (5 # 100) (5 # 100))
                = decimal (Z.of_nat 1) ++ " " ++ rest) /\
  nth_error (map nameLine [car0; dog1]) 1 = Some ("  - " ++ name dog1) /\
  exists preamble,
    generateDataYaml [car0; dog1]
    = preamble ++ join newline (map nameLine [car0; dog1]) ++ newline.
Proof.
  apply (classIndex_is_position [car0; dog1]
           (mkBBox "b" "c1" (1 # 10) (2 # 10) (5 # 100) (5 # 100)) 1 dog1);
    try reflexivity.
  repeat constructor; cbn; intuition discriminate.
Defined.

Lemma concat_app (sep : string) (l1 l2 : list string) :
  l1 <> [] -> l2 <> [] ->
  String.concat sep (l1 ++ l2) = String.concat sep l1 ++ sep ++ String.concat sep l2.
Proof.
  intros H1 H2. induction l1 as [|a l1 IH]; [contradiction|].
  destruct l1 as [|b l1].
  - cbn [app]. destruct l2 as [|c l2]; [contradiction|]. reflexivity.
  - change (String.concat sep ((a :: b :: l1) ++ l2))
      with (a ++ sep ++ String.concat sep ((b :: l1) ++ l2)).
    rewrite IH by discriminate.
    change (String.concat sep (a :: b :: l1)) with (a ++ sep ++ String.concat sep (b :: l1)).
    rewrite !append_assoc. reflexivity.
Qed.

(** X26: exporting is compositional. The text of two non-empty annotation
    lists put one after the other is the text of the first, a newline, and
    the text of the second; the text of no annotation is the empty string,
    so the file of an image without boxes is empty. *)
Theorem export_concatenates (a b : list (BBox Q)) (labels : list LabelClass) :
  generateYoloAnnotation [] labels = "" /\
  (a <> [] -> b <> [] ->
   generateYoloAnnotation (a ++ b) labels
   = generateYoloAnnotation a labels ++ newline ++ generateYoloAnnotation b labels).
Proof.
  split; [reflexivity|]. intros Ha Hb. unfold generateYoloAnnotation, join.
  rewrite map_app. apply concat_app.
  - destruct a; [contradiction | discriminate].
  - destruct b; [contradiction | discriminate].
Qed.

Lemma export_concatenates_witness :
  generateYoloAnnotation (twoBoxes ++ [orphan]) [car0; dog1]
  = generateYoloAnnotation twoBoxes [car0; dog1] ++ newline
    ++ generateYoloAnnotation [orphan] [car0; dog1].
Proof.
  apply (proj2 (export_concatenates twoBoxes [orphan] [car0; dog1])); discriminate.
Defined.

(** X27: a normalized coordinate always takes eight characters: for
    [0 <= q <= 1], [toFixed(6)] writes one digit, the point and six digits,
    with no sign. *)
Theorem toFixed_normalized_width (q : Q) :
  0 <= q -> q <= 1 ->
  String.length (toFixed 6 q) = 8%nat /\
  exists (d : Z) (frac : string),
    (d = 0 \/ d = 1)%Z /\ String.length frac = 6%nat /\ allDigits frac = true /\
    toFixed 6 q = decimal d ++ "." ++ frac.
Proof.
  intros H0 H1.
  assert (fixedRange q) as Hr.
  { unfold fixedRange, fixedLimit. rewrite (Qabs_pos q H0).
    change (inject_Z (10 ^ 21)) with (1000000000000000000000 # 1). lra. }
  assert (Qlt_bool q 0 = false) as Hs by (apply Qlt_bool_false_iff; exact H0).
  rewrite (toFixed_fixed q Hr). cbv zeta. rewrite Hs.
  set (n := Qfloor (Qabs q * inject_Z 1000000 + (1 # 2))).
  assert (0 <= n <= 1000000)%Z as Hn.
  { pose proof (Qfloor_le (Qabs q * inject_Z 1000000 + (1 # 2))) as Hlo.
    pose proof (Qlt_floor (Qabs q * inject_Z 1000000 + (1 # 2))) as Hhi.
    fold n in Hlo, Hhi. rewrite (Qabs_pos q H0) in Hlo, Hhi.
    change (inject_Z 1000000) with (1000000 # 1) in *.
    split.
    - assert (-1 < n)%Z; [|lia]. rewrite Zlt_Qlt.
      rewrite inject_Z_plus in Hhi. change (inject_Z 1) with 1 in Hhi.
      change (inject_Z (-1)) with (-1 # 1). lra.
    - assert (n < 1000001)%Z; [|lia]. rewrite Zlt_Qlt.
      change (inject_Z 1000001) with (1000001 # 1). lra. }
  assert (n / 1000000 = 0 \/ n / 1000000 = 1)%Z as Hd.
  { pose proof (Z.div_mod n 1000000). pose proof (Z.mod_pos_bound n 1000000). lia. }
  split.
  - cbn [append]. rewrite length_append. cbn [String.length].
    rewrite fixedDigits_length. destruct Hd as [-> | ->]; reflexivity.
  - exists (n / 1000000)%Z, (fixedDigits 6 (n mod 1000000)).
    split; [exact Hd|]. split; [apply fixedDigits_length|].
    split; [apply fixedDigits_allDigits | reflexivity].
Qed.

Lemma toFixed_normalized_width_witness :
  String.length (toFixed 6 (1 # 3)) = 8%nat /\
  exists (d : Z) (frac : string),
    (d = 0 \/ d = 1)%Z /\ String.length frac = 6%nat /\ allDigits frac = true /\
    toFixed 6 (1 # 3) = decimal d ++ "." ++ frac.
Proof.
  apply (toFixed_normalized_width (1 # 3)); discriminate.
Defined.

(** ** Canvas: a resize over several pointer moves *)

Lemma find_idIs_id (sel : string) (anns : list (BBox Q)) (ann : BBox Q) :
  find (idIs (Some sel)) anns = Some ann -> id ann = sel.
Proof.
  intro Hf. apply find_some in Hf. destruct Hf as [_ Hid].
  apply String.eqb_eq. exact Hid.
Qed.

(** One pointer move of a resize, seen from [App]. *)
Lemma mouseMove_resizes (app : AppState) (st : CanvasState) (container : option Point)
    (e : MouseEvent) (img : DatasetImage) (sel : string) (handle : ResizeHandleType)
    (ann : BBox Q) (props : CanvasProps) :
  canvasProps app = Some props -> currentImage app = Some img ->
  toolMode app = SELECT -> resizeHandle st = Some handle ->
  selectedAnnId app = Some sel -> sel <> "" ->
  find (idIs (Some sel)) (annotations img) = Some ann ->
  let p := getMousePos props container e in
  mouseMove container e app st =
    (updateAnnotations app
       (map (fun a => if idIs (Some sel) a
                      then withGeometry a
                             (let r := resizeRect handle (yoloToSvg ann (width img) (height img))
                                                  (px p) (py p) in
                              svgToYolo (rx r) (ry r) (rw r) (rh r) (width img) (height img))
                      else a)
            (annotations img)),
     st).
Proof.
  intros Hp Hc Hm Hr Hs Hne Hf p. unfold mouseMove, onCanvas. rewrite Hp.
  unfold canvasProps in Hp. rewrite Hc in Hp. injection Hp as <-.
  assert (truthy (Some sel) = true) as Ht.
  { cbn. destruct (String.eqb_spec sel ""); [contradiction | reflexivity]. }
  rewrite (handleMouseMove_resize
             (mkProps img (a_currentLabelId app) (toolMode app) (a_zoom app) (a_pan app)
                      (selectedAnnId app))
             st container e handle Hm Hr); cbn [selectedAnnotationId];
    [|rewrite Hs; exact Ht].
  cbn [image]. rewrite Hs, Hf. cbv zeta. cbn [deliverAll fold_left deliver].
  rewrite (find_idIs_id sel _ ann Hf). reflexivity.
Qed.

Lemma samePoint_trans (p q r : Point) : samePoint p q -> samePoint q r -> samePoint p r.
Proof.
  intros [H1 H2] [H3 H4]. split; [rewrite H1; exact H3 | rewrite H2; exact H4].
Qed.

Lemma resized_anchor_and_size (handle : ResizeHandleType) (ann : BBox Q) (W H : Q)
    (p : Point) :
  ~ W == 0 -> ~ H == 0 ->
  samePoint (oppositeCorner handle (yoloToSvg (resized handle ann W H p) W H))
            (oppositeCorner handle (yoloToSvg ann W H)) /\
  5 <= rw (yoloToSvg (resized handle ann W H p) W H) /\
  5 <= rh (yoloToSvg (resized handle ann W H p) W H).
Proof.
  intros HW HH. split.
  - exact (resize_stored_keeps_opposite_corner handle ann W H (px p) (py p) HW HH).
  - assert (5 <= rw (resizeRect handle (yoloToSvg ann W H) (px p) (py p)) /\
            5 <= rh (resizeRect handle (yoloToSvg ann W H) (px p) (py p))) as [Hw Hh].
    { generalize (yoloToSvg ann W H). intro rect.
      destruct handle; unfold resizeRect; cbn [rx ry rw rh]; split_minmax; split; lra. }
    assert (forall r : Rect Q,
              rw (yoloToSvg (withGeometry ann (svgToYolo (rx r) (ry r) (rw r) (rh r) W H)) W H)
              == rw r /\
              rh (yoloToSvg (withGeometry ann (svgToYolo (rx r) (ry r) (rw r) (rh r) W H)) W H)
              == rh r) as Hback.
    { intro r. unfold yoloToSvg, svgToYolo, withGeometry; cbn. split; field; assumption. }
    unfold resized. cbv zeta.
    destruct (Hback (resizeRect handle (yoloToSvg ann W H) (px p) (py p))) as [Ew Eh].
    rewrite Ew, Eh. split; assumption.
Qed.

Lemma find_resized (sel : string) (anns : list (BBox Q)) (ann : BBox Q) (g : Rect Q) :
  find (idIs (Some sel)) anns = Some ann ->
  find (idIs (Some sel))
       (map (fun a => if idIs (Some sel) a then withGeometry a g else a) anns)
  = Some (withGeometry ann g).
Proof.
  intro Hf.
  rewrite (find_map_update (idIs (Some sel)) (fun a => withGeometry a g)).
  - rewrite Hf. reflexivity.
  - intro a. reflexivity.
Qed.

(** X28: the anchor holds over a whole resize. After two pointer moves of
    a resize on an image with a size, the selected box, drawn in pixels,
    still has the corner opposite to the handle where it was before the
    gesture, is at least 5 pixels wide and high, and keeps its id and label;
    the state of the gesture is unchanged. *)
Theorem resize_gesture_keeps_anchor (app : AppState) (st : CanvasState)
    (container : option Point) (e1 e2 : MouseEvent) (img : DatasetImage) (sel : string)
    (handle : ResizeHandleType) (ann : BBox Q) (props : CanvasProps) :
  canvasProps app = Some props -> currentImage app = Some img ->
  truthy (selectedImageId app) = true -> toolMode app = SELECT ->
  resizeHandle st = Some handle -> selectedAnnId app = Some sel -> sel <> "" ->
  find (idIs (Some sel)) (annotations img) = Some ann ->
  ~ width img == 0 -> ~ height img == 0 ->
  let after1 := mouseMove container e1 app st in
  let after2 := mouseMove container e2 (fst after1) (snd after1) in
  exists img2 ann2,
    currentImage (fst after2) = Some img2 /\
    find (idIs (Some sel)) (annotations img2) = Some ann2 /\
    id ann2 = id ann /\ labelId ann2 = labelId ann /\
    samePoint (oppositeCorner handle (yoloToSvg ann2 (width img) (height img)))
              (oppositeCorner handle (yoloToSvg ann (width img) (height img))) /\
    5 <= rw (yoloToSvg ann2 (width img) (height img)) /\
    5 <= rh (yoloToSvg ann2 (width img) (height img)) /\
    snd after2 = st.
Proof.
  intros Hp Hc Ht Hm Hr Hs Hne Hf HW HH after1 after2.
  set (p1 := getMousePos props container e1).
  set (p2 := getMousePos props container e2).
  set (ann1 := resized handle ann (width img) (height img) p1).
  set (ann2 := resized handle ann1 (width img) (height img) p2).
  set (anns1 := map (fun a => if idIs (Some sel) a
                              then withGeometry a
                                     (let r := resizeRect handle
                                                 (yoloToSvg ann (width img) (height img))
                                                 (px p1) (py p1) in
                                      svgToYolo (rx r) (ry r) (rw r) (rh r)
                                                (width img) (height img))
                              else a) (annotations img)).
  assert (after1 = (updateAnnotations app anns1, st)) as H1
    by exact (mouseMove_resizes app st container e1 img sel handle ann props
                Hp Hc Hm Hr Hs Hne Hf).
  assert (currentImage (updateAnnotations app anns1) = Some (withAnnotations img anns1)) as Hc1
    by (apply currentImage_updateAnnotations; assumption).
  assert (selectedImageId (updateAnnotations app anns1) = selectedImageId app) as Hsel.
  { unfold updateAnnotations. destruct (negb (truthy (selectedImageId app))); reflexivity. }
  assert (toolMode (updateAnnotations app anns1) = SELECT) as Hm1.
  { unfold updateAnnotations. destruct (negb (truthy (selectedImageId app))); exact Hm. }
  assert (selectedAnnId (updateAnnotations app anns1) = Some sel) as Hs1.
  { unfold updateAnnotations. destruct (negb (truthy (selectedImageId app))); exact Hs. }
  assert (canvasProps (updateAnnotations app anns1)
          = Some (mkProps (withAnnotations img anns1) (currentLabelId props) (mode props)
                          (zoom props) (pan props) (selectedAnnotationId props))) as Hp1.
  { unfold canvasProps in *. rewrite Hc1. rewrite Hc in Hp. injection Hp as <-.
    unfold updateAnnotations. destruct (negb (truthy (selectedImageId app))); reflexivity. }
  assert (find (idIs (Some sel)) anns1 = Some ann1) as Hf1
    by exact (find_resized sel (annotations img) ann _ Hf).
  set (anns2 := map (fun a => if idIs (Some sel) a
                              then withGeometry a
                                     (let r := resizeRect handle
                                                 (yoloToSvg ann1 (width img) (height img))
                                                 (px p2) (py p2) in
                                      svgToYolo (rx r) (ry r) (rw r) (rh r)
                                                (width img) (height img))
                              else a) anns1).
  assert (after2 = (updateAnnotations (updateAnnotations app anns1) anns2, st)) as H2.
  { unfold after2. rewrite H1. cbn [fst snd].
    exact (mouseMove_resizes (updateAnnotations app anns1) st container e2
             (withAnnotations img anns1) sel handle ann1 _ Hp1 Hc1 Hm1 Hr Hs1 Hne Hf1). }
  rewrite H2. cbn [fst snd].
  exists (withAnnotations (withAnnotations img anns1) anns2), ann2.
  split.
  { apply currentImage_updateAnnotations; [rewrite Hsel; exact Ht | exact Hc1]. }
  split.
  { cbn [annotations withAnnotations]. exact (find_resized sel anns1 ann1 _ Hf1). }
  split; [reflexivity|]. split; [reflexivity|].
  destruct (resized_anchor_and_size handle ann (width img) (height img) p1 HW HH)
    as (Ha1 & _ & _).
  destruct (resized_anchor_and_size handle ann1 (width img) (height img) p2 HW HH)
    as (Ha2 & Hw2 & Hh2).
  fold ann1 in Ha1. fold ann2 in Ha2, Hw2, Hh2.
  split; [exact (samePoint_trans _ _ _ Ha2 Ha1)|].
  split; [exact Hw2|]. split; [exact Hh2 | reflexivity].
Qed.

Lemma resize_gesture_keeps_anchor_witness :
  let img := image resizeProps in
  let ann := mkBBox "b1" "0" (1 # 2) (1 # 2) (1 # 4) (1 # 4) in
  let after1 := mouseMove (Some (mkPoint 0 0)) (mkEvent 300 200) (editorApp SELECT) resizeState in
  let after2 := mouseMove (Some (mkPoint 0 0)) (mkEvent 500 400) (fst after1) (snd after1) in
  exists img2 ann2,
    currentImage (fst after2) = Some img2 /\
    find (idIs (Some "b1")) (annotations img2) = Some ann2 /\
    id ann2 = id ann /\ labelId ann2 = labelId ann /\
    samePoint (oppositeCorner tl (yoloToSvg ann2 (width img) (height img)))
              (oppositeCorner tl (yoloToSvg ann (width img) (height img))) /\
    5 <= rw (yoloToSvg ann2 (width img) (height img)) /\
    5 <= rh (yoloToSvg ann2 (width img) (height img)) /\
    snd after2 = resizeState.
Proof.
  apply (resize_gesture_keeps_anchor (editorApp SELECT) resizeState (Some (mkPoint 0 0))
           (mkEvent 300 200) (mkEvent 500 400) (image resizeProps) "b1" tl
           (mkBBox "b1" "0" (1 # 2) (1 # 2) (1 # 4) (1 # 4))
           (mkProps (image resizeProps) "c0" SELECT 1 (mkPoint 0 0) (Some "b1")));
    try reflexivity; discriminate.
Defined.

Lemma mouseUp_ends_gesture_witness :
  snd (handleMouseUp (mkProps (image resizeProps) "c0" DRAW 1 (mkPoint 0 0) None)
                     (mkState true (Some (mkPoint 10 10)) (Some (mkRect 10 10 3 40)) None None)
                     "u") = [].
Proof.
  apply (proj2 (proj2 (proj2 (proj2 (proj2 (proj2 (proj2
           (mouseUp_ends_gesture (mkProps (image resizeProps) "c0" DRAW 1 (mkPoint 0 0) None)
              (mkState true (Some (mkPoint 10 10)) (Some (mkRect 10 10 3 40)) None None)
              "u"))))))) (mkRect 10 10 3 40)).
  - reflexivity.
  - left. discriminate.
Defined.

(** ** Merge modal: the default selection *)

(** X29: the selection that the merge modal opens with can be confirmed.
    With at least two labels whose ids are pairwise distinct and not empty,
    opening the modal selects the last label as source and the first as
    target, and confirming then calls [onMerge] with exactly these two ids,
    which differ and both belong to the label list. *)
Theorem openSelection_confirmable (labels : list LabelClass) (selection : string * string) :
  (2 <= List.length labels)%nat ->
  NoDup (map lid labels) ->
  (forall l, In l labels -> lid l <> "") ->
  exists lastLabel firstLabel,
    nth_error labels (List.length labels - 1) = Some lastLabel /\
    nth_error labels 0 = Some firstLabel /\
    openSelection true labels selection = (lid lastLabel, lid firstLabel) /\
    handleConfirm (fst (openSelection true labels selection))
                  (snd (openSelection true labels selection))
    = Some (lid lastLabel, lid firstLabel) /\
    lid lastLabel <> lid firstLabel /\
    hasLabel (lid lastLabel) labels = true /\ hasLabel (lid firstLabel) labels = true.
Proof.
  intros Hlen Hnd Hids.
  destruct (nth_error labels (List.length labels - 1)) as [lastLabel|] eqn:Hlast;
    [|apply nth_error_None in Hlast; lia].
  destruct (nth_error labels 0) as [firstLabel|] eqn:Hfirst;
    [|apply nth_error_None in Hfirst; lia].
  exists lastLabel, firstLabel.
  assert (openSelection true labels selection = (lid lastLabel, lid firstLabel)) as Ho.
  { unfold openSelection. cbn [andb].
    destruct (Nat.leb_spec 2 (List.length labels)); [|lia]. rewrite Hlast, Hfirst.
    reflexivity. }
  assert (lid lastLabel <> lid firstLabel) as Hne.
  { intro He.
    assert (nth_error (map lid labels) (List.length labels - 1) = Some (lid lastLabel)) as H1
      by (rewrite nth_error_map, Hlast; reflexivity).
    assert (nth_error (map lid labels) 0 = Some (lid lastLabel)) as H0
      by (rewrite nth_error_map, Hfirst, He; reflexivity).
    rewrite <- H0 in H1.
    apply (proj1 (NoDup_nth_error (map lid labels)) Hnd) in H1;
      [lia | rewrite length_map; lia]. }
  assert (forall l, In l labels -> hasLabel (lid l) labels = true) as Hhas.
  { intros l Hin. unfold hasLabel. apply existsb_exists. exists l.
    split; [exact Hin | apply String.eqb_refl]. }
  split; [reflexivity|]. split; [reflexivity|]. split; [exact Ho|].
  split.
  { rewrite Ho. cbn [fst snd]. apply handleConfirm_calls.
    split; [apply Hids; exact (nth_error_In _ _ Hlast)|].
    split; [apply Hids; exact (nth_error_In _ _ Hfirst) | exact Hne]. }
  split; [exact Hne|].
  split; apply Hhas; [exact (nth_error_In _ _ Hlast) | exact (nth_error_In _ _ Hfirst)].
Qed.

Lemma openSelection_confirmable_witness :
  exists lastLabel firstLabel,
    nth_error [car0; dog1; carpet] (List.length [car0; dog1; carpet] - 1) = Some lastLabel /\
    nth_error [car0; dog1; carpet] 0 = Some firstLabel /\
    openSelection true [car0; dog1; carpet] ("", "") = (lid lastLabel, lid firstLabel) /\
    handleConfirm (fst (openSelection true [car0; dog1; carpet] ("", "")))
                  (snd (openSelection true [car0; dog1; carpet] ("", "")))
    = Some (lid lastLabel, lid firstLabel) /\
    lid lastLabel <> lid firstLabel /\
    hasLabel (lid lastLabel) [car0; dog1; carpet] = true /\
    hasLabel (lid firstLabel) [car0; dog1; carpet] = true.
Proof.
  apply (openSelection_confirmable [car0; dog1; carpet] ("", "")).
  - cbn. lia.
  - repeat constructor; cbn; intuition discriminate.
  - intros l [<-|[<-|[<-|[]]]]; discriminate.
Defined.
